(** * journalentry: a shallow embedding of [journalentry.go] and its properties

    The Go package keeps one journal entry per day in a file whose name
    carries the date, with a small metadata header followed by the body.
    This development embeds the functions of the package that its stated
    properties are about, together with the parts of the Go library they
    call, and settles each property.

    Conventions.
    - A Go [string] or [[]byte] is a [string] (a sequence of 8-bit [ascii]
      bytes); text is UTF-8 and is decoded to runes where the Go library does.
    - Go integers are [Z]; a narrowing conversion is written out as [mod].
    - [error] values are an inductive type; a nil error is [None].
    - State is passed explicitly: the entry behind the receiver pointer,
      the input reader, the output writer and the file system. *)

From Stdlib Require Import ZArith Ascii String List Bool Lia Permutation.
From stdpp Require Import gmap strings list fin_maps.

Local Open Scope Z_scope.

(** ** Bytes and strings *)

Definition byteZ (c : ascii) : Z := Z.of_N (N_of_ascii c).
Definition byteOfZ (z : Z) : ascii := ascii_of_N (Z.to_N z).

(** The one-byte string holding a line feed (Go's ["\n"]). *)
Definition nl : string := String (byteOfZ 10) EmptyString.

(** [s[i]] as a number; the callers check [i < len(s)] first. *)
Definition byteAt (s : string) (i : nat) : Z :=
  match String.get i s with
  | Some c => byteZ c
  | None => 0
  end.

(** [s[n:]] *)
Fixpoint dropS (n : nat) (s : string) : string :=
  match n, s with
  | O, _ => s
  | S k, String _ s' => dropS k s'
  | S _, EmptyString => EmptyString
  end.

(** [s[:n]] *)
Fixpoint takeS (n : nat) (s : string) : string :=
  match n, s with
  | S k, String c s' => String c (takeS k s')
  | _, _ => EmptyString
  end.

(** [strings.HasPrefix(s, p)], returning the rest of [s] after [p]. *)
Fixpoint cutPrefix (p s : string) : option string :=
  match p with
  | EmptyString => Some s
  | String a p' =>
      match s with
      | String b s' => if Ascii.eqb a b then cutPrefix p' s' else None
      | EmptyString => None
      end
  end.

(** ** Errors *)

Inductive error : Type :=
| EOF                       (* io.EOF *)
| ErrIO (msg : string)      (* any other failure of the input stream *)
| ErrNotExist               (* os.ErrNotExist, ENOENT *)
| ErrPermission             (* EACCES *)
| ErrReadOnly               (* EROFS *)
| ErrIsDir                  (* EISDIR *)
| ErrNew (msg : string)     (* errors.New(msg) *)
| ErrSyntax                 (* strconv.ErrSyntax *)
| ErrRange                  (* strconv.ErrRange *)
| ErrParseTime (msg : string) (* *time.ParseError *)
| ErrFrontmatter (msg : string).

(** ** unicode/utf8 *)

Module Utf8.

Definition RuneError : Z := 65533.
Definition RuneSelf : Z := 128.
Definition UTFMax : nat := 4.

(** The [first] table together with [acceptRanges]: for a leading byte,
    the size of the sequence and the accepted range of the second byte;
    [None] is the entry [xx] (an invalid leading byte). *)
Definition first (s0 : Z) : option (nat * Z * Z) :=
  if (194 <=? s0) && (s0 <=? 223) then Some (2%nat, 128, 191)
  else if s0 =? 224 then Some (3%nat, 160, 191)
  else if (225 <=? s0) && (s0 <=? 236) then Some (3%nat, 128, 191)
  else if s0 =? 237 then Some (3%nat, 128, 159)
  else if (238 <=? s0) && (s0 <=? 239) then Some (3%nat, 128, 191)
  else if s0 =? 240 then Some (4%nat, 144, 191)
  else if (241 <=? s0) && (s0 <=? 243) then Some (4%nat, 128, 191)
  else if s0 =? 244 then Some (4%nat, 128, 143)
  else None.

Definition cont (b : Z) : bool := (128 <=? b) && (b <=? 191).

(** [utf8.DecodeRuneInString]: the first rune of [s] and its width. *)
Definition DecodeRuneInString (s : string) : Z * nat :=
  let n := String.length s in
  if (n <? 1)%nat then (RuneError, 0%nat)
  else
    let s0 := byteAt s 0 in
    if s0 <? RuneSelf then (s0, 1%nat)
    else
      match first s0 with
      | None => (RuneError, 1%nat)
      | Some (sz, lo, hi) =>
          if (n <? sz)%nat then (RuneError, 1%nat)
          else
            let s1 := byteAt s 1 in
            if (s1 <? lo) || (hi <? s1) then (RuneError, 1%nat)
            else if (sz <=? 2)%nat then
              (Z.lor (Z.shiftl (Z.land s0 31) 6) (Z.land s1 63), 2%nat)
            else
              let s2 := byteAt s 2 in
              if negb (cont s2) then (RuneError, 1%nat)
              else if (sz <=? 3)%nat then
                (Z.lor (Z.lor (Z.shiftl (Z.land s0 15) 12)
                              (Z.shiftl (Z.land s1 63) 6))
                       (Z.land s2 63), 3%nat)
              else
                let s3 := byteAt s 3 in
                if negb (cont s3) then (RuneError, 1%nat)
                else
                  (Z.lor (Z.lor (Z.lor (Z.shiftl (Z.land s0 7) 18)
                                       (Z.shiftl (Z.land s1 63) 12))
                                (Z.shiftl (Z.land s2 63) 6))
                         (Z.land s3 63), 4%nat)
      end.

(** [utf8.RuneStart] *)
Definition RuneStart (b : Z) : bool := negb (Z.land b 192 =? 128).

(** The backward scan of [DecodeLastRuneInString]:
    [for start--; start >= lim; start-- { if RuneStart(s[start]) { break } }],
    entered at [start] with [n] iterations left before [lim] is passed. *)
Fixpoint scanBack (s : string) (n : nat) (start : Z) : Z :=
  match n with
  | O => start
  | S k =>
      if RuneStart (byteAt s (Z.to_nat start)) then start
      else scanBack s k (start - 1)
  end.

(** [utf8.DecodeLastRuneInString]: the last rune of [s] and its width. *)
Definition DecodeLastRuneInString (s : string) : Z * nat :=
  let end_ := Z.of_nat (String.length s) in
  if end_ =? 0 then (RuneError, 0%nat)
  else
    let start := end_ - 1 in
    let r := byteAt s (Z.to_nat start) in
    if r <? RuneSelf then (r, 1%nat)
    else
      let lim := Z.max 0 (end_ - Z.of_nat UTFMax) in
      let start := scanBack s (Z.to_nat (start - lim)) (start - 1) in
      let start := Z.max 0 start in
      let '(r, size) := DecodeRuneInString (dropS (Z.to_nat start) s) in
      if start + Z.of_nat size =? end_ then (r, size)
      else (RuneError, 1%nat).

(** The runes a [for _, r := range s] loop, or the regexp engine stepping
    through [s], sees: a rune is decoded at each position that is not
    inside the rune decoded before it. *)
Fixpoint runesFrom (skip : nat) (s : string) : list Z :=
  match s with
  | EmptyString => []
  | String _ s' =>
      match skip with
      | S k => runesFrom k s'
      | O =>
          let '(r, size) := DecodeRuneInString s in
          r :: runesFrom (size - 1) s'
      end
  end.

Definition runes (s : string) : list Z := runesFrom 0 s.

End Utf8.

(** ** unicode and strings *)

Module Unicode.

(** [unicode.IsSpace]: the Latin-1 cases, then the [White_Space] table. *)
Definition IsSpace (r : Z) : bool :=
  if (0 <=? r) && (r <=? 255) then
    (r =? 9) || (r =? 10) || (r =? 11) || (r =? 12) || (r =? 13)
    || (r =? 32) || (r =? 133) || (r =? 160)
  else
    (r =? 5760) || ((8192 <=? r) && (r <=? 8202))
    || (r =? 8232) || (r =? 8233) || (r =? 8239) || (r =? 8287)
    || (r =? 12288).

End Unicode.

Module Strings.

(** [strings.TrimLeftFunc(s, f)]: runes are decoded from the left while
    [f] holds. [fuel] bounds the number of runes looked at. *)
Fixpoint trimLeftLoop (f : Z -> bool) (fuel : nat) (s : string) : string :=
  match fuel with
  | O => s
  | S k =>
      match s with
      | EmptyString => EmptyString
      | String _ _ =>
          let '(r, size) := Utf8.DecodeRuneInString s in
          if f r then trimLeftLoop f k (dropS size s) else s
      end
  end.

Definition TrimLeftFunc (s : string) (f : Z -> bool) : string :=
  trimLeftLoop f (String.length s) s.

(** [strings.TrimRightFunc(s, f)]: the same from the right with
    [DecodeLastRuneInString]. *)
Fixpoint trimRightLoop (f : Z -> bool) (fuel : nat) (s : string) : string :=
  match fuel with
  | O => s
  | S k =>
      match s with
      | EmptyString => EmptyString
      | String _ _ =>
          let '(r, size) := Utf8.DecodeLastRuneInString s in
          if f r then trimRightLoop f k (takeS (String.length s - size) s)
          else s
      end
  end.

Definition TrimRightFunc (s : string) (f : Z -> bool) : string :=
  trimRightLoop f (String.length s) s.

(** [strings.TrimSpace]: [TrimFunc(s, unicode.IsSpace)]; the ASCII fast
    path of the library computes the same string. *)
Definition TrimSpace (s : string) : string :=
  TrimRightFunc (TrimLeftFunc s Unicode.IsSpace) Unicode.IsSpace.

End Strings.

(** ** strconv *)

Module Strconv.

(** [lower(c)]: [c | ('x' - 'X')] *)
Definition lower (c : Z) : Z := Z.lor c 32.

(** The digit loop of [strconv.ParseUint] with the running value [n];
    [maxVal] is [1<<bitSize - 1]. The overflow tests of the library
    ([n >= cutoff], [n1 < n || n1 > maxVal]) are the single test
    [maxVal < n*base + d] on unbounded integers. *)
Fixpoint parseDigits (base maxVal n : Z) (s : string) : Z * option error :=
  match s with
  | EmptyString => (n, None)
  | String ch s' =>
      let c := byteZ ch in
      let d := if (48 <=? c) && (c <=? 57) then c - 48
               else if (97 <=? lower c) && (lower c <=? 122)
                    then lower c - 97 + 10
                    else base in
      if base <=? d then (0, Some ErrSyntax)
      else
        let n1 := n * base + d in
        if maxVal <? n1 then (maxVal, Some ErrRange)
        else parseDigits base maxVal n1 s'
  end.

(** [strconv.ParseUint(s, base, bitSize)] for [2 <= base <= 36] and
    [bitSize > 0]. *)
Definition ParseUint (s : string) (base bitSize : Z) : Z * option error :=
  match s with
  | EmptyString => (0, Some ErrSyntax)
  | String _ _ => parseDigits base (2 ^ bitSize - 1) 0 s
  end.

Definition digitChar (d : Z) : ascii := byteOfZ (48 + d).

(** The decimal digits of [u >= 0] in front of [acc], most significant
    first and at least one digit, assembled from the last digit as the
    library does; [fuel] bounds their number. *)
Fixpoint utoa (fuel : nat) (u : Z) (acc : string) : string :=
  match fuel with
  | O => acc
  | S k =>
      let acc' := String (digitChar (u mod 10)) acc in
      if u <? 10 then acc' else utoa k (u / 10) acc'
  end.

(** [strconv.FormatUint(u, 10)] for a 64-bit [u] (at most 20 digits). *)
Definition FormatUint (u : Z) : string := utoa 20 u EmptyString.

End Strconv.

(** ** regexp *)

Module Regexp.

(** The syntax of the patterns the package compiles. A pattern is matched
    against the runes of the text. *)
Inductive regex : Type :=
| Empty                          (* the empty pattern *)
| Class (p : Z -> bool)          (* one rune of a class: [\d], [\D], [.], [[1-5]], a literal *)
| Cat (r1 r2 : regex)            (* r1 r2 *)
| Alt (r1 r2 : regex)            (* r1|r2 *)
| BeginText                      (* ^ without the m flag *)
| EndText.                       (* $ without the m flag *)

(** Derived forms. *)
Definition char (c : Z) : regex := Class (Z.eqb c).

Definition lit (s : string) : regex :=
  fold_right (fun c r => Cat (char c) r) Empty (Utf8.runes s).

(** [r{n}] *)
Fixpoint rep (n : nat) (r : regex) : regex :=
  match n with
  | O => Empty
  | S k => Cat r (rep k r)
  end.

(** [r{0,n}] *)
Fixpoint upTo (n : nat) (r : regex) : regex :=
  match n with
  | O => Empty
  | S k => Alt (Cat r (upTo k r)) Empty
  end.

(** [r{lo,hi}] *)
Definition repRange (lo hi : nat) (r : regex) : regex :=
  Cat (rep lo r) (upTo (hi - lo) r).

(** [\d] is [[0-9]]; [\D] is its complement; [.] is any rune but a
    line feed (no s flag). *)
Definition isDigitRune (c : Z) : bool := (48 <=? c) && (c <=? 57).
Definition digit : regex := Class isDigitRune.
Definition nonDigit : regex := Class (fun c => negb (isDigitRune c)).
Definition anyCharNotNL : regex := Class (fun c => negb (c =? 10)).
Definition range (lo hi : Z) : regex := Class (fun c => (lo <=? c) && (c <=? hi)).

(** A backtracking matcher in continuation-passing style: [accepts r k
    bot t] tries [r] at the head of [t] and hands what is left to [k];
    [bot] tells whether the head of [t] is the beginning of the text. *)
Fixpoint accepts (r : regex) (k : bool -> list Z -> bool)
         (bot : bool) (t : list Z) : bool :=
  match r with
  | Empty => k bot t
  | Class p =>
      match t with
      | c :: t' => p c && k false t'
      | [] => false
      end
  | Cat r1 r2 => accepts r1 (fun b u => accepts r2 k b u) bot t
  | Alt r1 r2 => accepts r1 k bot t || accepts r2 k bot t
  | BeginText => bot && k bot t
  | EndText =>
      match t with
      | [] => k bot t
      | _ :: _ => false
      end
  end.

(** An unanchored search: a match may start at any position. *)
Fixpoint search (r : regex) (bot : bool) (t : list Z) : bool :=
  accepts r (fun _ _ => true) bot t
  || match t with
     | [] => false
     | _ :: t' => search r false t'
     end.

(** [regexp.MustCompile(r).MatchString(s)]: whether [s] contains a match. *)
Definition MatchString (r : regex) (s : string) : bool :=
  search r true (Utf8.runes s).

(** *** Patterns [c+]

    The package has one pattern outside the syntax above, [`\S+`]: a
    single class under a greedy [+]. A match of such a pattern starts at
    the first rune of the class and runs on while the runes are of the
    class. *)

(** [\S] is the complement of [\s], which is [[\t\n\f\r ]]. *)
Definition nonSpaceRune (c : Z) : bool :=
  negb ((c =? 9) || (c =? 10) || (c =? 12) || (c =? 13) || (c =? 32)).

(** The length in bytes of the longest prefix of [s] whose runes are all
    of the class [p]; [fuel] bounds the number of runes. *)
Fixpoint spanLoop (p : Z -> bool) (fuel : nat) (s : string) : nat :=
  match fuel with
  | O => O
  | S k =>
      match s with
      | EmptyString => O
      | String _ _ =>
          let '(r, size) := Utf8.DecodeRuneInString s in
          if p r then (size + spanLoop p k (dropS size s))%nat else O
      end
  end.

(** The loop of [FindAll] for the pattern [c+] of the class [p]: the
    leftmost match from the current position on is looked for, delivered,
    and the search goes on where it ended. A rune outside the class is
    stepped over. *)
Fixpoint findAllLoop (p : Z -> bool) (fuel : nat) (s : string) : list string :=
  match fuel with
  | O => []
  | S k =>
      match s with
      | EmptyString => []
      | String _ _ =>
          let '(r, size) := Utf8.DecodeRuneInString s in
          if p r then
            let n := spanLoop p (String.length s) s in
            takeS n s :: findAllLoop p k (dropS n s)
          else findAllLoop p k (dropS size s)
      end
  end.

(** [regexp.MustCompile(c+).FindAll(b, -1)]: all successive matches. *)
Definition FindAllPlus (p : Z -> bool) (b : string) : list string :=
  findAllLoop p (String.length b) b.

End Regexp.

(** ** time *)

Module Time.

(** A [time.Time] as its calendar date and the nanoseconds elapsed since
    midnight; the location is not modelled. *)
Record Time : Type := mkTime { year : Z; month : Z; day : Z; nsec : Z }.

(** [Time{}], the zero time: January 1 of year 1. *)
Definition zero : Time := mkTime 1 1 1 0.

Definition eqb (a b : Time) : bool :=
  (year a =? year b) && (month a =? month b) && (day a =? day b)
  && (nsec a =? nsec b).

(** The layout verbs. The verbs of the calendar date are modelled one by
    one; the verbs of the clock, the week day, the day of the year, the
    zone and the fractional seconds are scanned as the library scans them
    and collected in [stdOther]. *)
Inductive Std : Type :=
| stdNone            (* 0: no verb left *)
| stdLongMonth       (* January *)
| stdMonth           (* Jan *)
| stdNumMonth        (* 1 *)
| stdZeroMonth       (* 01 *)
| stdDay             (* 2 *)
| stdUnderDay        (* _2 *)
| stdZeroDay         (* 02 *)
| stdLongYear        (* 2006 *)
| stdYear            (* 06 *)
| stdOther.

Definition isDigitByte (c : Z) : bool := (48 <=? c) && (c <=? 57).

(** [isDigit(s, i)] *)
Definition isDigit (s : string) (i : nat) : bool :=
  match String.get i s with
  | Some c => isDigitByte (byteZ c)
  | None => false
  end.

(** [startsWithLowerCase] *)
Definition startsWithLowerCase (s : string) : bool :=
  match s with
  | EmptyString => false
  | String c _ => (97 <=? byteZ c) && (byteZ c <=? 122)
  end.

Definition hasPrefix (p s : string) : bool :=
  match cutPrefix p s with Some _ => true | None => false end.

(** The run of bytes equal to [ch] at the head of [s] is dropped. *)
Fixpoint dropRun (ch : ascii) (s : string) : string :=
  match s with
  | String c s' => if Ascii.eqb c ch then dropRun ch s' else s
  | EmptyString => EmptyString
  end.

(** The body of the [switch] in [nextStdChunk] at one position: [l] is
    [layout[i:]]. The result is the part of [l] that still belongs to the
    prefix, the verb and the suffix; [None] when no verb starts here. *)
Definition stdAt (l : string) : option (string * Std * string) :=
  match l with
  | EmptyString => None
  | String c rest =>
      let b := byteZ c in
      if b =? 74 (* J *) then
        if hasPrefix "Jan" l then
          if hasPrefix "January" l then Some (EmptyString, stdLongMonth, dropS 7 l)
          else if negb (startsWithLowerCase (dropS 3 l))
               then Some (EmptyString, stdMonth, dropS 3 l)
               else None
        else None
      else if b =? 77 (* M *) then
        if hasPrefix "Mon" l then
          if hasPrefix "Monday" l then Some (EmptyString, stdOther, dropS 6 l)
          else if negb (startsWithLowerCase (dropS 3 l))
               then Some (EmptyString, stdOther, dropS 3 l)
               else None
        else if hasPrefix "MST" l then Some (EmptyString, stdOther, dropS 3 l)
        else None
      else if b =? 48 (* 0 *) then
        if hasPrefix "01" l then Some (EmptyString, stdZeroMonth, dropS 2 l)
        else if hasPrefix "02" l then Some (EmptyString, stdZeroDay, dropS 2 l)
        else if hasPrefix "03" l || hasPrefix "04" l || hasPrefix "05" l
             then Some (EmptyString, stdOther, dropS 2 l)
        else if hasPrefix "06" l then Some (EmptyString, stdYear, dropS 2 l)
        else if hasPrefix "002" l then Some (EmptyString, stdOther, dropS 3 l)
        else None
      else if b =? 49 (* 1 *) then
        if hasPrefix "15" l then Some (EmptyString, stdOther, dropS 2 l)
        else Some (EmptyString, stdNumMonth, rest)
      else if b =? 50 (* 2 *) then
        if hasPrefix "2006" l then Some (EmptyString, stdLongYear, dropS 4 l)
        else Some (EmptyString, stdDay, rest)
      else if b =? 95 (* _ *) then
        if hasPrefix "_2" l then
          if hasPrefix "_2006" l then Some ("_", stdLongYear, dropS 5 l)
          else Some (EmptyString, stdUnderDay, dropS 2 l)
        else if hasPrefix "__2" l then Some (EmptyString, stdOther, dropS 3 l)
        else None
      else if (b =? 51) || (b =? 52) || (b =? 53) (* 3, 4, 5 *) then
        Some (EmptyString, stdOther, rest)
      else if b =? 80 (* P *) then
        if hasPrefix "PM" l then Some (EmptyString, stdOther, dropS 2 l) else None
      else if b =? 112 (* p *) then
        if hasPrefix "pm" l then Some (EmptyString, stdOther, dropS 2 l) else None
      else if b =? 45 (* - *) then
        if hasPrefix "-070000" l then Some (EmptyString, stdOther, dropS 7 l)
        else if hasPrefix "-07:00:00" l then Some (EmptyString, stdOther, dropS 9 l)
        else if hasPrefix "-0700" l then Some (EmptyString, stdOther, dropS 5 l)
        else if hasPrefix "-07:00" l then Some (EmptyString, stdOther, dropS 6 l)
        else if hasPrefix "-07" l then Some (EmptyString, stdOther, dropS 3 l)
        else None
      else if b =? 90 (* Z *) then
        if hasPrefix "Z070000" l then Some (EmptyString, stdOther, dropS 7 l)
        else if hasPrefix "Z07:00:00" l then Some (EmptyString, stdOther, dropS 9 l)
        else if hasPrefix "Z0700" l then Some (EmptyString, stdOther, dropS 5 l)
        else if hasPrefix "Z07:00" l then Some (EmptyString, stdOther, dropS 6 l)
        else if hasPrefix "Z07" l then Some (EmptyString, stdOther, dropS 3 l)
        else None
      else if (b =? 46) || (b =? 44) (* . and , *) then
        match rest with
        | String ch _ =>
            if (byteZ ch =? 48) || (byteZ ch =? 57) then
              let after := dropRun ch rest in
              if negb (isDigit after 0) then Some (EmptyString, stdOther, after)
              else None
            else None
        | EmptyString => None
        end
      else None
  end.

(** [nextStdChunk(layout)]: the literal prefix before the first verb, the
    verb, and the rest of the layout. *)
Fixpoint nextStdChunk (layout : string) : string * Std * string :=
  match layout with
  | EmptyString => (EmptyString, stdNone, EmptyString)
  | String c rest =>
      match stdAt layout with
      | Some (pre, std, suffix) => (pre, std, suffix)
      | None =>
          let '(prefix, std, suffix) := nextStdChunk rest in
          (String c prefix, std, suffix)
      end
  end.

Definition shortMonthNames : list string :=
  ["Jan"; "Feb"; "Mar"; "Apr"; "May"; "Jun";
   "Jul"; "Aug"; "Sep"; "Oct"; "Nov"; "Dec"].

Definition longMonthNames : list string :=
  ["January"; "February"; "March"; "April"; "May"; "June";
   "July"; "August"; "September"; "October"; "November"; "December"].

(** [Month.String()] for a month in 1..12. *)
Definition monthString (m : Z) : string :=
  nth (Z.to_nat (m - 1)) longMonthNames EmptyString.

Fixpoint zeros (n : nat) : string :=
  match n with
  | O => EmptyString
  | S k => String (Strconv.digitChar 0) (zeros k)
  end.

(** [appendInt(b, x, width)] without the buffer: the decimal form of [x],
    padded with zeros to [width] digits, after a minus sign when [x < 0]. *)
Definition appendInt (x : Z) (width : nat) : string :=
  let u := Z.abs x in
  let ds := Strconv.FormatUint u in
  (if x <? 0 then "-" else EmptyString)
    +:+ zeros (width - String.length ds) +:+ ds.

(** What [Time.Format] appends for one verb. *)
Definition formatStd (t : Time) (std : Std) : string :=
  match std with
  | stdYear => appendInt (Z.abs (year t) mod 100) 2
  | stdLongYear => appendInt (year t) 4
  | stdMonth => takeS 3 (monthString (month t))
  | stdLongMonth => monthString (month t)
  | stdNumMonth => appendInt (month t) 0
  | stdZeroMonth => appendInt (month t) 2
  | stdDay => appendInt (day t) 0
  | stdUnderDay => (if day t <? 10 then " " else EmptyString) +:+ appendInt (day t) 0
  | stdZeroDay => appendInt (day t) 2
  | stdNone | stdOther => EmptyString
  end.

(** The loop of [Time.Format]. Each turn consumes a verb of the layout,
    so [fuel = len(layout)] turns are enough. *)
Fixpoint formatLoop (fuel : nat) (t : Time) (layout : string) : string :=
  match fuel with
  | O => EmptyString
  | S k =>
      match layout with
      | EmptyString => EmptyString
      | String _ _ =>
          let '(prefix, std, suffix) := nextStdChunk layout in
          prefix +:+
          match std with
          | stdNone => EmptyString
          | _ => formatStd t std +:+ formatLoop k t suffix
          end
      end
  end.

(** [t.Format(layout)] *)
Definition Format (t : Time) (layout : string) : string :=
  formatLoop (String.length layout) t layout.

(** *** Parsing *)

(** [cutspace] *)
Fixpoint cutspace (s : string) : string :=
  match s with
  | String c s' => if byteZ c =? 32 then cutspace s' else s
  | EmptyString => EmptyString
  end.

(** [skip(value, prefix)]: [value] without the literal [prefix], where a
    run of spaces in the prefix stands for any run of spaces in the value.
    [inRun] holds while the bytes of [prefix] are the rest of a run of
    spaces that [cutspace(prefix)] has removed as a whole. *)
Fixpoint skipFrom (inRun : bool) (value prefix : string) : option string :=
  match prefix with
  | EmptyString => Some value
  | String p0 prefix' =>
      if byteZ p0 =? 32 then
        if inRun then skipFrom true value prefix'
        else
          match value with
          | String v0 _ =>
              if negb (byteZ v0 =? 32) then None
              else skipFrom true (cutspace value) prefix'
          | EmptyString => skipFrom true (cutspace value) prefix'
          end
      else
        match value with
        | String v0 value' =>
            if Ascii.eqb v0 p0 then skipFrom false value' prefix' else None
        | EmptyString => None
        end
  end.

Definition skip (value prefix : string) : option string :=
  skipFrom false value prefix.

(** [getnum(s, fixed)]: a number of one or two digits, of exactly two
    when [fixed]. *)
Definition getnum (s : string) (fixed : bool) : option (Z * string) :=
  if negb (isDigit s 0) then None
  else if negb (isDigit s 1) then
    if fixed then None
    else Some (byteAt s 0 - 48, dropS 1 s)
  else Some ((byteAt s 0 - 48) * 10 + (byteAt s 1 - 48), dropS 2 s).

(** [leadingInt]: the value of the leading digits and the rest. *)
Fixpoint leadingInt (x : Z) (s : string) : Z * string :=
  match s with
  | String c s' =>
      if isDigitByte (byteZ c) then leadingInt (x * 10 + (byteZ c - 48)) s'
      else (x, s)
  | EmptyString => (x, EmptyString)
  end.

(** [atoi] *)
Definition atoi (s : string) : option Z :=
  let '(neg, s) :=
    match s with
    | String c s' =>
        if (byteZ c =? 45) || (byteZ c =? 43) then (byteZ c =? 45, s')
        else (false, s)
    | EmptyString => (false, s)
    end in
  match leadingInt 0 s with
  | (q, EmptyString) => Some (if neg then - q else q)
  | (_, String _ _) => None
  end.

(** [match(s1, s2)]: equality of two strings of one length, ignoring the
    case of letters. *)
Fixpoint matchFold (s1 s2 : string) : bool :=
  match s1, s2 with
  | String a s1', String b s2' =>
      let c1 := byteZ a in
      let c2 := byteZ b in
      (if c1 =? c2 then true
       else
         let c1 := Z.lor c1 32 in
         let c2 := Z.lor c2 32 in
         negb (negb (c1 =? c2) || (c1 <? 97) || (122 <? c1)))
      && matchFold s1' s2'
  | _, _ => true
  end.

(** [lookup(tab, val)] from index [i] on. *)
Fixpoint lookupFrom (i : Z) (tab : list string) (val : string)
  : option (Z * string) :=
  match tab with
  | [] => None
  | v :: tab' =>
      if (String.length v <=? String.length val)%nat
         && matchFold (takeS (String.length v) val) v
      then Some (i, dropS (String.length v) val)
      else lookupFrom (i + 1) tab' val
  end.

Definition lookup (tab : list string) (val : string) : option (Z * string) :=
  lookupFrom 0 tab val.

Definition isLeap (y : Z) : bool :=
  (y mod 4 =? 0) && (negb (y mod 100 =? 0) || (y mod 400 =? 0)).

(** [daysIn(m, year)] *)
Definition daysIn (m y : Z) : Z :=
  if m =? 2 then (if isLeap y then 29 else 28)
  else 30 + Z.land (m + Z.shiftr m 3) 1.

Definition errBad : error := ErrParseTime "bad value for field".

(** The date under construction in [parse]: year, month, day. *)
Definition fields : Type := (Z * Z * Z)%type.

(** One verb of [parse]: the fields and the value left after it, or the
    error ([rangeErrString] included). *)
Definition parseStd (std : Std) (f : fields) (value : string)
  : fields * string * option error :=
  let '(y, m, d) := f in
  match std with
  | stdYear =>
      if (String.length value <? 2)%nat then (f, value, Some errBad)
      else
        match atoi (takeS 2 value) with
        | None => (f, value, Some errBad)
        | Some y' =>
            ((if 69 <=? y' then y' + 1900 else y' + 2000, m, d),
             dropS 2 value, None)
        end
  | stdLongYear =>
      if (String.length value <? 4)%nat || negb (isDigit value 0)
      then (f, value, Some errBad)
      else
        match atoi (takeS 4 value) with
        | None => (f, value, Some errBad)
        | Some y' => ((y', m, d), dropS 4 value, None)
        end
  | stdMonth =>
      match lookup shortMonthNames value with
      | None => (f, value, Some errBad)
      | Some (i, value') => ((y, i + 1, d), value', None)
      end
  | stdLongMonth =>
      match lookup longMonthNames value with
      | None => (f, value, Some errBad)
      | Some (i, value') => ((y, i + 1, d), value', None)
      end
  | stdNumMonth | stdZeroMonth =>
      match getnum value (match std with stdZeroMonth => true | _ => false end) with
      | None => (f, value, Some errBad)
      | Some (m', value') =>
          if (m' <=? 0) || (12 <? m')
          then (f, value', Some (ErrParseTime "month out of range"))
          else ((y, m', d), value', None)
      end
  | stdDay | stdUnderDay | stdZeroDay =>
      let value :=
        match std, value with
        | stdUnderDay, String c value' => if byteZ c =? 32 then value' else value
        | _, _ => value
        end in
      match getnum value (match std with stdZeroDay => true | _ => false end) with
      | None => (f, value, Some errBad)
      | Some (d', value') => ((y, m, d'), value', None)
      end
  | stdNone | stdOther =>
      (f, value, Some (ErrParseTime "verb outside the calendar date"))
  end.

(** The loop of [parse], one verb per turn; [len(layout) + 1] turns are
    enough. *)
Fixpoint parseLoop (fuel : nat) (layout value : string) (f : fields)
  : fields * option error :=
  match fuel with
  | O => (f, Some (ErrParseTime "layout not consumed"))
  | S k =>
      let '(prefix, std, suffix) := nextStdChunk layout in
      match skip value prefix with
      | None => (f, Some errBad)
      | Some value =>
          match std with
          | stdNone =>
              match value with
              | EmptyString => (f, None)
              | String _ _ => (f, Some (ErrParseTime "extra text"))
              end
          | _ =>
              match parseStd std f value with
              | (f', value', None) => parseLoop k suffix value' f'
              | (f', _, Some e) => (f', Some e)
              end
          end
      end
  end.

(** [time.Parse(layout, value)] for layouts of the calendar date: the
    fields start at year 0 and an unset month and day, an unset month or
    day becomes 1, and the day is checked against the month. The clock of
    the result is midnight. *)
Definition Parse (layout value : string) : Time * option error :=
  match parseLoop (S (String.length layout)) layout value (0, -1, -1) with
  | (_, Some e) => (zero, Some e)
  | ((y, m, d), None) =>
      let m := if m <? 0 then 1 else m in
      let d := if d <? 0 then 1 else d in
      if (d <? 1) || (daysIn m y <? d)
      then (zero, Some (ErrParseTime "day out of range"))
      else (mkTime y m d 0, None)
  end.

End Time.

(** ** path/filepath *)

Module Filepath.

Definition Separator : string := "/".

Definition isSep (c : ascii) : bool := byteZ c =? 47.

(** [s] without its trailing separators. *)
Fixpoint stripTrailing (s : string) : string :=
  match s with
  | EmptyString => EmptyString
  | String c s' =>
      match stripTrailing s' with
      | EmptyString => if isSep c then EmptyString else String c EmptyString
      | t => String c t
      end
  end.

(** The part of [s] after its last separator, [acc] when it has none:
    the scan [for i >= 0 && !os.IsPathSeparator(path[i]) { i-- }] and the
    slice [path[i+1:]], read from the left. *)
Fixpoint afterLast (acc s : string) : string :=
  match s with
  | EmptyString => acc
  | String c s' => if isSep c then afterLast s' s' else afterLast acc s'
  end.

Definition lastElem (s : string) : string := afterLast s s.

(** [filepath.Base(path)] on Unix (no volume names). *)
Definition Base (path : string) : string :=
  match path with
  | EmptyString => "."
  | String _ _ =>
      match lastElem (stripTrailing path) with
      | EmptyString => Separator
      | b => b
      end
  end.

End Filepath.
(** ** The collaborators: file system, clock, console *)

(** A Go result pair [(T, error)] whose value is meaningless on failure. *)
Inductive result (A : Type) : Type :=
| ok (a : A)
| fail (e : error).
Arguments ok {A} a.
Arguments fail {A} e.

Module Os.

Record FileInfo : Type := mkFileInfo { IsDir : bool; ModTime : Time.Time }.

(** What a path names: a directory, or a regular file with its content,
    its modification time and whether the process may read it. *)
Inductive node : Type :=
| Dir
| File (data : string) (mtime : Time.Time) (readable : bool).

(** The world outside the package: the files by path (a flat name space:
    the directories on the way to a file are not checked), the clock that
    [time.Now] reads, whether the file system refuses writes, and what
    was printed on the standard output. *)
Record World : Type := mkWorld {
  files : gmap string node;
  now : Time.Time;
  readOnly : bool;
  stdout : list string
}.

(** [os.Stat(name)] *)
Definition Stat (name : string) (w : World) : result FileInfo :=
  match files w !! name with
  | None => fail ErrNotExist
  | Some Dir => ok (mkFileInfo true (now w))
  | Some (File _ mtime _) => ok (mkFileInfo false mtime)
  end.

(** [os.IsNotExist(err)] *)
Definition IsNotExist (e : error) : bool :=
  match e with ErrNotExist => true | _ => false end.

(** [os.Open(name)]: the open file is the node it names. *)
Definition Open (name : string) (w : World) : result node :=
  match files w !! name with
  | None => fail ErrNotExist
  | Some Dir => ok Dir
  | Some (File data mtime readable) =>
      if readable then ok (File data mtime readable) else fail ErrPermission
  end.

(** [ioutil.ReadAll(f)] *)
Definition ReadAll (f : node) : result string :=
  match f with
  | Dir => fail ErrIsDir
  | File data _ _ => ok data
  end.

(** [f.Stat()] *)
Definition FStat (f : node) (w : World) : result FileInfo :=
  match f with
  | Dir => ok (mkFileInfo true (now w))
  | File _ mtime _ => ok (mkFileInfo false mtime)
  end.

(** [ioutil.WriteFile(name, data, perm)]: the file is created or
    truncated and holds [data] afterwards; a new file is readable. *)
Definition WriteFile (name data : string) (w : World) : World * option error :=
  if readOnly w then (w, Some ErrReadOnly)
  else
    match files w !! name with
    | Some Dir => (w, Some ErrIsDir)
    | Some (File _ _ readable) =>
        (mkWorld (<[name := File data (now w) readable]> (files w))
                 (now w) (readOnly w) (stdout w), None)
    | None =>
        (mkWorld (<[name := File data (now w) true]> (files w))
                 (now w) (readOnly w) (stdout w), None)
    end.

(** [fmt.Println(s)] on the standard output. *)
Definition Println (s : string) (w : World) : World :=
  mkWorld (files w) (now w) (readOnly w) (stdout w ++ [s +:+ nl]).

End Os.

Module Bufio.

(** The input stream behind a [bufio.Reader]: the bytes still to come,
    the error the stream reports once they are used up ([EOF] at the end
    of the input, another error on a fault), and a record of what each
    [ReadString] call so far has returned (the stream is read only
    inside such a call). *)
Record Reader : Type := mkReader {
  pending : string;
  failure : error;
  served : list (string * option error)
}.

(** The line at the head of [s] with its delimiter, and the rest;
    [None] when [s] holds no delimiter. *)
Fixpoint cutAfter (delim : ascii) (s : string) : option (string * string) :=
  match s with
  | EmptyString => None
  | String c s' =>
      if Ascii.eqb c delim then Some (String c EmptyString, s')
      else
        match cutAfter delim s' with
        | Some (line, rest) => Some (String c line, rest)
        | None => None
        end
  end.

(** [r.ReadString(delim)]: the bytes up to and including the first
    [delim]; when the stream fails before a delimiter, the bytes read so
    far and the error. *)
Definition ReadString (delim : ascii) (r : Reader)
  : string * option error * Reader :=
  match cutAfter delim (pending r) with
  | Some (line, rest) =>
      (line, None, mkReader rest (failure r) (served r ++ [(line, None)]))
  | None =>
      (pending r, Some (failure r),
       mkReader EmptyString (failure r)
                (served r ++ [(pending r, Some (failure r))]))
  end.

End Bufio.

(** ** The package journalentry *)

Definition entryFormat : string := "2006-01-02-Journal-Entry-for-Jan-2" +:+ ".md".

(** [`\d{4}-\d{2}-\d{2}-Journal-Entry-for-\D{3}-\d{1,2}` + ".md"]: the dot
    of the extension is the pattern [.] *)
Definition entryRegex : Regexp.regex :=
  Regexp.Cat (Regexp.rep 4 Regexp.digit)
 (Regexp.Cat (Regexp.lit "-")
 (Regexp.Cat (Regexp.rep 2 Regexp.digit)
 (Regexp.Cat (Regexp.lit "-")
 (Regexp.Cat (Regexp.rep 2 Regexp.digit)
 (Regexp.Cat (Regexp.lit "-Journal-Entry-for-")
 (Regexp.Cat (Regexp.rep 3 Regexp.nonDigit)
 (Regexp.Cat (Regexp.lit "-")
 (Regexp.Cat (Regexp.repRange 1 2 Regexp.digit)
 (Regexp.Cat Regexp.anyCharNotNL
             (Regexp.lit "md")))))))))).

(** [`^[1-5]$`] *)
Definition ratingRegex : Regexp.regex :=
  Regexp.Cat Regexp.BeginText (Regexp.Cat (Regexp.range 49 53) Regexp.EndText).

(** Entry represents a single journal entry. [Seconds] is a [uint16], the
    moods are [uint8]. *)
Record Entry : Type := mkEntry {
  Seconds : Z;
  LowMood : Z;
  HighMood : Z;
  AverageMood : Z;
  Body : string;
  Path : string;
  ModTime : Time.Time
}.

(** [&Entry{Path: path}]: every other field has its zero value. *)
Definition newEntry (path : string) : Entry :=
  mkEntry 0 0 0 0 EmptyString path Time.zero.

Definition withModTime (t : Time.Time) (p : Entry) : Entry :=
  mkEntry (Seconds p) (LowMood p) (HighMood p) (AverageMood p)
          (Body p) (Path p) t.

Definition withBody (b : string) (p : Entry) : Entry :=
  mkEntry (Seconds p) (LowMood p) (HighMood p) (AverageMood p)
          b (Path p) (ModTime p).

Definition withSeconds (n : Z) (p : Entry) : Entry :=
  mkEntry n (LowMood p) (HighMood p) (AverageMood p)
          (Body p) (Path p) (ModTime p).

Definition setLowMood (rating : Z) (p : Entry) : Entry :=
  mkEntry (Seconds p) rating (HighMood p) (AverageMood p)
          (Body p) (Path p) (ModTime p).

Definition setHighMood (rating : Z) (p : Entry) : Entry :=
  mkEntry (Seconds p) (LowMood p) rating (AverageMood p)
          (Body p) (Path p) (ModTime p).

Definition setAvgMood (rating : Z) (p : Entry) : Entry :=
  mkEntry (Seconds p) (LowMood p) (HighMood p) rating
          (Body p) (Path p) (ModTime p).

(** ** The metadata block *)

Module Frontmatter.

(** Modelled from the spec: [frontmatter.Marshal] and
    [frontmatter.Unmarshal] belong to the package
    github.com/mikeraimondi/frontmatter, which is not part of the source.
    The block is the one of the external-interfaces section: a
    line-oriented key/value header with the field names [Seconds],
    [LowMood], [HighMood], [AverageMood] at the start of the file, then a
    delimiter, then the body verbatim. *)

Definition delimiter : string := "---".

Definition headerLine (key : string) (v : Z) : string :=
  key +:+ ": " +:+ Strconv.FormatUint v +:+ nl.

(** Modelled from the spec: the header of the four fields and the
    delimiter line. Serialising numbers cannot fail. *)
Definition Marshal (p : Entry) : string * option error :=
  (headerLine "Seconds" (Seconds p)
   +:+ headerLine "LowMood" (LowMood p)
   +:+ headerLine "HighMood" (HighMood p)
   +:+ headerLine "AverageMood" (AverageMood p)
   +:+ delimiter +:+ nl, None).

(** The line at the head of [s] without its line feed, and the rest. *)
Fixpoint cutLine (s : string) : option (string * string) :=
  match s with
  | EmptyString => None
  | String c s' =>
      if byteZ c =? 10 then Some (EmptyString, s')
      else
        match cutLine s' with
        | Some (line, rest) => Some (String c line, rest)
        | None => None
        end
  end.

Definition malformed : error := ErrFrontmatter "malformed metadata block".

(** One header line is stored in the field it names; the value must be a
    decimal number that fits the type of the field. *)
Definition assign (line : string) (p : Entry) : result Entry :=
  let num (bits : Z) (v : string) (set : Z -> Entry -> Entry) :=
    match Strconv.ParseUint v 10 bits with
    | (n, None) => ok (set n p)
    | (_, Some _) => fail malformed
    end in
  match cutPrefix "Seconds: " line with
  | Some v => num 16 v withSeconds
  | None =>
  match cutPrefix "LowMood: " line with
  | Some v => num 8 v setLowMood
  | None =>
  match cutPrefix "HighMood: " line with
  | Some v => num 8 v setHighMood
  | None =>
  match cutPrefix "AverageMood: " line with
  | Some v => num 8 v setAvgMood
  | None => fail malformed
  end end end end.

(** The header is read line by line up to the delimiter line. *)
Fixpoint unmarshalLoop (fuel : nat) (data : string) (p : Entry)
  : string * Entry * option error :=
  match fuel with
  | O => (EmptyString, p, Some malformed)
  | S k =>
      match cutLine data with
      | None => (EmptyString, p, Some malformed)
      | Some (line, rest) =>
          if String.eqb line delimiter then (rest, p, None)
          else
            match assign line p with
            | ok p' => unmarshalLoop k rest p'
            | fail e => (EmptyString, p, Some e)
            end
      end
  end.

(** Modelled from the spec: the metadata block at the head of [data] is
    parsed into the fields of [p]; what follows the delimiter is returned
    as the body. A malformed block is an error. *)
Definition Unmarshal (data : string) (p : Entry) : string * Entry * option error :=
  unmarshalLoop (S (String.length data)) data p.

End Frontmatter.

(** ** The operations of the package *)

(** [Load] reads the file named by [p.Path] and populates the Entry. *)
Definition Load (p : Entry) (w : Os.World) : Entry * bool * option error :=
  match Os.Open (Path p) w with
  | fail e => (p, false, Some e)
  | ok f =>
      match Os.ReadAll f with
      | fail e => (p, false, Some e)
      | ok data =>
          match Os.FStat f w with
          | fail e => (p, false, Some e)
          | ok info =>
              let modified := negb (Time.eqb (Os.ModTime info) (ModTime p)) in
              let p := withModTime (Os.ModTime info) p in
              let '(body, p, err) := Frontmatter.Unmarshal data p in
              (withBody body p, modified, err)
          end
      end
  end.

(** [Save] writes the Entry to the file named by [p.Path]; on a failed
    write the content is also dumped on the standard output. *)
Definition Save (p : Entry) (w : Os.World) : Os.World * option error :=
  match Frontmatter.Marshal p with
  | (_, Some e) => (w, Some e)
  | (fm, None) =>
      match Os.WriteFile (Path p) (fm +:+ Body p) w with
      | (w, Some e) =>
          (Os.Println (Body p) (Os.Println fm (Os.Println "Dump:" w)), Some e)
      | (w, None) => (w, None)
      end
  end.

(** [New] reads the directory named by [dir] and either returns an existing
    Entry in that directory, or creates a new one if none exist.

    The result variable [err] is the one [os.Stat(dir)] assigns. The
    statement [if _, err := os.Stat(p.Path); ...] declares a second [err]
    whose scope is that [if] statement: [err = p.Save()] and
    [_, err = p.Load()] assign the second one ([errInner] below), and
    [return p, err] returns the first. *)
Definition New (dir : string) (w : Os.World)
  : Os.World * option Entry * option error :=
  match Os.Stat dir w with
  | fail err => (w, None, Some err)
  | ok info =>
      if negb (Os.IsDir info) then (w, None, Some (ErrNew "must be a directory"))
      else
        let err : option error := None in
        let p := newEntry (dir +:+ Filepath.Separator
                               +:+ Time.Format (Os.now w) entryFormat) in
        let '(w, p, errInner) :=
          match Os.Stat (Path p) w with
          | fail errInner =>
              if Os.IsNotExist errInner then
                let p := withModTime (Os.now w) p in
                let '(w, errInner) := Save p w in
                (w, p, errInner)
              else (w, p, Some errInner)
          | ok _ =>
              let '(p, _, errInner) := Load p w in
              (w, p, errInner)
          end in
        (w, Some p, err)
  end.

(** [Date]: the date in the name of the file. *)
Definition Date (p : Entry) : Time.Time * option error :=
  Time.Parse entryFormat (Filepath.Base (Path p)).

(** [IsEntry] returns true if path refers to a file with an Entry-like
    name, false otherwise. *)
Definition IsEntry (path : string) : bool :=
  Regexp.MatchString entryRegex path.

(** [`\S+`], given by the class under its [+]. *)
Definition wordRegex : Z -> bool := Regexp.nonSpaceRune.

(** [Words] returns the words in [p.Body]. *)
Definition Words (p : Entry) : list string :=
  Regexp.FindAllPlus wordRegex (Body p).

Definition highPrompt : string := "High mood for the day? (1-5) ".
Definition lowPrompt : string := "Low mood for the day? (1-5) ".
Definition avgPrompt : string := "Average mood for the day? (1-5) ".

(** A method value such as [p.setHighMood]: given the rating, it updates
    the entry behind [p]. *)
Abbreviation setter := (Z -> Entry -> Entry).

(** [prompts]: the map from the question to the method that stores its
    answer, with a key for each mood that is 0. *)
Definition prompts (p : Entry) : gmap string setter :=
  let pr : gmap string setter := ∅ in
  let pr := if HighMood p =? 0 then <[highPrompt := setHighMood]> pr else pr in
  let pr := if LowMood p =? 0 then <[lowPrompt := setLowMood]> pr else pr in
  let pr := if AverageMood p =? 0 then <[avgPrompt := setAvgMood]> pr else pr in
  pr.

(** Go leaves the order in which [range] visits the keys of a map
    unspecified: a run visits them in some listing of the map. *)
Definition rangeOrder {V : Type} (m : gmap string V) (order : list (string * V)) : Prop :=
  order ≡ₚ map_to_list m.

(** [fmt.Fprint(w, s)] and [fmt.Fprintln(w, s)] on a writer that records the
    strings written to it, in order. The package ignores their results. *)
Definition Fprint (s : string) (w : list string) : list string := w ++ [s].
Definition Fprintln (s : string) (w : list string) : list string := w ++ [s +:+ nl].

(** The state a run of the prompter threads through: the entry behind the
    receiver, the reader, what was written, and the error it stops with. *)
Abbreviation outcome := (Entry * Bufio.Reader * list string * option error)%type.

(** The inner [for] loop: one question, asked until the answer is a rating.
    [None] stands for a run that has not finished within [fuel] turns. *)
Fixpoint ask (fuel : nat) (prompt : string) (set : setter)
         (p : Entry) (r : Bufio.Reader) (w : list string) : option outcome :=
  match fuel with
  | O => None
  | S k =>
      let w := Fprint prompt w in
      let '(input, err, r) := Bufio.ReadString (byteOfZ 10) r in
      match err with
      | Some e => Some (p, r, w, Some e)
      | None =>
          let input := Strings.TrimSpace input in
          if Regexp.MatchString ratingRegex input then
            match Strconv.ParseUint input 10 8 with
            | (_, Some e) => Some (p, r, w, Some e)
            | (rating, None) => Some (set (rating mod 256) p, r, w, None)
            end
          else ask k prompt set p r (Fprintln "Unrecognized input" w)
      end
  end.

(** The outer loop over the map, in the order [kvs]; at its end the result
    variable [err] is still nil. *)
Fixpoint rangeLoop (fuel : nat) (kvs : list (string * setter))
         (p : Entry) (r : Bufio.Reader) (w : list string) : option outcome :=
  match kvs with
  | [] => Some (p, r, w, None)
  | (prompt, set) :: kvs' =>
      match ask fuel prompt set p r w with
      | None => None
      | Some (p, r, w, Some e) => Some (p, r, w, Some e)
      | Some (p, r, w, None) => rangeLoop fuel kvs' p r w
      end
  end.

(** [PromptForMetadata] prints questions to [w] and sets the values of [p]
    based on values read from [reader]. [order] is the order in which the
    run visits [p.prompts()]. Every turn of the inner loop that does not
    leave it has consumed a line, so one turn more than the input has bytes
    is enough for each question. *)
Definition PromptForMetadata (order : list (string * setter)) (p : Entry)
           (reader : Bufio.Reader) (w : list string) : option outcome :=
  rangeLoop (S (String.length (Bufio.pending reader))) order p reader w.

(** ** Vocabulary of the properties *)

(** The rating a line of input stands for, as the inner loop of the
    prompter reads it: the line is trimmed, matched against [ratingRegex]
    and parsed. *)
Definition answer (line : string) : option Z :=
  let input := Strings.TrimSpace line in
  if Regexp.MatchString ratingRegex input then
    match Strconv.ParseUint input 10 8 with
    | (rating, None) => Some (rating mod 256)
    | (_, Some _) => None
    end
  else None.

(** The ratings among the results of a sequence of reads. *)
Definition ratings (log : list (string * option error)) : list Z :=
  omap (fun '(line, e) => match e with None => answer line | Some _ => None end) log.

(** The entry after the questions [kvs] have received the answers [vs],
    one each, as far as the shorter list goes. *)
Fixpoint store (kvs : list (string * setter)) (vs : list Z) (p : Entry) : Entry :=
  match kvs, vs with
  | (_, set) :: kvs', v :: vs' => store kvs' vs' (set v p)
  | _, _ => p
  end.

Definition rejection : string := "Unrecognized input" +:+ nl.

(** The runs of the inner loop, as a relation: a question ends with a
    failed read, or with a rating that is stored, or is asked again after
    a line that is no rating. *)
Inductive asks (k : string) (set : setter) (p : Entry)
  : Bufio.Reader -> list string -> outcome -> Prop :=
| asks_failed r w partial e r' :
    Bufio.ReadString (byteOfZ 10) r = (partial, Some e, r') ->
    asks k set p r w (p, r', w ++ [k], Some e)
| asks_stored r w line r' v :
    Bufio.ReadString (byteOfZ 10) r = (line, None, r') ->
    answer line = Some v ->
    asks k set p r w (set v p, r', w ++ [k], None)
| asks_again r w line r' res :
    Bufio.ReadString (byteOfZ 10) r = (line, None, r') ->
    answer line = None ->
    asks k set p r' (w ++ [k] ++ [rejection]) res ->
    asks k set p r w res.

(** The runs of the outer loop. *)
Inductive ranges : list (string * setter) -> Entry -> Bufio.Reader ->
                   list string -> outcome -> Prop :=
| ranges_done p r w : ranges [] p r w (p, r, w, None)
| ranges_stop k set kvs p r w p' r' w' e :
    asks k set p r w (p', r', w', Some e) ->
    ranges ((k, set) :: kvs) p r w (p', r', w', Some e)
| ranges_next k set kvs p r w p' r' w' res :
    asks k set p r w (p', r', w', None) ->
    ranges kvs p' r' w' res ->
    ranges ((k, set) :: kvs) p r w res.

(** A question of the prompter for the entry [p]: the prompt of a mood
    that is 0 in [p], with its setter. *)
Definition question (p : Entry) (kv : string * setter) : Prop :=
  (kv = (highPrompt, setHighMood) /\ HighMood p = 0)
  \/ (kv = (lowPrompt, setLowMood) /\ LowMood p = 0)
  \/ (kv = (avgPrompt, setAvgMood) /\ AverageMood p = 0).

(** [p'] is [p] with some of its unset moods filled in with ratings. *)
Definition filledIn (p p' : Entry) : Prop :=
  Seconds p' = Seconds p /\ Body p' = Body p /\ Path p' = Path p
  /\ ModTime p' = ModTime p
  /\ (HighMood p' = HighMood p \/ (HighMood p = 0 /\ 1 <= HighMood p' <= 5))
  /\ (LowMood p' = LowMood p \/ (LowMood p = 0 /\ 1 <= LowMood p' <= 5))
  /\ (AverageMood p' = AverageMood p
      \/ (AverageMood p = 0 /\ 1 <= AverageMood p' <= 5)).

(** The rune sequences a pattern without anchors matches. *)
Fixpoint lang (r : Regexp.regex) (t : list Z) : Prop :=
  match r with
  | Regexp.Empty => t = []
  | Regexp.Class p => exists c, t = [c] /\ p c = true
  | Regexp.Cat r1 r2 => exists t1 t2, t = t1 ++ t2 /\ lang r1 t1 /\ lang r2 t2
  | Regexp.Alt r1 r2 => lang r1 t \/ lang r2 t
  | Regexp.BeginText | Regexp.EndText => False
  end.

Fixpoint anchorFree (r : Regexp.regex) : bool :=
  match r with
  | Regexp.Empty | Regexp.Class _ => true
  | Regexp.Cat r1 r2 | Regexp.Alt r1 r2 => anchorFree r1 && anchorFree r2
  | Regexp.BeginText | Regexp.EndText => false
  end.

(** The shape [entryRegex] looks for, in runes: four digits, a dash, two
    digits, a dash, two digits, [-Journal-Entry-for-], three runes that are
    no digits, a dash, one or two digits, one rune [c] and [md]; [dot]
    tells which runes [c] are meant. *)
Definition entryShape (dot : Z -> Prop) (t : list Z) : Prop :=
  exists yyyy mm dd mon d c,
    t = yyyy ++ [45] ++ mm ++ [45] ++ dd ++ Utf8.runes "-Journal-Entry-for-"
        ++ mon ++ [45] ++ d ++ [c] ++ Utf8.runes "md"
    /\ length yyyy = 4%nat /\ Forall (fun x => Regexp.isDigitRune x = true) yyyy
    /\ length mm = 2%nat /\ Forall (fun x => Regexp.isDigitRune x = true) mm
    /\ length dd = 2%nat /\ Forall (fun x => Regexp.isDigitRune x = true) dd
    /\ length mon = 3%nat /\ Forall (fun x => Regexp.isDigitRune x = false) mon
    /\ (length d = 1%nat \/ length d = 2%nat)
    /\ Forall (fun x => Regexp.isDigitRune x = true) d
    /\ dot c.

(** The naming pattern in the words of the specification: the month is
    three characters that are not white space ([\S]), the extension is the
    literal [.md], and the whole name has to match. *)
Definition nonSpace : Regexp.regex :=
  Regexp.Class (fun c => negb ((c =? 9) || (c =? 10) || (c =? 12)
                               || (c =? 13) || (c =? 32))).

Definition specNameRegex : Regexp.regex :=
  Regexp.Cat (Regexp.rep 4 Regexp.digit)
 (Regexp.Cat (Regexp.lit "-")
 (Regexp.Cat (Regexp.rep 2 Regexp.digit)
 (Regexp.Cat (Regexp.lit "-")
 (Regexp.Cat (Regexp.rep 2 Regexp.digit)
 (Regexp.Cat (Regexp.lit "-Journal-Entry-for-")
 (Regexp.Cat (Regexp.rep 3 nonSpace)
 (Regexp.Cat (Regexp.lit "-")
 (Regexp.Cat (Regexp.repRange 1 2 Regexp.digit)
             (Regexp.lit ".md"))))))))).

Definition matchesSpecPattern (s : string) : bool :=
  Regexp.accepts specNameRegex
    (fun _ rest => match rest with [] => true | _ :: _ => false end)
    true (Utf8.runes s).

(** The dates a name can carry: a calendar day of a year of four digits. *)
Definition validDate (y m d : Z) : Prop :=
  0 <= y <= 9999 /\ 1 <= m <= 12 /\ 1 <= d <= Time.daysIn m y.

(** The name [Time.Format] gives the entry of a day, piece by piece. *)
Definition entryName (y m d : Z) : string :=
  Time.appendInt y 4 +:+ "-" +:+ Time.appendInt m 2 +:+ "-"
  +:+ Time.appendInt d 2 +:+ "-Journal-Entry-for-"
  +:+ takeS 3 (Time.monthString m) +:+ "-" +:+ Time.appendInt d 0 +:+ ".md".

(** Whether a separator occurs in [s]. *)
Fixpoint hasSep (s : string) : bool :=
  match s with
  | EmptyString => false
  | String c s' => Filepath.isSep c || hasSep s'
  end.

(** [f] holds of the [n] numbers from [z] on. *)
Fixpoint checkFrom (f : Z -> bool) (n : nat) (z : Z) : bool :=
  match n with
  | O => true
  | S k => f z && checkFrom f k (z + 1)
  end.

(** The check that the year [y] is printed as four digits without a
    separator that read back as [y]. *)
Definition yearReadsBack (y : Z) : bool :=
  match Time.appendInt y 4 with
  | String c1 (String c2 (String c3 (String c4 EmptyString))) =>
      Time.isDigitByte (byteZ c1)
      && negb (hasSep (Time.appendInt y 4))
      && match Time.atoi (Time.appendInt y 4) with
         | Some v => v =? y
         | None => false
         end
  | _ => false
  end.

(** Metadata that fits the types of the fields: [Seconds] is a [uint16],
    the moods are [uint8]. *)
Definition validMetadata (p : Entry) : Prop :=
  0 <= Seconds p < 65536 /\ 0 <= LowMood p < 256
  /\ 0 <= HighMood p < 256 /\ 0 <= AverageMood p < 256.

(** The process may read what [path] names in [w], if it is a file. *)
Definition readableAt (w : Os.World) (path : string) : Prop :=
  forall data mtime, Os.files w !! path <> Some (Os.File data mtime false).

(** Whether a line feed occurs in [s]. *)
Fixpoint hasLF (s : string) : bool :=
  match s with
  | EmptyString => false
  | String c s' => (byteZ c =? 10) || hasLF s'
  end.

(** The check that the number [n] is printed on one line and read back as
    [n] into a field of [bits] bits. *)
Definition numberReadsBack (bits n : Z) : bool :=
  let s := Strconv.FormatUint n in
  negb (hasLF s)
  && match Strconv.ParseUint s 10 bits with
     | (v, None) => v =? n
     | (_, Some _) => false
     end.

(** The bytes that separate words: tab, line feed, form feed, carriage
    return and space. *)
Definition wsByte (c : ascii) : bool :=
  (byteZ c =? 9) || (byteZ c =? 10) || (byteZ c =? 12) || (byteZ c =? 13)
  || (byteZ c =? 32).

(** Whether one of them occurs in [s]. *)
Fixpoint hasWs (s : string) : bool :=
  match s with
  | EmptyString => false
  | String c s' => wsByte c || hasWs s'
  end.

(** [s] without them. *)
Fixpoint stripWs (s : string) : string :=
  match s with
  | EmptyString => EmptyString
  | String c s' => if wsByte c then stripWs s' else String c (stripWs s')
  end.

(** The number of bytes of [s] before the first of them. *)
Fixpoint spanBytes (s : string) : nat :=
  match s with
  | EmptyString => O
  | String c s' => if wsByte c then O else S (spanBytes s')
  end.

(** The strings of [l] one after the other. *)
Definition joined (l : list string) : string :=
  fold_right String.append EmptyString l.


(** The bytes of [s] as numbers. *)
Fixpoint bytes (s : string) : list Z :=
  match s with
  | EmptyString => []
  | String c s' => byteZ c :: bytes s'
  end.

(** Whether [f] holds of every byte of [s]. *)
Fixpoint allBytes (f : Z -> bool) (s : string) : bool :=
  match s with
  | EmptyString => true
  | String c s' => f (byteZ c) && allBytes f s'
  end.

(** The check that the year [y] is printed as four digits. *)
Definition yearIsFourDigits (y : Z) : bool :=
  (String.length (Time.appendInt y 4) =? 4)%nat
  && allBytes Time.isDigitByte (Time.appendInt y 4).

(** A letter or sign of ASCII that is no digit. *)
Definition asciiNonDigit (b : Z) : bool := (b <? 128) && negb (Time.isDigitByte b).

(** The white space of ASCII: tab, line feed, vertical tab, form feed,
    carriage return and space. *)
Definition blank (b : Z) : bool :=
  (b =? 9) || (b =? 10) || (b =? 11) || (b =? 12) || (b =? 13) || (b =? 32).

(** A name in the form of the entry names whose numeric month and day,
    [mm] and [dd], need not be the ones it spells out, [m] and [d]. *)
Definition mixedName (y mm dd m d : Z) : string :=
  Time.appendInt y 4 +:+ "-" +:+ Time.appendInt mm 2 +:+ "-"
  +:+ Time.appendInt dd 2 +:+ "-Journal-Entry-for-"
  +:+ takeS 3 (Time.monthString m) +:+ "-" +:+ Time.appendInt d 0 +:+ ".md".

(** The check that setting bit 5 of the byte [b] (the case bit of a
    letter) leaves [b] or adds 32 to it. *)
Definition caseBitAdds (b : Z) : bool :=
  (Z.lor b 32 =? b) || (Z.lor b 32 =? b + 32).

(** ** Sample data *)

Definition blankEntry : Entry :=
  newEntry "journal/2023-07-04-Journal-Entry-for-Jul-4.md".

(** An entry whose moods are all rated. *)
Definition ratedEntry : Entry :=
  mkEntry 0 2 4 3 EmptyString (Path blankEntry) Time.zero.

(** An entry whose high mood holds 200, outside the ratings. *)
Definition oddEntry : Entry :=
  mkEntry 0 0 200 0 EmptyString (Path blankEntry) Time.zero.

(** An entry whose only unset mood is the low mood. *)
Definition lowUnsetEntry : Entry :=
  mkEntry 0 0 4 3 EmptyString (Path blankEntry) Time.zero.

(** The input ["3\n4\n2\n"]. *)
Definition threeRatings : string := "3" +:+ nl +:+ "4" +:+ nl +:+ "2" +:+ nl.

(** The input ["x\n5\n"]. *)
Definition correction : string := "x" +:+ nl +:+ "5" +:+ nl.

(** The input ["3\n4"]: the second line is cut off by the end of the input. *)
Definition cutOff : string := "3" +:+ nl +:+ "4".

(** The input [" 4\r\n"], as a terminal with CR LF line ends sends it. *)
Definition paddedRating : string :=
  " 4" +:+ String (byteOfZ 13) EmptyString +:+ nl.

(** A writable file system that holds the directory [journal] and nothing
    else, on the afternoon of 4 July 2023. *)
Definition emptyJournal : Os.World :=
  Os.mkWorld {[ "journal" := Os.Dir ]} (Time.mkTime 2023 7 4 54000) false [].

(** The same on a file system that refuses writes. *)
Definition readOnlyJournal : Os.World :=
  Os.mkWorld {[ "journal" := Os.Dir ]} (Time.mkTime 2023 7 4 54000) true [].

(** The journal with a file for the day whose content is no metadata block. *)
Definition brokenJournal : Os.World :=
  Os.mkWorld
    (<[ "journal/2023-07-04-Journal-Entry-for-Jul-4.md"
        := Os.File "no header here" (Time.mkTime 2023 7 4 100) true ]>
       {[ "journal" := Os.Dir ]})
    (Time.mkTime 2023 7 4 54000) false [].

(** An entry with metadata and a body that holds the delimiter. *)
Definition writtenEntry : Entry :=
  mkEntry 65535 1 5 3 ("Dear diary," +:+ nl +:+ "---" +:+ nl +:+ "  more")
          (Path blankEntry) Time.zero.

Definition highFirst : list (string * setter) :=
  [(highPrompt, setHighMood); (lowPrompt, setLowMood); (avgPrompt, setAvgMood)].

Definition lowFirst : list (string * setter) :=
  [(lowPrompt, setLowMood); (highPrompt, setHighMood); (avgPrompt, setAvgMood)].

(** * Properties *)

(** ** Bytes *)

Lemma byteZ_range c : 0 <= byteZ c < 256.
Proof.
  unfold byteZ. pose proof (N_ascii_bounded c) as H. lia.
Qed.

(** ** Decoding: a rune below 64 is a single byte *)

Lemma lor_small a b :
  0 <= a -> 0 <= b -> Z.lor a b < 64 -> a < 64 /\ b < 64.
Proof.
  intros Ha Hb H.
  assert (Hl : Z.log2 (Z.lor a b) < 6).
  { destruct (Z.eq_dec (Z.lor a b) 0) as [E | E].
    - rewrite E. reflexivity.
    - apply Z.log2_lt_pow2; [ | exact H ].
      pose proof (proj2 (Z.lor_nonneg a b) (conj Ha Hb)). lia. }
  rewrite Z.log2_lor in Hl by assumption.
  split.
  - destruct (Z.eq_dec a 0); [ lia | ].
    apply (Z.log2_lt_pow2 a 6); lia.
  - destruct (Z.eq_dec b 0); [ lia | ].
    apply (Z.log2_lt_pow2 b 6); lia.
Qed.

Lemma byteAt_range s i : 0 <= byteAt s i < 256.
Proof. unfold byteAt. destruct (String.get i s); [ apply byteZ_range | lia ]. Qed.

Ltac bool_hyps :=
  repeat match goal with
  | H : _ && _ = true |- _ => apply andb_true_iff in H as [? ?]
  | H : _ || _ = false |- _ => apply orb_false_elim in H as [? ?]
  | H : negb _ = false |- _ => apply negb_false_iff in H
  | H : (_ <=? _) = true |- _ => apply Z.leb_le in H
  | H : (_ <=? _) = false |- _ => apply Z.leb_gt in H
  | H : (_ <? _) = true |- _ => apply Z.ltb_lt in H
  | H : (_ <? _) = false |- _ => apply Z.ltb_ge in H
  | H : (_ =? _) = true |- _ => apply Z.eqb_eq in H
  | H : (_ =? _) = false |- _ => apply Z.eqb_neq in H
  end.

Lemma decode_small s r size :
  Utf8.DecodeRuneInString s = (r, size) -> r < 64 -> s <> EmptyString ->
  size = 1%nat /\ r = byteAt s 0.
Proof.
  unfold Utf8.DecodeRuneInString.
  intros H Hr Hs.
  destruct (String.length s <? 1)%nat eqn:Hn.
  { destruct s; [ congruence | discriminate Hn ]. }
  clear Hn.
  destruct (byteAt s 0 <? Utf8.RuneSelf) eqn:Hself.
  { inversion H; subst. auto. }
  exfalso.
  unfold Utf8.RuneSelf in Hself. apply Z.ltb_ge in Hself.
  unfold Utf8.RuneError, Utf8.cont in H.
  pose proof (byteAt_range s 0) as Hb0.
  pose proof (byteAt_range s 1) as Hb1.
  pose proof (byteAt_range s 2) as Hb2.
  pose proof (byteAt_range s 3) as Hb3.
  change 63 with (Z.ones 6) in H. change 31 with (Z.ones 5) in H.
  change 15 with (Z.ones 4) in H. change 7 with (Z.ones 3) in H.
  rewrite ?Z.land_ones, ?Z.shiftl_mul_pow2 in H by lia.
  destruct (Utf8.first (byteAt s 0)) as [[[sz lo] hi] | ] eqn:F;
    [ | inversion H; lia ].
  destruct (_ <? sz)%nat; [ inversion H; lia | ].
  destruct ((byteAt s 1 <? lo) || (hi <? byteAt s 1)) eqn:R1;
    [ inversion H; lia | ].
  unfold Utf8.first in F.
  repeat match type of F with
         | (if ?b then _ else _) = _ => destruct b eqn:?
         end;
    inversion F; subst; clear F; cbn [Nat.leb] in H; bool_hyps;
    repeat match type of H with
           | (if ?b then _ else _) = _ => destruct b eqn:?
           end;
    inversion H; subst; clear H; try lia; bool_hyps.
  all: change (2 ^ 3) with 8 in *; change (2 ^ 4) with 16 in *;
    change (2 ^ 5) with 32 in *; change (2 ^ 6) with 64 in *;
    change (2 ^ 12) with 4096 in *; change (2 ^ 18) with 262144 in *.
  all: repeat match goal with
         | H : Z.lor ?a ?b < 64 |- _ =>
             apply lor_small in H as [? ?];
             [ | repeat (apply Z.lor_nonneg; split);
                 Z.div_mod_to_equations; lia .. ]
         end.
  all: Z.div_mod_to_equations; lia.
Qed.

(** ** The prompter: ratings, termination, runs *)

Lemma runes_single s c :
  Utf8.runes s = [c] -> c < 64 ->
  exists ch, s = String ch EmptyString /\ byteZ ch = c.
Proof.
  unfold Utf8.runes. destruct s as [ | a s']; [ discriminate | ].
  intros H Hc. cbn [Utf8.runesFrom] in H.
  destruct (Utf8.DecodeRuneInString (String a s')) as [r size] eqn:D.
  injection H as Hr Ht. subst r.
  apply decode_small in D as [Hsize Hb]; [ | lia | intros ?; discriminate ].
  subst size. cbn [Nat.sub] in Ht.
  destruct s' as [ | b s'']; [ | cbn [Utf8.runesFrom] in Ht;
    destruct (Utf8.DecodeRuneInString (String b s'')); discriminate Ht ].
  exists a. split; [ reflexivity | ]. rewrite Hb. reflexivity.
Qed.

Lemma search_rating_later t : Regexp.search ratingRegex false t = false.
Proof. induction t as [ | c t IH]; cbn; [ reflexivity | exact IH ]. Qed.

Lemma rating_match input :
  Regexp.MatchString ratingRegex input = true ->
  exists ch, input = String ch EmptyString /\ 49 <= byteZ ch <= 53.
Proof.
  unfold Regexp.MatchString. intros H.
  destruct (Utf8.runes input) as [ | c [ | c' t]] eqn:R; cbn in H.
  - discriminate.
  - rewrite orb_false_r, andb_true_r in H. bool_hyps.
    destruct (runes_single input c R) as [ch [E Hch]]; [ lia | ].
    exists ch. split; [ exact E | lia ].
  - rewrite andb_false_r in H. cbn in H.
    rewrite search_rating_later in H. discriminate.
Qed.

Lemma parse_after_match input :
  Regexp.MatchString ratingRegex input = true ->
  exists rating, Strconv.ParseUint input 10 8 = (rating, None) /\ 1 <= rating <= 5.
Proof.
  intros H. destruct (rating_match input H) as [ch [E Hch]]. subst input.
  exists (byteZ ch - 48). split; [ | lia ].
  cbn [Strconv.ParseUint Strconv.parseDigits].
  replace ((48 <=? byteZ ch) && (byteZ ch <=? 57)) with true
    by (symmetry; apply andb_true_iff; split; apply Z.leb_le; lia).
  replace (10 <=? byteZ ch - 48) with false by (symmetry; apply Z.leb_gt; lia).
  replace (2 ^ 8 - 1 <? 0 * 10 + (byteZ ch - 48)) with false
    by (symmetry; apply Z.ltb_ge; change (2 ^ 8 - 1) with 255; lia).
  reflexivity.
Qed.

Lemma answer_range line v : answer line = Some v -> 1 <= v <= 5.
Proof.
  unfold answer. intros H.
  destruct (Regexp.MatchString ratingRegex (Strings.TrimSpace line)) eqn:M;
    [ | discriminate ].
  destruct (parse_after_match _ M) as [rating [P Hr]]. rewrite P in H.
  injection H as <-. rewrite Z.mod_small; lia.
Qed.

Lemma cutAfter_length delim s line rest :
  Bufio.cutAfter delim s = Some (line, rest) ->
  (String.length rest < String.length s)%nat.
Proof.
  revert line rest. induction s as [ | c s IH]; intros line rest H; cbn in H.
  - discriminate.
  - destruct (Ascii.eqb c delim).
    + injection H as <- <-. cbn. lia.
    + destruct (Bufio.cutAfter delim s) as [[l r] | ]; [ | discriminate ].
      injection H as <- <-. specialize (IH l r eq_refl). cbn. lia.
Qed.

Lemma ReadString_pending delim r line err r' :
  Bufio.ReadString delim r = (line, err, r') ->
  Bufio.failure r' = Bufio.failure r
  /\ Bufio.served r' = Bufio.served r ++ [(line, err)]
  /\ (err = None -> (String.length (Bufio.pending r') < String.length (Bufio.pending r))%nat)
  /\ (forall e, err = Some e -> e = Bufio.failure r /\ Bufio.pending r' = EmptyString).
Proof.
  unfold Bufio.ReadString. intros H.
  destruct (Bufio.cutAfter delim (Bufio.pending r)) as [[l rest] | ] eqn:C;
    injection H as <- <- <-; cbn.
  - repeat split; try discriminate.
    intros _. eapply cutAfter_length. exact C.
  - repeat split; try discriminate. congruence.
Qed.

(** The function [ask] and the relation [asks] agree, and [ask] finishes. *)
Lemma ask_asks fuel k set p r w :
  (String.length (Bufio.pending r) < fuel)%nat ->
  exists p' r' w' err,
    ask fuel k set p r w = Some (p', r', w', err)
    /\ asks k set p r w (p', r', w', err)
    /\ (String.length (Bufio.pending r') <= String.length (Bufio.pending r))%nat.
Proof.
  revert r w. induction fuel as [ | fuel IH]; intros r w Hf; [ lia | ].
  cbn [ask].
  destruct (Bufio.ReadString (byteOfZ 10) r) as [[line err] r1] eqn:RS.
  destruct (ReadString_pending _ _ _ _ _ RS) as (Hfail & Hlog & Hok & Herr).
  destruct err as [e | ].
  - exists p, r1, (Fprint k w), (Some e). split; [ reflexivity | ]. split.
    + eapply asks_failed. exact RS.
    + destruct (Herr e eq_refl) as [_ ->]. cbn. lia.
  - specialize (Hok eq_refl).
    destruct (Regexp.MatchString ratingRegex (Strings.TrimSpace line)) eqn:M.
    + destruct (parse_after_match _ M) as [rating [P Hr]]. rewrite P.
      exists (set (rating mod 256) p), r1, (Fprint k w), None.
      split; [ reflexivity | ]. split; [ | lia ].
      eapply asks_stored; [ exact RS | ].
      unfold answer. now rewrite M, P.
    + destruct (IH r1 (Fprintln "Unrecognized input" (Fprint k w)))
        as (p' & r' & w' & err & E & A & L); [ lia | ].
      exists p', r', w', err. split; [ exact E | ]. split; [ | lia ].
      eapply asks_again; [ exact RS | | ].
      * unfold answer. now rewrite M.
      * unfold Fprintln, Fprint in A. rewrite <- app_assoc in A. exact A.
Qed.

Lemma rangeLoop_ranges fuel kvs p r w :
  (String.length (Bufio.pending r) < fuel)%nat ->
  exists res, rangeLoop fuel kvs p r w = Some res /\ ranges kvs p r w res.
Proof.
  revert p r w. induction kvs as [ | [k set] kvs IH]; intros p r w Hf.
  - eexists. split; [ reflexivity | constructor ].
  - cbn [rangeLoop].
    destruct (ask_asks fuel k set p r w Hf) as (p' & r' & w' & err & E & A & L).
    rewrite E. destruct err as [e | ].
    + eexists. split; [ reflexivity | ]. now apply ranges_stop.
    + destruct (IH p' r' w') as (res & E' & R'); [ lia | ].
      exists res. split; [ exact E' | ]. eapply ranges_next; eassumption.
Qed.

(** The prompter always returns. *)
Lemma PromptForMetadata_ranges order p r w :
  exists res, PromptForMetadata order p r w = Some res /\ ranges order p r w res.
Proof. apply rangeLoop_ranges. lia. Qed.

Lemma ratings_app l1 l2 : ratings (l1 ++ l2) = ratings l1 ++ ratings l2.
Proof. unfold ratings. apply omap_app. Qed.

(** What one question does to the entry, the reader and the writer. *)
Lemma asks_shape k set p r w res :
  asks k set p r w res ->
  exists init lastline written,
    Bufio.served res.1.1.2 = Bufio.served r ++ init ++ [(lastline, res.2)]
    /\ Forall (fun x => x.2 = None) init
    /\ ratings init = []
    /\ Bufio.failure res.1.1.2 = Bufio.failure r
    /\ res.1.2 = w ++ written
    /\ Forall (fun x => x = k \/ x = rejection) written
    /\ match res.2 with
       | None => exists v, answer lastline = Some v /\ res.1.1.1 = set v p
       | Some e => e = Bufio.failure r /\ res.1.1.1 = p
       end.
Proof.
  induction 1 as [r w partial e r' RS | r w line r' v RS A
                 | r w line r' res RS A _ IH].
  - destruct (ReadString_pending _ _ _ _ _ RS) as (Hf & Hl & _ & He).
    exists [], partial, [k]. cbn. repeat split; auto.
    + apply (He e eq_refl).
  - destruct (ReadString_pending _ _ _ _ _ RS) as (Hf & Hl & _ & _).
    exists [], line, [k]. cbn. repeat split; auto.
    exists v. auto.
  - destruct (ReadString_pending _ _ _ _ _ RS) as (Hf & Hl & _ & _).
    destruct IH as (init & lastline & written & E1 & E2 & E3 & E4 & E5 & E6 & E7).
    exists ((line, None) :: init), lastline, ([k] ++ [rejection] ++ written).
    split; [ rewrite E1, Hl; now rewrite <- app_assoc | ].
    split; [ constructor; [ reflexivity | exact E2 ] | ].
    split; [ cbn; unfold ratings in E3; rewrite A; exact E3 | ].
    split; [ congruence | ].
    split; [ rewrite E5; now rewrite <- !app_assoc | ].
    split; [ constructor; [ now left | constructor; [ now right | exact E6 ] ] | ].
    rewrite Hf in E7. exact E7.
Qed.

(** What a run of the outer loop does. *)
Lemma ranges_shape kvs p r w res :
  ranges kvs p r w res ->
  exists new written,
    Bufio.served res.1.1.2 = Bufio.served r ++ new
    /\ Bufio.failure res.1.1.2 = Bufio.failure r
    /\ res.1.1.1 = store kvs (ratings new) p
    /\ (forall i line e, new !! i = Some (line, Some e) ->
        res.2 = Some e /\ S i = length new)
    /\ (forall e, res.2 = Some e ->
        e = Bufio.failure r /\ exists line, last new = Some (line, Some e))
    /\ (res.2 = None -> length (ratings new) = length kvs)
    /\ res.1.2 = w ++ written
    /\ Forall (fun x => x = rejection \/ x ∈ kvs.*1) written.
Proof.
  induction 1 as [p r w | k set kvs p r w p' r' w' e A
                 | k set kvs p r w p' r' w' res A R IH].
  - exists [], []. cbn. rewrite !app_nil_r.
    repeat split; try discriminate; auto.
  - apply asks_shape in A
      as (init & lastline & written & E1 & E2 & E3 & E4 & E5 & E6 & E7).
    cbn in *. destruct E7 as [-> ->].
    exists (init ++ [(lastline, Some (Bufio.failure r))]), written.
    split; [ exact E1 | ]. split; [ exact E4 | ].
    split; [ rewrite ratings_app, E3; reflexivity | ].
    split.
    { intros i line e H.
      destruct (decide (i < length init)%nat) as [Hi | Hi].
      - rewrite lookup_app_l in H by exact Hi.
        rewrite Forall_lookup in E2. specialize (E2 _ _ H). discriminate E2.
      - rewrite lookup_app_r in H by lia.
        destruct (i - length init)%nat as [ | n] eqn:En; cbn in H; [ | discriminate ].
        injection H as <- <-. rewrite length_app. cbn. split; [ reflexivity | lia ]. }
    split.
    { intros e H. injection H as <-. split; [ reflexivity | ].
      exists lastline. now rewrite last_snoc. }
    split; [ discriminate | ].
    split; [ exact E5 | ].
    eapply Forall_impl; [ exact E6 | ].
    cbn. intros x [-> | ->]; [ right; left | left ]; reflexivity.
  - apply asks_shape in A
      as (init & lastline & written & E1 & E2 & E3 & E4 & E5 & E6 & E7).
    cbn in E1, E4, E5, E7. destruct E7 as [v [Hv ->]].
    destruct IH as (new & written' & F1 & F2 & F3 & F4 & F5 & F6 & F7 & F8).
    exists ((init ++ [(lastline, None)]) ++ new), (written ++ written').
    split; [ rewrite F1, E1; now rewrite <- !app_assoc | ].
    split; [ congruence | ].
    split.
    { rewrite F3, !ratings_app, E3. cbn. now rewrite Hv. }
    split.
    { intros i line e H.
      destruct (decide (i < length (init ++ [(lastline, @None error)]))%nat) as [Hi | Hi].
      - rewrite lookup_app_l in H by exact Hi.
        assert (Hok : Forall (fun x : string * option error => x.2 = None)
                        (init ++ [(lastline, None)])).
        { apply Forall_app. split; [ exact E2 | repeat constructor ]. }
        rewrite Forall_lookup in Hok. specialize (Hok _ _ H). discriminate Hok.
      - rewrite lookup_app_r in H by lia.
        destruct (F4 _ _ _ H) as [G1 G2]. split; [ exact G1 | ].
        rewrite length_app. lia. }
    split.
    { intros e H. destruct (F5 e H) as [G1 [line G2]].
      split; [ congruence | ]. exists line.
      destruct new as [ | x new]; [ discriminate G2 | ].
      rewrite last_app. now rewrite G2. }
    split.
    { intros H. rewrite !ratings_app, E3. cbn. rewrite Hv. cbn.
      now rewrite (F6 H). }
    split; [ rewrite F7, E5; now rewrite <- app_assoc | ].
    apply Forall_app. split.
    + eapply Forall_impl; [ exact E6 | ].
      cbn. intros x [-> | ->]; [ right; left | left ]; reflexivity.
    + eapply Forall_impl; [ exact F8 | ].
      cbn. intros x [-> | Hx]; [ now left | right; now right ].
Qed.

Lemma ratings_range new : Forall (fun v => 1 <= v <= 5) (ratings new).
Proof.
  induction new as [ | [line [e | ]] new IH]; cbn.
  - constructor.
  - exact IH.
  - destruct (answer line) as [v | ] eqn:A; cbn; [ | exact IH ].
    constructor; [ now apply (answer_range line) | exact IH ].
Qed.

Lemma prompts_lookup p k set :
  prompts p !! k = Some set -> question p (k, set).
Proof.
  unfold prompts, question. intros H.
  destruct (AverageMood p =? 0) eqn:Ea;
    [ apply lookup_insert_Some in H as [[<- <-] | [_ H]];
      [ right; right; split; [ reflexivity | now apply Z.eqb_eq ] | ] | ].
  all: destruct (LowMood p =? 0) eqn:El;
    [ apply lookup_insert_Some in H as [[<- <-] | [_ H]];
      [ right; left; split; [ reflexivity | now apply Z.eqb_eq ] | ] | ].
  all: destruct (HighMood p =? 0) eqn:Eh;
    [ apply lookup_insert_Some in H as [[<- <-] | [_ H]];
      [ left; split; [ reflexivity | now apply Z.eqb_eq ] | ] | ].
  all: rewrite lookup_empty in H; discriminate.
Qed.

Lemma rangeOrder_questions p order :
  rangeOrder (prompts p) order -> Forall (question p) order.
Proof.
  unfold rangeOrder. intros H. apply Forall_forall. intros [k set] Hin.
  apply prompts_lookup. apply elem_of_map_to_list. now rewrite <- H.
Qed.

Lemma filledIn_refl p : filledIn p p.
Proof. unfold filledIn. repeat split; auto. Qed.

Lemma store_filledIn p0 kvs vs p :
  Forall (question p0) kvs -> Forall (fun v => 1 <= v <= 5) vs ->
  filledIn p0 p -> filledIn p0 (store kvs vs p).
Proof.
  intros Hk. revert vs p.
  induction Hk as [ | [k set] kvs Hq Hk IH]; intros vs p Hv Hp.
  - destruct vs; exact Hp.
  - destruct vs as [ | v vs]; [ exact Hp | ].
    inversion Hv as [ | ? ? Hv1 Hv2]; subst. cbn [store]. apply IH; [ exact Hv2 | ].
    destruct Hp as (F1 & F2 & F3 & F4 & F5 & F6 & F7).
    destruct Hq as [[E Hz] | [[E Hz] | [E Hz]]]; injection E as _ ->;
      unfold filledIn; cbn; repeat split; auto.
Qed.

(** The entry a run returns is the entry it was given with some of its
    unset moods filled in, and the run always returns. *)
Lemma PromptForMetadata_run order p r w :
  rangeOrder (prompts p) order ->
  exists p' r' w' err new written,
    PromptForMetadata order p r w = Some (p', r', w', err)
    /\ Bufio.served r' = Bufio.served r ++ new
    /\ p' = store order (ratings new) p
    /\ filledIn p p'
    /\ (forall i line e, new !! i = Some (line, Some e) ->
        err = Some e /\ S i = length new)
    /\ (forall e, err = Some e ->
        e = Bufio.failure r /\ exists line, last new = Some (line, Some e))
    /\ w' = w ++ written
    /\ Forall (fun x => x = rejection \/ x ∈ order.*1) written.
Proof.
  intros Ho.
  destruct (PromptForMetadata_ranges order p r w) as ([[[p' r'] w'] err] & E & R).
  apply ranges_shape in R
    as (new & written & F1 & F2 & F3 & F4 & F5 & F6 & F7 & F8).
  cbn in *. exists p', r', w', err, new, written.
  split; [ exact E | ]. split; [ exact F1 | ]. split; [ exact F3 | ].
  split.
  { rewrite F3. apply store_filledIn.
    - now apply rangeOrder_questions.
    - apply ratings_range.
    - apply filledIn_refl. }
  auto.
Qed.


Lemma question_prompt p k set :
  question p (k, set) ->
  (k = highPrompt /\ HighMood p = 0)
  \/ (k = lowPrompt /\ LowMood p = 0)
  \/ (k = avgPrompt /\ AverageMood p = 0).
Proof.
  intros [[E H] | [[E H] | [E H]]]; injection E as -> _; auto.
Qed.

(** A prompt that was written belongs to a question of the run. *)
Lemma written_question p order written k :
  Forall (question p) order ->
  Forall (fun x => x = rejection \/ x ∈ order.*1) written ->
  k ∈ written -> k <> rejection ->
  exists set, question p (k, set).
Proof.
  intros Hq Hw Hin Hk.
  rewrite Forall_forall in Hw. destruct (Hw k Hin) as [E | E]; [ contradiction | ].
  apply list_elem_of_fmap in E as [[k' set] [-> E]].
  exists set. rewrite Forall_forall in Hq. now apply Hq.
Qed.

Lemma prompts_none p :
  HighMood p <> 0 -> LowMood p <> 0 -> AverageMood p <> 0 -> prompts p = ∅.
Proof.
  intros H L A. unfold prompts.
  apply Z.eqb_neq in H, L, A. now rewrite H, L, A.
Qed.

Lemma prompts_high_only p :
  HighMood p = 0 -> LowMood p <> 0 -> AverageMood p <> 0 ->
  prompts p = {[ highPrompt := setHighMood ]}.
Proof.
  intros H L A. unfold prompts.
  apply Z.eqb_eq in H. apply Z.eqb_neq in L, A. rewrite H, L, A.
  apply insert_empty.
Qed.

Lemma prompts_low_only p :
  HighMood p <> 0 -> LowMood p = 0 -> AverageMood p <> 0 ->
  prompts p = {[ lowPrompt := setLowMood ]}.
Proof.
  intros H L A. unfold prompts.
  apply Z.eqb_eq in L. apply Z.eqb_neq in H, A. rewrite H, L, A.
  apply insert_empty.
Qed.

Lemma prompts_avg_only p :
  HighMood p <> 0 -> LowMood p <> 0 -> AverageMood p = 0 ->
  prompts p = {[ avgPrompt := setAvgMood ]}.
Proof.
  intros H L A. unfold prompts.
  apply Z.eqb_eq in A. apply Z.eqb_neq in H, L. rewrite H, L, A.
  apply insert_empty.
Qed.

Lemma rangeOrder_singleton {V : Type} (k : string) (v : V) order :
  rangeOrder ({[ k := v ]} : gmap string V) order -> order = [(k, v)].
Proof.
  unfold rangeOrder. rewrite map_to_list_singleton.
  intros H. symmetry in H. now apply Permutation_singleton_l in H.
Qed.

Lemma prompts_all p :
  HighMood p = 0 -> LowMood p = 0 -> AverageMood p = 0 ->
  map_to_list (prompts p)
  ≡ₚ [(highPrompt, setHighMood); (lowPrompt, setLowMood); (avgPrompt, setAvgMood)].
Proof.
  intros H L A. unfold prompts.
  apply Z.eqb_eq in H, L, A. rewrite H, L, A.
  rewrite map_to_list_insert.
  2:{ rewrite lookup_insert_ne by discriminate.
      rewrite lookup_insert_ne by discriminate. apply lookup_empty. }
  rewrite map_to_list_insert.
  2:{ rewrite lookup_insert_ne by discriminate. apply lookup_empty. }
  rewrite map_to_list_insert by apply lookup_empty.
  rewrite map_to_list_empty.
  apply (Permutation_rev
           [(avgPrompt, setAvgMood); (lowPrompt, setLowMood);
            (highPrompt, setHighMood)]).
Qed.

(** Three lines that are ratings answer three questions, whatever they are. *)
Lemma three_answers k1 s1 k2 s2 k3 s3 p e w :
  PromptForMetadata [(k1, s1); (k2, s2); (k3, s3)] p
    (Bufio.mkReader ("3" +:+ nl +:+ "4" +:+ nl +:+ "2" +:+ nl) e []) w
  = Some (s3 2 (s2 4 (s1 3 p)),
          Bufio.mkReader EmptyString e
            [("3" +:+ nl, None); ("4" +:+ nl, None); ("2" +:+ nl, None)],
          w ++ [k1; k2; k3], None).
Proof.
  unfold PromptForMetadata. cbn [String.length Bufio.pending].
  cbv - [app]. now rewrite <- !app_assoc.
Qed.


(** ** The prompter: the claims *)

(** C2, as stated, fails: the questions are the keys of a Go map, and a run
    may visit them with the low mood first. On the input ["3\n4\n2\n"] that
    run stores 3 as the low mood and 4 as the high mood. *)
Lemma PromptForMetadata_order_not_fixed :
  rangeOrder (prompts blankEntry) lowFirst
  /\ exists p' r',
      PromptForMetadata lowFirst blankEntry
        (Bufio.mkReader threeRatings EOF []) []
      = Some (p', r', [lowPrompt; highPrompt; avgPrompt], None)
      /\ HighMood p' = 4 /\ LowMood p' = 3 /\ AverageMood p' = 2.
Proof.
  split.
  - unfold rangeOrder. rewrite prompts_all by reflexivity.
    apply perm_swap.
  - eexists _, _. split; [ apply three_answers | ].
    repeat split.
Qed.

(** C2 (amended): for every Entry whose three mood fields are all 0 and
    every order in which the run visits the three questions,
    PromptForMetadata on the input ["3\n4\n2\n"] returns without error,
    has written exactly the three prompts, one each in the order of the
    visit, and has stored 3, 4 and 2 in the fields of the first, second and
    third question visited; when the visit is in the order HighMood,
    LowMood, AverageMood the result is HighMood=3, LowMood=4,
    AverageMood=2. *)
Theorem PromptForMetadata_fills_in order p e w :
  rangeOrder (prompts p) order ->
  HighMood p = 0 -> LowMood p = 0 -> AverageMood p = 0 ->
  order ≡ₚ highFirst
  /\ PromptForMetadata order p (Bufio.mkReader threeRatings e []) w
     = Some (store order [3; 4; 2] p,
             Bufio.mkReader EmptyString e
               [("3" +:+ nl, None); ("4" +:+ nl, None); ("2" +:+ nl, None)],
             w ++ order.*1, None)
  /\ (order = highFirst ->
      HighMood (store order [3; 4; 2] p) = 3
      /\ LowMood (store order [3; 4; 2] p) = 4
      /\ AverageMood (store order [3; 4; 2] p) = 2).
Proof.
  intros Ho H L A.
  assert (Hp : order ≡ₚ highFirst).
  { unfold rangeOrder in Ho. rewrite Ho. now apply prompts_all. }
  split; [ exact Hp | ].
  pose proof (Permutation_length Hp) as Hlen.
  destruct order as [ | [k1 s1] [ | [k2 s2] [ | [k3 s3] [ | ? ?]]]];
    try discriminate Hlen.
  split; [ apply three_answers | ].
  intros E. injection E as -> -> -> -> -> ->. repeat split.
Qed.

Lemma PromptForMetadata_fills_in_witness :
  rangeOrder (prompts blankEntry) highFirst
  /\ PromptForMetadata highFirst blankEntry
       (Bufio.mkReader threeRatings EOF []) []
     = Some (store highFirst [3; 4; 2] blankEntry,
             Bufio.mkReader EmptyString EOF
               [("3" +:+ nl, None); ("4" +:+ nl, None); ("2" +:+ nl, None)],
             [] ++ highFirst.*1, None)
  /\ HighMood (store highFirst [3; 4; 2] blankEntry) = 3.
Proof.
  assert (Ho : rangeOrder (prompts blankEntry) highFirst).
  { unfold rangeOrder. symmetry. apply prompts_all; reflexivity. }
  split; [ exact Ho | ].
  destruct (PromptForMetadata_fills_in highFirst blankEntry EOF [] Ho
              eq_refl eq_refl eq_refl) as (_ & E & F).
  split; [ exact E | ]. apply (F eq_refl).
Defined.

(** C6: for every Entry whose mood fields are all in 1..5,
    PromptForMetadata returns at once: the reader has served no read, the
    writer holds no prompt and the entry is unchanged. More generally, in
    every run a mood field that holds a rating in 1..5 keeps its value. *)
Theorem PromptForMetadata_keeps_rated_moods order p r w :
  rangeOrder (prompts p) order ->
  (1 <= HighMood p <= 5 -> 1 <= LowMood p <= 5 -> 1 <= AverageMood p <= 5 ->
   PromptForMetadata order p r w = Some (p, r, w, None))
  /\ exists p' r' w' err,
      PromptForMetadata order p r w = Some (p', r', w', err)
      /\ (1 <= HighMood p <= 5 -> HighMood p' = HighMood p)
      /\ (1 <= LowMood p <= 5 -> LowMood p' = LowMood p)
      /\ (1 <= AverageMood p <= 5 -> AverageMood p' = AverageMood p).
Proof.
  intros Ho. split.
  - intros H L A. unfold rangeOrder in Ho.
    rewrite prompts_none, map_to_list_empty in Ho by lia.
    apply Permutation_nil_r in Ho. subst order. reflexivity.
  - destruct (PromptForMetadata_run order p r w Ho)
      as (p' & r' & w' & err & new & written & E & _ & _ & F & _).
    exists p', r', w', err. split; [ exact E | ].
    destruct F as (_ & _ & _ & _ & F1 & F2 & F3).
    repeat split; intros; [ destruct F1 | destruct F2 | destruct F3 ]; lia.
Qed.

Lemma PromptForMetadata_keeps_rated_moods_witness :
  rangeOrder (prompts ratedEntry) []
  /\ PromptForMetadata [] ratedEntry (Bufio.mkReader threeRatings EOF []) []
     = Some (ratedEntry, Bufio.mkReader threeRatings EOF [], [], None).
Proof.
  assert (Ho : rangeOrder (prompts ratedEntry) []).
  { unfold rangeOrder. change (prompts ratedEntry) with (∅ : gmap string setter).
    now rewrite map_to_list_empty. }
  split; [ exact Ho | ].
  apply (PromptForMetadata_keeps_rated_moods [] ratedEntry
           (Bufio.mkReader threeRatings EOF []) [] Ho); cbn; lia.
Defined.

(** C7: for an Entry with exactly one unset mood field and the input
    ["x\n5\n"], PromptForMetadata writes the prompt, then the line
    "Unrecognized input" once, then the prompt again, and stores 5 in that
    field. *)
Theorem PromptForMetadata_input_correction order p e w :
  rangeOrder (prompts p) order ->
  let r := Bufio.mkReader correction e [] in
  let r' := Bufio.mkReader EmptyString e
              [("x" +:+ nl, None); ("5" +:+ nl, None)] in
  (HighMood p = 0 -> LowMood p <> 0 -> AverageMood p <> 0 ->
   PromptForMetadata order p r w
   = Some (setHighMood 5 p, r', w ++ [highPrompt; rejection; highPrompt], None))
  /\ (HighMood p <> 0 -> LowMood p = 0 -> AverageMood p <> 0 ->
      PromptForMetadata order p r w
      = Some (setLowMood 5 p, r', w ++ [lowPrompt; rejection; lowPrompt], None))
  /\ (HighMood p <> 0 -> LowMood p <> 0 -> AverageMood p = 0 ->
      PromptForMetadata order p r w
      = Some (setAvgMood 5 p, r', w ++ [avgPrompt; rejection; avgPrompt], None)).
Proof.
  intros Ho r r'.
  assert (Hrun : forall k set,
    PromptForMetadata [(k, set)] p r w
    = Some (set 5 p, r', w ++ [k; rejection; k], None)).
  { intros k set. unfold PromptForMetadata.
    cbv - [app]. now rewrite <- !app_assoc. }
  repeat split; intros H L A.
  - rewrite prompts_high_only in Ho by assumption.
    apply rangeOrder_singleton in Ho. subst order. apply Hrun.
  - rewrite prompts_low_only in Ho by assumption.
    apply rangeOrder_singleton in Ho. subst order. apply Hrun.
  - rewrite prompts_avg_only in Ho by assumption.
    apply rangeOrder_singleton in Ho. subst order. apply Hrun.
Qed.

Lemma PromptForMetadata_input_correction_witness :
  rangeOrder (prompts lowUnsetEntry) [(lowPrompt, setLowMood)]
  /\ PromptForMetadata [(lowPrompt, setLowMood)] lowUnsetEntry
       (Bufio.mkReader correction EOF []) []
     = Some (setLowMood 5 lowUnsetEntry,
             Bufio.mkReader EmptyString EOF
               [("x" +:+ nl, None); ("5" +:+ nl, None)],
             [] ++ [lowPrompt; rejection; lowPrompt], None).
Proof.
  assert (Ho : rangeOrder (prompts lowUnsetEntry) [(lowPrompt, setLowMood)]).
  { unfold rangeOrder.
    change (prompts lowUnsetEntry)
      with (<[lowPrompt := setLowMood]> (∅ : gmap string setter)).
    now rewrite insert_empty, map_to_list_singleton. }
  split; [ exact Ho | ].
  apply (PromptForMetadata_input_correction _ lowUnsetEntry EOF [] Ho);
    cbn; lia.
Defined.


(** C8: in every run of PromptForMetadata, a read that fails is the last
    read of the run and its error (the end of the input or a fault of the
    stream) is the error the run returns; the entry it leaves is the entry
    with every rating read before the failure stored in the field of its
    question, and the moods that were set at the start keep their values.
    A run returns an error only for a failed read. *)
Theorem PromptForMetadata_read_failure order p r w :
  rangeOrder (prompts p) order ->
  exists p' r' w' err new,
    PromptForMetadata order p r w = Some (p', r', w', err)
    /\ Bufio.served r' = Bufio.served r ++ new
    /\ (forall i line e, new !! i = Some (line, Some e) ->
        err = Some e /\ e = Bufio.failure r /\ S i = length new)
    /\ (forall e, err = Some e -> exists line, last new = Some (line, Some e))
    /\ p' = store order (ratings new) p
    /\ (HighMood p <> 0 -> HighMood p' = HighMood p)
    /\ (LowMood p <> 0 -> LowMood p' = LowMood p)
    /\ (AverageMood p <> 0 -> AverageMood p' = AverageMood p).
Proof.
  intros Ho.
  destruct (PromptForMetadata_run order p r w Ho)
    as (p' & r' & w' & err & new & written & E & F1 & F2 & F3 & F4 & F5 & _).
  exists p', r', w', err, new.
  split; [ exact E | ]. split; [ exact F1 | ].
  split.
  { intros i line e H. destruct (F4 i line e H) as [G1 G2].
    destruct (F5 e G1) as [G3 _]. auto. }
  split; [ intros e H; apply (F5 e H) | ].
  split; [ exact F2 | ].
  destruct F3 as (_ & _ & _ & _ & H1 & H2 & H3).
  repeat split; intros; [ destruct H1 | destruct H2 | destruct H3 ]; lia.
Qed.

Lemma PromptForMetadata_read_failure_witness :
  rangeOrder (prompts blankEntry) highFirst
  /\ exists p' r' w' err new,
      PromptForMetadata highFirst blankEntry (Bufio.mkReader cutOff EOF []) []
      = Some (p', r', w', err)
      /\ Bufio.served r' = [] ++ new
      /\ (forall i line e, new !! i = Some (line, Some e) ->
          err = Some e /\ e = EOF /\ S i = length new)
      /\ (forall e, err = Some e -> exists line, last new = Some (line, Some e))
      /\ p' = store highFirst (ratings new) blankEntry
      /\ (HighMood blankEntry <> 0 -> HighMood p' = HighMood blankEntry)
      /\ (LowMood blankEntry <> 0 -> LowMood p' = LowMood blankEntry)
      /\ (AverageMood blankEntry <> 0 -> AverageMood p' = AverageMood blankEntry).
Proof.
  assert (Ho : rangeOrder (prompts blankEntry) highFirst).
  { unfold rangeOrder. symmetry. apply prompts_all; reflexivity. }
  split; [ exact Ho | ].
  exact (PromptForMetadata_read_failure highFirst blankEntry
           (Bufio.mkReader cutOff EOF []) [] Ho).
Defined.

(** The run of the witness above, evaluated: the first question is
    answered, the read for the second fails at the end of the input, and
    the run returns that error with the high mood stored. *)
Example PromptForMetadata_cut_off :
  PromptForMetadata highFirst blankEntry (Bufio.mkReader cutOff EOF []) []
  = Some (setHighMood 3 blankEntry,
          Bufio.mkReader EmptyString EOF [("3" +:+ nl, None); ("4", Some EOF)],
          [highPrompt; lowPrompt], Some EOF).
Proof. reflexivity. Qed.

(** C9: PromptForMetadata prompts only for the mood fields that are
    exactly 0: a mood field that holds any other value, 200 for one, keeps
    it, and its prompt is not written. *)
Theorem PromptForMetadata_skips_nonzero order p r w :
  rangeOrder (prompts p) order ->
  exists p' r' w' err written,
    PromptForMetadata order p r w = Some (p', r', w', err)
    /\ w' = w ++ written
    /\ (HighMood p <> 0 -> HighMood p' = HighMood p /\ highPrompt ∉ written)
    /\ (LowMood p <> 0 -> LowMood p' = LowMood p /\ lowPrompt ∉ written)
    /\ (AverageMood p <> 0 ->
        AverageMood p' = AverageMood p /\ avgPrompt ∉ written).
Proof.
  intros Ho.
  destruct (PromptForMetadata_run order p r w Ho)
    as (p' & r' & w' & err & new & written & E & _ & _ & F & _ & _ & W1 & W2).
  exists p', r', w', err, written.
  split; [ exact E | ]. split; [ exact W1 | ].
  pose proof (rangeOrder_questions p order Ho) as Hq.
  destruct F as (_ & _ & _ & _ & H1 & H2 & H3).
  split; [ | split ]; intros Hz;
    (split; [ destruct H1, H2, H3; lia | ]); intros Hin.
  - destruct (written_question p order written highPrompt Hq W2 Hin)
      as [set Q]; [ discriminate | ].
    apply question_prompt in Q as [[_ Q] | [[Q _] | [Q _]]];
      [ contradiction | discriminate Q | discriminate Q ].
  - destruct (written_question p order written lowPrompt Hq W2 Hin)
      as [set Q]; [ discriminate | ].
    apply question_prompt in Q as [[Q _] | [[_ Q] | [Q _]]];
      [ discriminate Q | contradiction | discriminate Q ].
  - destruct (written_question p order written avgPrompt Hq W2 Hin)
      as [set Q]; [ discriminate | ].
    apply question_prompt in Q as [[Q _] | [[Q _] | [_ Q]]];
      [ discriminate Q | discriminate Q | contradiction ].
Qed.

Lemma PromptForMetadata_skips_nonzero_witness :
  rangeOrder (prompts oddEntry) (map_to_list (prompts oddEntry))
  /\ HighMood oddEntry = 200
  /\ exists p' r' w' err written,
      PromptForMetadata (map_to_list (prompts oddEntry)) oddEntry
        (Bufio.mkReader threeRatings EOF []) []
      = Some (p', r', w', err)
      /\ w' = [] ++ written
      /\ HighMood p' = 200 /\ highPrompt ∉ written.
Proof.
  split; [ apply Permutation_refl | ]. split; [ reflexivity | ].
  destruct (PromptForMetadata_skips_nonzero (map_to_list (prompts oddEntry))
              oddEntry (Bufio.mkReader threeRatings EOF []) []
              (Permutation_refl _))
    as (p' & r' & w' & err & written & E & W & H & _).
  exists p', r', w', err, written.
  split; [ exact E | ]. split; [ exact W | ].
  apply H. discriminate.
Defined.

(** C10: PromptForMetadata never modifies Seconds, Body, Path or ModTime,
    and every value it passes to a setter, hence every value it writes to
    a mood field, is in 1..5. *)
Theorem PromptForMetadata_frame order p r w :
  rangeOrder (prompts p) order ->
  exists p' r' w' err vs,
    PromptForMetadata order p r w = Some (p', r', w', err)
    /\ Seconds p' = Seconds p /\ Body p' = Body p
    /\ Path p' = Path p /\ ModTime p' = ModTime p
    /\ p' = store order vs p /\ Forall (fun v => 1 <= v <= 5) vs
    /\ (HighMood p' <> HighMood p -> 1 <= HighMood p' <= 5)
    /\ (LowMood p' <> LowMood p -> 1 <= LowMood p' <= 5)
    /\ (AverageMood p' <> AverageMood p -> 1 <= AverageMood p' <= 5).
Proof.
  intros Ho.
  destruct (PromptForMetadata_run order p r w Ho)
    as (p' & r' & w' & err & new & written & E & _ & S & F & _).
  exists p', r', w', err, (ratings new).
  destruct F as (F1 & F2 & F3 & F4 & H1 & H2 & H3).
  split; [ exact E | ].
  repeat (split; [ assumption | ]).
  split; [ apply ratings_range | ].
  split; [ | split ]; intros; [ destruct H1 | destruct H2 | destruct H3 ]; lia.
Qed.

Lemma PromptForMetadata_frame_witness :
  rangeOrder (prompts blankEntry) lowFirst
  /\ exists p' r' w' err vs,
      PromptForMetadata lowFirst blankEntry
        (Bufio.mkReader threeRatings (ErrIO "closed") []) []
      = Some (p', r', w', err)
      /\ Seconds p' = Seconds blankEntry /\ Body p' = Body blankEntry
      /\ Path p' = Path blankEntry /\ ModTime p' = ModTime blankEntry
      /\ p' = store lowFirst vs blankEntry /\ Forall (fun v => 1 <= v <= 5) vs
      /\ (HighMood p' <> HighMood blankEntry -> 1 <= HighMood p' <= 5)
      /\ (LowMood p' <> LowMood blankEntry -> 1 <= LowMood p' <= 5)
      /\ (AverageMood p' <> AverageMood blankEntry -> 1 <= AverageMood p' <= 5).
Proof.
  assert (Ho : rangeOrder (prompts blankEntry) lowFirst).
  { unfold rangeOrder. rewrite prompts_all by reflexivity. apply perm_swap. }
  split; [ exact Ho | ].
  exact (PromptForMetadata_frame lowFirst blankEntry
           (Bufio.mkReader threeRatings (ErrIO "closed") []) [] Ho).
Defined.


(** ** Patterns without anchors *)

Lemma accepts_bot r k b b' t :
  anchorFree r = true ->
  (forall c c' u, k c u = k c' u) ->
  Regexp.accepts r k b t = Regexp.accepts r k b' t.
Proof.
  revert k b b' t.
  induction r as [ | p | r1 IH1 r2 IH2 | r1 IH1 r2 IH2 | | ];
    intros k b b' t Ha Hk; cbn in *; try discriminate.
  - apply Hk.
  - reflexivity.
  - apply andb_true_iff in Ha as [Ha1 Ha2].
    apply IH1; [ exact Ha1 | ]. intros c c' u. now apply IH2.
  - apply andb_true_iff in Ha as [Ha1 Ha2].
    now rewrite (IH1 k b b'), (IH2 k b b').
Qed.

Lemma accepts_lang r k b t :
  anchorFree r = true ->
  (forall c c' u, k c u = k c' u) ->
  Regexp.accepts r k b t = true
  <-> exists t1 t2, t = t1 ++ t2 /\ lang r t1 /\ k false t2 = true.
Proof.
  revert k b t.
  induction r as [ | p | r1 IH1 r2 IH2 | r1 IH1 r2 IH2 | | ];
    intros k b t Ha Hk; cbn in *; try discriminate.
  - rewrite (Hk b false). split.
    + intros H. exists [], t. auto.
    + intros (t1 & t2 & -> & -> & H). exact H.
  - split.
    + destruct t as [ | c t]; [ discriminate | ].
      intros H. apply andb_true_iff in H as [H1 H2].
      exists [c], t. split; [ reflexivity | ]. split; [ | exact H2 ].
      exists c. auto.
    + intros (t1 & t2 & -> & (c & -> & Hp) & H). cbn. now rewrite Hp.
  - apply andb_true_iff in Ha as [Ha1 Ha2].
    rewrite IH1; [ | exact Ha1 | intros c c' u; now apply accepts_bot ].
    split.
    + intros (t1 & t2 & -> & L1 & H).
      apply IH2 in H as (t3 & t4 & -> & L2 & H); [ | exact Ha2 | exact Hk ].
      exists (t1 ++ t3), t4. split; [ now rewrite app_assoc | ].
      split; [ | exact H ]. exists t1, t3. auto.
    + intros (t12 & t4 & -> & (t1 & t3 & -> & L1 & L2) & H).
      exists t1, (t3 ++ t4). split; [ now rewrite app_assoc | ].
      split; [ exact L1 | ].
      apply IH2; [ exact Ha2 | exact Hk | ]. exists t3, t4. auto.
  - apply andb_true_iff in Ha as [Ha1 Ha2].
    rewrite orb_true_iff, IH1, IH2 by assumption. split.
    + intros [(t1 & t2 & E & L & H) | (t1 & t2 & E & L & H)];
        exists t1, t2; auto.
    + intros (t1 & t2 & E & [L | L] & H); [ left | right ]; exists t1, t2; auto.
Qed.

(** An unanchored search finds a match of the pattern somewhere. *)
Lemma search_lang r b t :
  anchorFree r = true ->
  Regexp.search r b t = true
  <-> exists pre m post, t = pre ++ m ++ post /\ lang r m.
Proof.
  intros Ha. revert b. induction t as [ | c t IH]; intros b; cbn.
  - rewrite orb_false_r. rewrite accepts_lang by auto. split.
    + intros (t1 & t2 & E & L & _). exists [], t1, t2. auto.
    + intros (pre & m & post & E & L).
      destruct pre; [ | discriminate ]. exists m, post. auto.
  - rewrite orb_true_iff, IH. rewrite accepts_lang by auto. split.
    + intros [(t1 & t2 & E & L & _) | (pre & m & post & E & L)].
      * exists [], t1, t2. auto.
      * exists (c :: pre), m, post. rewrite E. auto.
    + intros (pre & m & post & E & L). destruct pre as [ | c' pre].
      * left. exists m, post. auto.
      * right. injection E as -> ->. exists pre, m, post. auto.
Qed.

Lemma lang_rep_class n p t :
  lang (Regexp.rep n (Regexp.Class p)) t
  <-> length t = n /\ Forall (fun x => p x = true) t.
Proof.
  revert t. induction n as [ | n IH]; intros t; cbn.
  - split.
    + intros ->. auto.
    + intros [H _]. now destruct t.
  - split.
    + intros (t1 & t2 & -> & (c & -> & Hp) & L). apply IH in L as [L1 L2].
      cbn. split; [ now rewrite L1 | now constructor ].
    + intros [Hl Hf]. destruct t as [ | c t]; [ discriminate | ].
      inversion Hf; subst. exists [c], t. split; [ reflexivity | ].
      split; [ exists c; auto | ]. apply IH. cbn in Hl. split; [ lia | auto ].
Qed.

Lemma lang_lit_runes l t :
  lang (fold_right (fun c r => Regexp.Cat (Regexp.char c) r) Regexp.Empty l) t
  <-> t = l.
Proof.
  revert t. induction l as [ | c l IH]; intros t; cbn.
  - reflexivity.
  - split.
    + intros (t1 & t2 & -> & (c' & -> & Hc) & L). apply IH in L as ->.
      apply Z.eqb_eq in Hc. now subst.
    + intros ->. exists [c], l. split; [ reflexivity | ].
      split; [ exists c; split; [ reflexivity | apply Z.eqb_refl ] | now apply IH ].
Qed.

Lemma lang_lit s t : lang (Regexp.lit s) t <-> t = Utf8.runes s.
Proof. apply lang_lit_runes. Qed.

Lemma lang_one_or_two p t :
  lang (Regexp.repRange 1 2 (Regexp.Class p)) t
  <-> (length t = 1%nat \/ length t = 2%nat) /\ Forall (fun x => p x = true) t.
Proof.
  cbn. split.
  - intros (t1 & t2 & -> & (u1 & u2 & -> & (c & -> & Hc) & ->) & L).
    destruct L as [(v1 & v2 & -> & (c' & -> & Hc') & ->) | ->]; cbn.
    + split; [ now right | repeat constructor; assumption ].
    + split; [ now left | repeat constructor; assumption ].
  - intros [[Hl | Hl] Hf].
    + destruct t as [ | c [ | ? ?]]; try discriminate. inversion Hf; subst.
      exists [c], []. split; [ reflexivity | ]. split.
      * exists [c], []. split; [ reflexivity | ]. split; [ exists c; auto | reflexivity ].
      * now right.
    + destruct t as [ | c [ | c' [ | ? ?]]]; try discriminate.
      inversion Hf as [ | ? ? H1 H2]; subst. inversion H2; subst.
      exists [c], [c']. split; [ reflexivity | ]. split.
      * exists [c], []. split; [ reflexivity | ]. split; [ exists c; auto | reflexivity ].
      * left. exists [c'], []. split; [ reflexivity | ].
        split; [ exists c'; auto | reflexivity ].
Qed.

Lemma lang_entryRegex t :
  lang entryRegex t <-> entryShape (fun c => c <> 10) t.
Proof.
  unfold entryShape. split.
  - intros H. unfold entryRegex in H.
    destruct H as (yyyy & t1 & -> & Ly & H).
    destruct H as (s1 & t2 & -> & Ls1 & H).
    destruct H as (mm & t3 & -> & Lm & H).
    destruct H as (s2 & t4 & -> & Ls2 & H).
    destruct H as (dd & t5 & -> & Ld & H).
    destruct H as (s3 & t6 & -> & Ls3 & H).
    destruct H as (mon & t7 & -> & Lmon & H).
    destruct H as (s4 & t8 & -> & Ls4 & H).
    destruct H as (d & t9 & -> & Ldd & H).
    destruct H as (dot & md & -> & (c & -> & Hc) & Lmd).
    apply lang_rep_class in Ly as [Y1 Y2], Lm as [M1 M2], Ld as [D1 D2],
      Lmon as [N1 N2].
    apply lang_lit in Ls1, Ls2, Ls3, Ls4, Lmd. subst s1 s2 s3 s4 md.
    apply lang_one_or_two in Ldd as [E1 E2].
    exists yyyy, mm, dd, mon, d, c.
    split; [ reflexivity | ].
    repeat (split; [ assumption | ]).
    split.
    { eapply Forall_impl; [ exact N2 | ]. cbn. intros x Hx.
      now apply negb_true_iff in Hx. }
    repeat (split; [ assumption | ]).
    apply negb_true_iff, Z.eqb_neq in Hc. exact Hc.
  - intros (yyyy & mm & dd & mon & d & c & -> & Y1 & Y2 & M1 & M2 & D1 & D2
            & N1 & N2 & E1 & E2 & Hc).
    unfold entryRegex.
    exists yyyy, ([45] ++ mm ++ [45] ++ dd ++ Utf8.runes "-Journal-Entry-for-"
                  ++ mon ++ [45] ++ d ++ [c] ++ Utf8.runes "md").
    split; [ reflexivity | ]. split; [ now apply lang_rep_class | ].
    eexists [45], _. split; [ reflexivity | ]. split; [ now apply lang_lit | ].
    eexists mm, _. split; [ reflexivity | ]. split; [ now apply lang_rep_class | ].
    eexists [45], _. split; [ reflexivity | ]. split; [ now apply lang_lit | ].
    eexists dd, _. split; [ reflexivity | ]. split; [ now apply lang_rep_class | ].
    eexists (Utf8.runes "-Journal-Entry-for-"), _. split; [ reflexivity | ].
    split; [ now apply lang_lit | ].
    eexists mon, _. split; [ reflexivity | ]. split.
    { apply lang_rep_class. split; [ exact N1 | ].
      eapply Forall_impl; [ exact N2 | ]. cbn. intros x Hx.
      now apply negb_true_iff. }
    eexists [45], _. split; [ reflexivity | ]. split; [ now apply lang_lit | ].
    eexists d, _. split; [ reflexivity | ].
    split; [ now apply lang_one_or_two | ].
    eexists [c], _. split; [ reflexivity | ]. split; [ | now apply lang_lit ].
    exists c. split; [ reflexivity | ]. now apply negb_true_iff, Z.eqb_neq.
Qed.

(** [IsEntry] is true exactly for the texts that hold the shape somewhere. *)
Lemma IsEntry_iff s :
  IsEntry s = true
  <-> exists pre name post,
      Utf8.runes s = pre ++ name ++ post /\ entryShape (fun c => c <> 10) name.
Proof.
  unfold IsEntry, Regexp.MatchString.
  rewrite search_lang by reflexivity.
  split; intros (pre & name & post & E & L); exists pre, name, post;
    (split; [ exact E | now apply lang_entryRegex ]).
Qed.

Lemma entryShape_dot (P Q : Z -> Prop) t :
  (forall c, P c -> Q c) -> entryShape P t -> entryShape Q t.
Proof.
  intros PQ (yyyy & mm & dd & mon & d & c & H). exists yyyy, mm, dd, mon, d, c.
  repeat (destruct H as [? H]; split; [ assumption | ]). now apply PQ.
Qed.

(** C3, as stated, fails in both directions: a name whose month is the
    three characters 123 matches the pattern as worded (they are not white
    space) and is refused, and a name whose month holds a space does not
    match the pattern as worded and is accepted. *)
Lemma IsEntry_not_the_worded_pattern :
  matchesSpecPattern "2023-07-04-Journal-Entry-for-123-4.md" = true
  /\ IsEntry "2023-07-04-Journal-Entry-for-123-4.md" = false
  /\ matchesSpecPattern "2023-07-04-Journal-Entry-for-J l-4.md" = false
  /\ IsEntry "2023-07-04-Journal-Entry-for-J l-4.md" = true.
Proof. repeat split; vm_compute; reflexivity. Qed.

(** C3 (amended): IsEntry(s) is true for every s that ends with a name of
    the form: four digits, dash, two digits, dash, two digits,
    -Journal-Entry-for-, three characters that are not digits, dash, one or
    two digits, .md; and whenever IsEntry(s) is true, s holds that form
    somewhere, up to the character in the place of the dot, which is any
    character other than a line feed. It is true for
    2023-07-04-Journal-Entry-for-Jul-4.md and false for that name with the
    month July, with an underscore after the date, and without the day of
    the date. *)
Theorem IsEntry_pattern :
  (forall s pre name,
      Utf8.runes s = pre ++ name -> entryShape (fun c => c = 46) name ->
      IsEntry s = true)
  /\ (forall s, IsEntry s = true ->
      exists pre name post,
        Utf8.runes s = pre ++ name ++ post
        /\ entryShape (fun c => c <> 10) name)
  /\ IsEntry "2023-07-04-Journal-Entry-for-Jul-4.md" = true
  /\ IsEntry "2023-07-04-Journal-Entry-for-July-4.md" = false
  /\ IsEntry "2023-07-04_Journal-Entry-for-Jul-4.md" = false
  /\ IsEntry "2023-07-Journal-Entry-for-Jul-4.md" = false.
Proof.
  split.
  { intros s pre name E Hn. apply IsEntry_iff. exists pre, name, [].
    split; [ now rewrite app_nil_r | ].
    eapply entryShape_dot; [ | exact Hn ]. intros c ->. discriminate. }
  split; [ intros s H; now apply IsEntry_iff | ].
  repeat split; vm_compute; reflexivity.
Qed.

Lemma IsEntry_pattern_witness :
  entryShape (fun c => c = 46)
    (Utf8.runes "2023-07-04-Journal-Entry-for-Jul-4.md")
  /\ IsEntry "journal/2023-07-04-Journal-Entry-for-Jul-4.md" = true.
Proof.
  assert (Hn : entryShape (fun c => c = 46)
                 (Utf8.runes "2023-07-04-Journal-Entry-for-Jul-4.md")).
  { exists (Utf8.runes "2023"), (Utf8.runes "07"), (Utf8.runes "04"),
      (Utf8.runes "Jul"), (Utf8.runes "4"), 46.
    vm_compute. repeat split; repeat constructor. }
  split; [ exact Hn | ].
  apply (proj1 IsEntry_pattern
           "journal/2023-07-04-Journal-Entry-for-Jul-4.md"
           (Utf8.runes "journal/")
           (Utf8.runes "2023-07-04-Journal-Entry-for-Jul-4.md")).
  - vm_compute. reflexivity.
  - exact Hn.
Defined.


(** ** The name of the file and its date *)

Lemma Format_entryFormat y m d ns :
  Time.Format (Time.mkTime y m d ns) entryFormat = entryName y m d.
Proof. reflexivity. Qed.

Lemma append_cons c s t : String c s +:+ t = String c (s +:+ t).
Proof. reflexivity. Qed.

Lemma append_empty t : EmptyString +:+ t = t.
Proof. reflexivity. Qed.

(** The layout, verb by verb. *)
Lemma entryFormat_verbs :
  Time.nextStdChunk entryFormat
  = (EmptyString, Time.stdLongYear, "-01-02-Journal-Entry-for-Jan-2.md")
  /\ Time.nextStdChunk "-01-02-Journal-Entry-for-Jan-2.md"
     = ("-", Time.stdZeroMonth, "-02-Journal-Entry-for-Jan-2.md")
  /\ Time.nextStdChunk "-02-Journal-Entry-for-Jan-2.md"
     = ("-", Time.stdZeroDay, "-Journal-Entry-for-Jan-2.md")
  /\ Time.nextStdChunk "-Journal-Entry-for-Jan-2.md"
     = ("-Journal-Entry-for-", Time.stdMonth, "-2.md")
  /\ Time.nextStdChunk "-2.md" = ("-", Time.stdDay, ".md")
  /\ Time.nextStdChunk ".md" = (".md", Time.stdNone, EmptyString).
Proof. repeat split. Qed.

(** One verb of the parse loop, and its end. *)
Lemma parseLoop_verb k layout value f prefix std suffix value1 f' value' :
  Time.nextStdChunk layout = (prefix, std, suffix) ->
  std <> Time.stdNone ->
  Time.skip value prefix = Some value1 ->
  Time.parseStd std f value1 = (f', value', None) ->
  Time.parseLoop (S k) layout value f = Time.parseLoop k suffix value' f'.
Proof.
  intros C Hs Hk Hp. cbn [Time.parseLoop]. rewrite C, Hk, Hp.
  destruct std; try reflexivity. contradiction.
Qed.

Lemma parseLoop_end k layout value f prefix suffix :
  Time.nextStdChunk layout = (prefix, Time.stdNone, suffix) ->
  Time.skip value prefix = Some EmptyString ->
  Time.parseLoop (S k) layout value f = (f, None).
Proof. intros C Hk. cbn [Time.parseLoop]. now rewrite C, Hk. Qed.

Lemma checkFrom_spec f n lo :
  checkFrom f n lo = true ->
  forall z, lo <= z < lo + Z.of_nat n -> f z = true.
Proof.
  revert lo. induction n as [ | n IH]; intros lo H z Hz; [ lia | ].
  cbn [checkFrom] in H. apply andb_true_iff in H as [H1 H2].
  destruct (Z.eq_dec z lo) as [-> | Hne]; [ exact H1 | ].
  apply (IH (lo + 1) H2). lia.
Qed.

Lemma years_read_back :
  checkFrom yearReadsBack (Z.to_nat 10000) 0 = true.
Proof. vm_compute. reflexivity. Qed.

Lemma year_reads_back y :
  0 <= y <= 9999 ->
  exists c1 c2 c3 c4,
    Time.appendInt y 4 = String c1 (String c2 (String c3 (String c4 EmptyString)))
    /\ Time.isDigitByte (byteZ c1) = true
    /\ hasSep (Time.appendInt y 4) = false
    /\ Time.atoi (Time.appendInt y 4) = Some y.
Proof.
  intros Hy.
  pose proof (checkFrom_spec _ _ _ years_read_back y ltac:(lia)) as H.
  unfold yearReadsBack in H.
  destruct (Time.appendInt y 4) as [ | c1 [ | c2 [ | c3 [ | c4 [ | ? ?]]]]] eqn:E;
    try discriminate H.
  apply andb_true_iff in H as [H H3]. apply andb_true_iff in H as [H1 H2].
  exists c1, c2, c3, c4. split; [ reflexivity | ]. split; [ exact H1 | ].
  split; [ now apply negb_true_iff in H2 | ].
  destruct (Time.atoi _) as [v | ]; [ | discriminate ].
  apply Z.eqb_eq in H3. now subst.
Qed.

Lemma parse_year y f rest :
  0 <= y <= 9999 ->
  Time.parseStd Time.stdLongYear f (Time.appendInt y 4 +:+ rest)
  = ((y, f.1.2, f.2), rest, None).
Proof.
  intros Hy. destruct f as [[y0 m0] d0].
  destruct (year_reads_back y Hy) as (c1 & c2 & c3 & c4 & E & H1 & _ & A).
  rewrite E in *.
  rewrite !append_cons, append_empty.
  cbn [Time.parseStd String.length Nat.ltb Nat.leb orb
       Time.isDigit String.get negb takeS dropS fst snd].
  rewrite H1. cbn [negb]. rewrite A. reflexivity.
Qed.

Lemma year_no_sep y : 0 <= y <= 9999 -> hasSep (Time.appendInt y 4) = false.
Proof.
  intros Hy. destruct (year_reads_back y Hy) as (c1 & c2 & c3 & c4 & _ & _ & H & _).
  exact H.
Qed.

(** A property of the numbers [lo], ..., [lo + n - 1], case by case. *)
Lemma Z_cases (P : Z -> Prop) (lo : Z) (n : nat) :
  Forall P (map (fun i => lo + Z.of_nat i) (seq 0 n)) ->
  forall z, lo <= z < lo + Z.of_nat n -> P z.
Proof.
  intros H z Hz. rewrite Forall_forall in H. apply H.
  apply list_elem_of_In, in_map_iff. exists (Z.to_nat (z - lo)).
  split; [ lia | apply in_seq; lia ].
Qed.

Lemma parse_zero_month m f rest :
  1 <= m <= 12 ->
  Time.parseStd Time.stdZeroMonth f (Time.appendInt m 2 +:+ rest)
  = ((f.1.1, m, f.2), rest, None).
Proof.
  intros Hm. destruct f as [[y0 m0] d0]. pattern m.
  apply (Z_cases _ 1 12); [ repeat constructor | lia ].
Qed.

Lemma parse_zero_day d f rest :
  1 <= d <= 31 ->
  Time.parseStd Time.stdZeroDay f (Time.appendInt d 2 +:+ rest)
  = ((f.1.1, f.1.2, d), rest, None).
Proof.
  intros Hd. destruct f as [[y0 m0] d0]. pattern d.
  apply (Z_cases _ 1 31); [ repeat constructor | lia ].
Qed.

Lemma parse_month_name m f rest :
  1 <= m <= 12 ->
  Time.parseStd Time.stdMonth f (takeS 3 (Time.monthString m) +:+ rest)
  = ((f.1.1, m, f.2), rest, None).
Proof.
  intros Hm. destruct f as [[y0 m0] d0]. pattern m.
  apply (Z_cases _ 1 12); [ repeat constructor | lia ].
Qed.

Lemma parse_day d f :
  1 <= d <= 31 ->
  Time.parseStd Time.stdDay f (Time.appendInt d 0 +:+ ".md")
  = ((f.1.1, f.1.2, d), ".md", None).
Proof.
  intros Hd. destruct f as [[y0 m0] d0]. pattern d.
  apply (Z_cases _ 1 31); [ repeat constructor | lia ].
Qed.

Lemma daysIn_le_31 m y : Time.daysIn m y <= 31.
Proof.
  unfold Time.daysIn. destruct (m =? 2); [ destruct (Time.isLeap y); lia | ].
  assert (H : Z.land (m + Z.shiftr m 3) 1 = (m + Z.shiftr m 3) mod 2).
  { change 1 with (Z.ones 1). now rewrite Z.land_ones by lia. }
  rewrite H. Z.div_mod_to_equations. lia.
Qed.

(** Parsing the name of a day gives the day back. *)
Lemma Parse_entryName y m d :
  validDate y m d ->
  Time.Parse entryFormat (entryName y m d) = (Time.mkTime y m d 0, None).
Proof.
  intros (Hy & Hm & Hd).
  pose proof (daysIn_le_31 m y) as H31.
  destruct entryFormat_verbs as (V1 & V2 & V3 & V4 & V5 & V6).
  unfold Time.Parse, entryName.
  change (S (String.length entryFormat)) with (S (S (S (S (S (S 32)))))).
  erewrite parseLoop_verb;
    [ | exact V1 | discriminate | reflexivity | apply parse_year; exact Hy ].
  erewrite parseLoop_verb;
    [ | exact V2 | discriminate | reflexivity | apply parse_zero_month; exact Hm ].
  erewrite parseLoop_verb;
    [ | exact V3 | discriminate | reflexivity | apply parse_zero_day; lia ].
  erewrite parseLoop_verb;
    [ | exact V4 | discriminate | reflexivity | apply parse_month_name; exact Hm ].
  erewrite parseLoop_verb;
    [ | exact V5 | discriminate | reflexivity | apply parse_day; lia ].
  erewrite parseLoop_end; [ | exact V6 | reflexivity ].
  cbn [fst snd].
  replace (m <? 0) with false by (symmetry; apply Z.ltb_ge; lia).
  replace (d <? 0) with false by (symmetry; apply Z.ltb_ge; lia).
  replace (d <? 1) with false by (symmetry; apply Z.ltb_ge; lia).
  replace (Time.daysIn m y <? d) with false by (symmetry; apply Z.ltb_ge; lia).
  reflexivity.
Qed.

Lemma hasSep_append a b : hasSep (a +:+ b) = hasSep a || hasSep b.
Proof.
  induction a as [ | c a IH]; [ reflexivity | ].
  rewrite append_cons. cbn [hasSep]. now rewrite IH, orb_assoc.
Qed.

Lemma entryName_no_sep y m d :
  validDate y m d -> hasSep (entryName y m d) = false.
Proof.
  intros (Hy & Hm & Hd). pose proof (daysIn_le_31 m y) as H31.
  unfold entryName. rewrite !hasSep_append, year_no_sep by exact Hy.
  assert (M : hasSep (Time.appendInt m 2) = false
              /\ hasSep (takeS 3 (Time.monthString m)) = false).
  { pattern m. apply (Z_cases _ 1 12); [ repeat constructor | lia ]. }
  assert (D : hasSep (Time.appendInt d 2) = false
              /\ hasSep (Time.appendInt d 0) = false).
  { pattern d. apply (Z_cases _ 1 31); [ repeat constructor | lia ]. }
  destruct M as [-> ->], D as [-> ->]. reflexivity.
Qed.

Lemma afterLast_no_sep acc s : hasSep s = false -> Filepath.afterLast acc s = acc.
Proof.
  induction s as [ | c s IH]; cbn; [ reflexivity | ].
  intros H. apply orb_false_elim in H as [-> H]. now apply IH.
Qed.

Lemma afterLast_join acc dir name :
  hasSep name = false ->
  Filepath.afterLast acc (dir +:+ Filepath.Separator +:+ name) = name.
Proof.
  intros H. revert acc. induction dir as [ | c dir IH]; intros acc.
  - change (Filepath.afterLast name name = name). now apply afterLast_no_sep.
  - rewrite append_cons. cbn [Filepath.afterLast].
    destruct (Filepath.isSep c); apply IH.
Qed.

Lemma stripTrailing_keep a b :
  Filepath.stripTrailing b = b /\ b <> EmptyString ->
  Filepath.stripTrailing (a +:+ b) = a +:+ b /\ a +:+ b <> EmptyString.
Proof.
  intros [Hb Hn]. induction a as [ | c a [IH1 IH2]].
  - auto.
  - rewrite append_cons. split; [ | discriminate ].
    cbn [Filepath.stripTrailing]. rewrite IH1.
    destruct (a +:+ b); [ contradiction | reflexivity ].
Qed.

Lemma entryName_stripTrailing y m d :
  Filepath.stripTrailing (entryName y m d) = entryName y m d
  /\ entryName y m d <> EmptyString.
Proof.
  unfold entryName. do 9 apply stripTrailing_keep.
  split; [ reflexivity | discriminate ].
Qed.

Lemma Base_nonempty path :
  path <> EmptyString ->
  Filepath.Base path
  = match Filepath.lastElem (Filepath.stripTrailing path) with
    | EmptyString => Filepath.Separator
    | String c b => String c b
    end.
Proof. destruct path; [ contradiction | reflexivity ]. Qed.

Lemma Base_join dir y m d :
  validDate y m d ->
  Filepath.Base (dir +:+ Filepath.Separator +:+ entryName y m d)
  = entryName y m d.
Proof.
  intros Hv.
  destruct (entryName_stripTrailing y m d) as [Hs Hn].
  destruct (stripTrailing_keep dir (Filepath.Separator +:+ entryName y m d))
    as [Hs' Hn'].
  { apply stripTrailing_keep. auto. }
  rewrite Base_nonempty by exact Hn'.
  rewrite Hs'. unfold Filepath.lastElem.
  rewrite afterLast_join by now apply entryName_no_sep.
  destruct (entryName y m d); [ contradiction | reflexivity ].
Qed.

(** C4: for every calendar day of a year from 0 to 9999, the name that the
    entry format gives the day, in any directory, is parsed back by Date()
    with the same format to that year, month and day (at midnight). *)
Theorem Date_of_formatted_name dir y m d ns p :
  validDate y m d ->
  Path p = dir +:+ Filepath.Separator
           +:+ Time.Format (Time.mkTime y m d ns) entryFormat ->
  Date p = (Time.mkTime y m d 0, None).
Proof.
  intros Hv Hp. unfold Date. rewrite Hp, Format_entryFormat.
  rewrite Base_join by exact Hv. now apply Parse_entryName.
Qed.

Lemma Date_of_formatted_name_witness :
  validDate 2023 7 4
  /\ Date (newEntry ("journal" +:+ Filepath.Separator
                     +:+ Time.Format (Time.mkTime 2023 7 4 81234) entryFormat))
     = (Time.mkTime 2023 7 4 0, None).
Proof.
  assert (Hv : validDate 2023 7 4).
  { unfold validDate. vm_compute. intuition discriminate. }
  split; [ exact Hv | ].
  apply (Date_of_formatted_name "journal" 2023 7 4 81234 _ Hv). reflexivity.
Defined.

(** Outside that range the name does not carry the date: the year 10000
    is printed with five digits, of which Date() reads four. *)
Example Date_year_10000 :
  Date (newEntry ("journal" +:+ Filepath.Separator
                  +:+ Time.Format (Time.mkTime 10000 1 1 0) entryFormat))
  = (Time.zero, Some Time.errBad).
Proof. reflexivity. Qed.


(** ** The metadata block: what is written is read back *)

Lemma numbers16_read_back :
  checkFrom (numberReadsBack 16) (Z.to_nat 65536) 0 = true.
Proof. vm_compute. reflexivity. Qed.

Lemma numbers8_read_back :
  checkFrom (numberReadsBack 8) (Z.to_nat 256) 0 = true.
Proof. vm_compute. reflexivity. Qed.

Lemma number_reads_back bits v :
  (bits = 16 /\ 0 <= v < 65536) \/ (bits = 8 /\ 0 <= v < 256) ->
  hasLF (Strconv.FormatUint v) = false
  /\ Strconv.ParseUint (Strconv.FormatUint v) 10 bits = (v, None).
Proof.
  intros H.
  assert (C : numberReadsBack bits v = true).
  { destruct H as [[-> Hv] | [-> Hv]].
    - apply (checkFrom_spec _ _ _ numbers16_read_back). lia.
    - apply (checkFrom_spec _ _ _ numbers8_read_back). lia. }
  unfold numberReadsBack in C.
  apply andb_true_iff in C as [C1 C2]. apply negb_true_iff in C1.
  split; [ exact C1 | ].
  destruct (Strconv.ParseUint (Strconv.FormatUint v) 10 bits) as [n [e | ]];
    [ discriminate | ].
  apply Z.eqb_eq in C2. now subst.
Qed.

Lemma length_append a b :
  String.length (a +:+ b) = (String.length a + String.length b)%nat.
Proof.
  induction a as [ | c a IH]; [ reflexivity | ].
  rewrite append_cons. cbn [String.length]. now rewrite IH.
Qed.

Lemma hasLF_append a b : hasLF (a +:+ b) = hasLF a || hasLF b.
Proof.
  induction a as [ | c a IH]; [ reflexivity | ].
  rewrite append_cons. cbn [hasLF]. now rewrite IH, orb_assoc.
Qed.

Lemma cutLine_append a rest :
  hasLF a = false -> Frontmatter.cutLine (a +:+ nl +:+ rest) = Some (a, rest).
Proof.
  induction a as [ | c a IH]; intros H.
  - reflexivity.
  - cbn [hasLF] in H. apply orb_false_elim in H as [H1 H2].
    rewrite append_cons. cbn [Frontmatter.cutLine]. rewrite H1.
    now rewrite (IH H2).
Qed.

Lemma append_assoc a b c : (a +:+ b) +:+ c = a +:+ b +:+ c.
Proof.
  induction a as [ | x a IH]; [ reflexivity | ].
  rewrite !append_cons. now rewrite IH.
Qed.

(** One line of the header is read into its field. *)
Lemma unmarshal_line k key bits v set rest q :
  (bits = 16 /\ 0 <= v < 65536) \/ (bits = 8 /\ 0 <= v < 256) ->
  hasLF key = false ->
  String.eqb (key +:+ ": " +:+ Strconv.FormatUint v) Frontmatter.delimiter = false ->
  (forall num,
      Frontmatter.assign (key +:+ ": " +:+ num) q
      = match Strconv.ParseUint num 10 bits with
        | (n, None) => ok (set n q)
        | (_, Some _) => fail Frontmatter.malformed
        end) ->
  Frontmatter.unmarshalLoop (S k) (Frontmatter.headerLine key v +:+ rest) q
  = Frontmatter.unmarshalLoop k rest (set v q).
Proof.
  intros Hv Hk Hd Ha.
  destruct (number_reads_back bits v Hv) as [N1 N2].
  unfold Frontmatter.headerLine.
  replace ((key +:+ ": " +:+ Strconv.FormatUint v +:+ nl) +:+ rest)
    with ((key +:+ ": " +:+ Strconv.FormatUint v) +:+ nl +:+ rest)
    by now rewrite !append_assoc.
  cbn [Frontmatter.unmarshalLoop].
  rewrite cutLine_append
    by (rewrite !hasLF_append, Hk, N1; reflexivity).
  rewrite Hd, Ha, N2. reflexivity.
Qed.

(** The block [Marshal] writes, followed by any body, is read back by
    [Unmarshal] into the four fields, and the body is returned unchanged. *)
Lemma Unmarshal_Marshal p body q :
  validMetadata p ->
  Frontmatter.Unmarshal ((Frontmatter.Marshal p).1 +:+ body) q
  = (body,
     setAvgMood (AverageMood p)
       (setHighMood (HighMood p)
          (setLowMood (LowMood p) (withSeconds (Seconds p) q))),
     None).
Proof.
  intros (Hs & Hl & Hh & Ha).
  unfold Frontmatter.Unmarshal, Frontmatter.Marshal. cbn [fst].
  rewrite !append_assoc.
  set (rest := Frontmatter.delimiter +:+ nl +:+ body).
  set (data := Frontmatter.headerLine "Seconds" (Seconds p) +:+ _).
  assert (Hfuel : exists k, S (String.length data) = S (S (S (S (S k))))).
  { exists (String.length data - 4)%nat. subst data.
    unfold Frontmatter.headerLine.
    rewrite !length_append. cbn [String.length]. lia. }
  destruct Hfuel as [k ->]. subst data.
  rewrite (unmarshal_line _ "Seconds" 16 _ withSeconds);
    [ | left; auto | reflexivity | reflexivity | reflexivity ].
  rewrite (unmarshal_line _ "LowMood" 8 _ setLowMood);
    [ | right; auto | reflexivity | reflexivity | reflexivity ].
  rewrite (unmarshal_line _ "HighMood" 8 _ setHighMood);
    [ | right; auto | reflexivity | reflexivity | reflexivity ].
  rewrite (unmarshal_line _ "AverageMood" 8 _ setAvgMood);
    [ | right; auto | reflexivity | reflexivity | reflexivity ].
  subst rest. cbn [Frontmatter.unmarshalLoop].
  change (Frontmatter.delimiter +:+ nl +:+ body)
    with (Frontmatter.delimiter +:+ nl +:+ body).
  rewrite cutLine_append by reflexivity. reflexivity.
Qed.

(** What a successful [Save] leaves at the path. *)
Lemma Save_writes p w w' :
  Save p w = (w', None) ->
  exists readable,
    Os.files w' !! Path p
    = Some (Os.File ((Frontmatter.Marshal p).1 +:+ Body p) (Os.now w) readable)
    /\ (readableAt w (Path p) -> readable = true).
Proof.
  unfold Save, Os.WriteFile. cbn [Frontmatter.Marshal fst].
  destruct (Os.readOnly w); [ discriminate | ].
  destruct (Os.files w !! Path p) as [[ | data mtime readable] | ] eqn:L;
    [ discriminate | | ]; intros H; injection H as <-; cbn [Os.files].
  - exists readable. split; [ apply lookup_insert_eq | ].
    intros R. destruct readable; [ reflexivity | ].
    exfalso. exact (R data mtime L).
  - exists true. split; [ apply lookup_insert_eq | reflexivity ].
Qed.

(** C5: for every Entry whose metadata fit their fields (Seconds a uint16,
    the moods uint8) and every body, a Save() that succeeds followed by a
    Load() of the same path, of a file the process may read, succeeds and
    yields an Entry whose Body is byte for byte the body saved and whose
    four metadata fields are the ones saved. *)
Theorem Save_Load_roundtrip p q w w' :
  validMetadata p ->
  Path q = Path p ->
  readableAt w (Path p) ->
  Save p w = (w', None) ->
  exists modified,
    Load q w'
    = (mkEntry (Seconds p) (LowMood p) (HighMood p) (AverageMood p)
               (Body p) (Path q) (Os.now w),
       modified, None).
Proof.
  intros Hv Hq Hr Hs.
  destruct (Save_writes p w w' Hs) as (readable & L & R).
  rewrite (R Hr) in L. clear R.
  unfold Load, Os.Open. rewrite Hq, L. cbn [Os.ReadAll Os.FStat Os.ModTime].
  rewrite Unmarshal_Marshal by exact Hv.
  eexists. rewrite <- Hq. reflexivity.
Qed.

Lemma Save_Load_roundtrip_witness :
  validMetadata writtenEntry
  /\ readableAt emptyJournal (Path writtenEntry)
  /\ (Save writtenEntry emptyJournal).2 = None
  /\ exists modified,
      Load blankEntry (Save writtenEntry emptyJournal).1
      = (mkEntry 65535 1 5 3 (Body writtenEntry) (Path blankEntry)
                 (Os.now emptyJournal),
         modified, None).
Proof.
  assert (Hv : validMetadata writtenEntry).
  { unfold validMetadata. cbn. lia. }
  assert (Hr : readableAt emptyJournal (Path writtenEntry)).
  { intros data mtime. vm_compute. discriminate. }
  assert (Hs : Save writtenEntry emptyJournal
               = ((Save writtenEntry emptyJournal).1, None)).
  { vm_compute. reflexivity. }
  split; [ exact Hv | ]. split; [ exact Hr | ].
  split; [ now rewrite Hs | ].
  exact (Save_Load_roundtrip writtenEntry blankEntry emptyJournal _
           Hv eq_refl Hr Hs).
Defined.

(** ** New *)

(** Once the directory has passed its checks, the error [New] returns is
    nil, whatever [Save] or [Load] have returned. *)
Lemma New_error_after_checks dir w w' p err :
  New dir w = (w', Some p, err) -> err = None.
Proof.
  unfold New. destruct (Os.Stat dir w) as [info | e]; [ | discriminate ].
  destruct (negb (Os.IsDir info)); [ discriminate | ].
  destruct (Os.Stat _ w) as [info' | e].
  - destruct (Load _ w) as [[p1 m] e1]. intros H. now injection H.
  - destruct (Os.IsNotExist e).
    + destruct (Save _ w) as [w1 e1]. intros H. now injection H.
    + intros H. now injection H.
Qed.

(** C1 fails on the code. With the directory on a file system that
    refuses writes, the initial Save fails with that error and has dumped
    the content, and New returns the entry with a nil error. With a file
    for the day that holds no metadata block, Load fails and New returns a
    nil error as well. *)
Theorem New_swallows_errors :
  (Save (withModTime (Os.now readOnlyJournal) blankEntry) readOnlyJournal).2
  = Some ErrReadOnly
  /\ (New "journal" readOnlyJournal).1.2
     = Some (withModTime (Os.now readOnlyJournal) blankEntry)
  /\ (New "journal" readOnlyJournal).2 = None
  /\ (Load blankEntry brokenJournal).2 = Some Frontmatter.malformed
  /\ (New "journal" brokenJournal).2 = None.
Proof. repeat split; vm_compute; reflexivity. Qed.


(** ** Words *)

(** The width of a decoded rune: it lies within the text, and the bytes
    after the first are continuation bytes. *)
Lemma decode_width s r size :
  Utf8.DecodeRuneInString s = (r, size) -> s <> EmptyString ->
  (1 <= size <= String.length s)%nat
  /\ (forall i, (1 <= i < size)%nat -> 128 <= byteAt s i).
Proof.
  unfold Utf8.DecodeRuneInString.
  intros H Hs.
  assert (Hlen : (1 <= String.length s)%nat).
  { destruct s; [ congruence | cbn; lia ]. }
  destruct (String.length s <? 1)%nat eqn:Hn.
  { apply Nat.ltb_lt in Hn. lia. }
  clear Hn.
  destruct (byteAt s 0 <? Utf8.RuneSelf).
  { inversion H; subst. split; [ lia | intros; lia ]. }
  unfold Utf8.RuneError, Utf8.cont in H.
  destruct (Utf8.first (byteAt s 0)) as [[[sz lo] hi] | ] eqn:F;
    [ | inversion H; split; [ lia | intros; lia ] ].
  destruct (String.length s <? sz)%nat eqn:Hsz;
    [ inversion H; split; [ lia | intros; lia ] | ].
  apply Nat.ltb_ge in Hsz.
  destruct ((byteAt s 1 <? lo) || (hi <? byteAt s 1)) eqn:R1;
    [ inversion H; split; [ lia | intros; lia ] | ].
  unfold Utf8.first in F.
  repeat match type of F with
         | (if ?b then _ else _) = _ => destruct b eqn:?
         end;
    inversion F; subst; clear F; cbn [Nat.leb] in H; bool_hyps;
    repeat match type of H with
           | (if ?b then _ else _) = _ => destruct b eqn:?
           end;
    inversion H; subst; clear H; bool_hyps;
    (split; [ lia | ]);
    intros i Hi;
    try (assert (Ei : i = 1%nat \/ i = 2%nat \/ i = 3%nat) by lia;
         destruct Ei as [-> | [-> | ->]]; lia).
Qed.

Lemma byteAt_head c s : byteAt (String c s) 0 = byteZ c.
Proof. reflexivity. Qed.

Lemma byteAt_tail c s i : byteAt (String c s) (S i) = byteAt s i.
Proof. reflexivity. Qed.

Lemma wsByte_high c : 128 <= byteZ c -> wsByte c = false.
Proof.
  intros H. unfold wsByte.
  repeat (apply orb_false_intro); apply Z.eqb_neq; lia.
Qed.

Lemma wordRegex_byte c : wordRegex (byteZ c) = negb (wsByte c).
Proof. reflexivity. Qed.

Lemma wordRegex_large r : 64 <= r -> wordRegex r = true.
Proof.
  intros H. unfold wordRegex, Regexp.nonSpaceRune. apply negb_true_iff.
  repeat (apply orb_false_intro); apply Z.eqb_neq; lia.
Qed.

(** A separator byte is a rune of its own, outside [\S]. *)
Lemma decode_ws c s :
  wsByte c = true ->
  Utf8.DecodeRuneInString (String c s) = (byteZ c, 1%nat)
  /\ wordRegex (byteZ c) = false.
Proof.
  intros H. split; [ | rewrite wordRegex_byte, H; reflexivity ].
  unfold Utf8.DecodeRuneInString. cbn [String.length Nat.ltb Nat.leb].
  rewrite byteAt_head.
  replace (byteZ c <? Utf8.RuneSelf) with true; [ reflexivity | ].
  symmetry. apply Z.ltb_lt. unfold Utf8.RuneSelf.
  destruct (Z_lt_dec (byteZ c) 128) as [L | L]; [ exact L | ].
  rewrite wsByte_high in H by lia. discriminate.
Qed.

Lemma takeS_noWs n s :
  (forall i, (i < n)%nat -> (i < String.length s)%nat ->
             exists c, String.get i s = Some c /\ wsByte c = false) ->
  hasWs (takeS n s) = false.
Proof.
  revert s. induction n as [ | n IH]; intros s H; [ reflexivity | ].
  destruct s as [ | c s]; [ reflexivity | ].
  cbn [takeS hasWs].
  destruct (H 0%nat) as (c0 & G & W); [ lia | cbn; lia | ].
  cbn in G. injection G as <-. rewrite W. cbn [orb].
  apply IH. intros i Hi Hl. apply (H (S i)); cbn; lia.
Qed.

Lemma get_byteAt s i :
  (i < String.length s)%nat ->
  exists c, String.get i s = Some c /\ byteAt s i = byteZ c.
Proof.
  revert i. induction s as [ | c s IH]; intros i H; [ cbn in H; lia | ].
  destruct i as [ | i].
  - exists c. split; reflexivity.
  - destruct (IH i) as (c' & G & B); [ cbn in H; lia | ].
    exists c'. split; [ exact G | ]. unfold byteAt in *. cbn [String.get].
    now rewrite G.
Qed.

(** Any other byte starts a rune of [\S], none of whose bytes is a
    separator. *)
Lemma decode_word c s r size :
  wsByte c = false ->
  Utf8.DecodeRuneInString (String c s) = (r, size) ->
  wordRegex r = true
  /\ (1 <= size <= S (String.length s))%nat
  /\ hasWs (takeS size (String c s)) = false.
Proof.
  intros W D.
  destruct (decode_width _ _ _ D) as [Hs Hc]; [ discriminate | ].
  split; [ | split; [ exact Hs | ] ].
  - destruct (Z_lt_dec r 64) as [L | L].
    + destruct (decode_small _ _ _ D L) as [_ ->]; [ discriminate | ].
      rewrite byteAt_head, wordRegex_byte, W. reflexivity.
    + apply wordRegex_large. lia.
  - apply takeS_noWs. intros i Hi Hl.
    destruct (get_byteAt (String c s) i Hl) as (c' & G & B).
    exists c'. split; [ exact G | ].
    destruct i as [ | i].
    + cbn in G. injection G as <-. exact W.
    + apply wsByte_high. rewrite <- B. apply Hc. lia.
Qed.

(** The bytes before the first separator. *)
Lemma spanBytes_le s : (spanBytes s <= String.length s)%nat.
Proof.
  induction s as [ | c s IH]; cbn; [ lia | ]. destruct (wsByte c); lia.
Qed.

Lemma spanBytes_take n s :
  hasWs (takeS n s) = false -> (n <= String.length s)%nat ->
  spanBytes s = (n + spanBytes (dropS n s))%nat.
Proof.
  revert s. induction n as [ | n IH]; intros s H L; [ reflexivity | ].
  destruct s as [ | c s]; [ cbn in L; lia | ].
  cbn [takeS hasWs] in H. apply orb_false_elim in H as [H1 H2].
  cbn [spanBytes dropS]. rewrite H1. rewrite (IH s H2) by (cbn in L; lia).
  reflexivity.
Qed.

Lemma takeS_span_noWs s : hasWs (takeS (spanBytes s) s) = false.
Proof.
  induction s as [ | c s IH]; [ reflexivity | ].
  cbn [spanBytes]. destruct (wsByte c) eqn:W; [ reflexivity | ].
  cbn [takeS hasWs]. now rewrite W, IH.
Qed.

Lemma length_dropS n s :
  String.length (dropS n s) = (String.length s - n)%nat.
Proof.
  revert s. induction n as [ | n IH]; intros s; [ cbn; lia | ].
  destruct s as [ | c s]; [ reflexivity | ]. cbn [dropS String.length].
  rewrite IH. lia.
Qed.

Lemma takeS_dropS n s : takeS n s +:+ dropS n s = s.
Proof.
  revert s. induction n as [ | n IH]; intros s; [ reflexivity | ].
  destruct s as [ | c s]; [ reflexivity | ].
  cbn [takeS dropS]. rewrite append_cons. now rewrite IH.
Qed.

(** The greedy run of [\S] runes ends at the first separator byte. *)
Lemma spanLoop_spanBytes fuel s :
  (String.length s <= fuel)%nat ->
  Regexp.spanLoop wordRegex fuel s = spanBytes s.
Proof.
  revert s. induction fuel as [ | fuel IH]; intros s L.
  - destruct s; [ reflexivity | cbn in L; lia ].
  - destruct s as [ | c s]; [ reflexivity | ].
    cbn [Regexp.spanLoop].
    destruct (wsByte c) eqn:W.
    + destruct (decode_ws c s W) as [-> ->]. cbn [spanBytes]. now rewrite W.
    + destruct (Utf8.DecodeRuneInString (String c s)) as [r size] eqn:D.
      destruct (decode_word c s r size W D) as (-> & Hs & Hn).
      rewrite IH by (rewrite length_dropS; cbn in *; lia).
      symmetry. apply spanBytes_take; [ exact Hn | cbn; lia ].
Qed.

(** The search does not depend on fuel it does not need. *)
Lemma findAllLoop_fuel fuel fuel' s :
  (String.length s <= fuel)%nat -> (String.length s <= fuel')%nat ->
  Regexp.findAllLoop wordRegex fuel s = Regexp.findAllLoop wordRegex fuel' s.
Proof.
  revert fuel' s. induction fuel as [ | fuel IH]; intros fuel' s L L'.
  - destruct s; [ now destruct fuel' | cbn in L; lia ].
  - destruct s as [ | c s]; [ now destruct fuel' | ].
    destruct fuel' as [ | fuel']; [ cbn in L'; lia | ].
    cbn [Regexp.findAllLoop].
    destruct (wsByte c) eqn:W.
    + destruct (decode_ws c s W) as [-> ->]. cbn [dropS].
      apply IH; cbn in *; lia.
    + destruct (Utf8.DecodeRuneInString (String c s)) as [r size] eqn:D.
      destruct (decode_word c s r size W D) as (-> & Hs & Hn).
      rewrite spanLoop_spanBytes by lia. f_equal.
      assert (1 <= spanBytes (String c s))%nat
        by (cbn [spanBytes]; rewrite W; lia).
      apply IH; rewrite length_dropS; cbn in *; lia.
Qed.

(** The two equations of the search for words. *)
Lemma FindAll_ws c s :
  wsByte c = true ->
  Regexp.FindAllPlus wordRegex (String c s) = Regexp.FindAllPlus wordRegex s.
Proof.
  intros W. unfold Regexp.FindAllPlus. cbn [String.length Regexp.findAllLoop].
  destruct (decode_ws c s W) as [-> ->]. reflexivity.
Qed.

Lemma FindAll_word c s :
  wsByte c = false ->
  Regexp.FindAllPlus wordRegex (String c s)
  = takeS (spanBytes (String c s)) (String c s)
    :: Regexp.FindAllPlus wordRegex (dropS (spanBytes (String c s)) (String c s)).
Proof.
  intros W. unfold Regexp.FindAllPlus.
  cbn [String.length Regexp.findAllLoop].
  destruct (Utf8.DecodeRuneInString (String c s)) as [r size] eqn:D.
  destruct (decode_word c s r size W D) as (-> & Hs & Hn).
  rewrite spanLoop_spanBytes by (cbn; lia). f_equal.
  assert (1 <= spanBytes (String c s))%nat
    by (cbn [spanBytes]; rewrite W; lia).
  apply findAllLoop_fuel; rewrite ?length_dropS; cbn in *; lia.
Qed.

(** Induction along the search: a separator is dropped, or a word is cut
    off at the first separator. *)
Lemma FindAll_ind (P : string -> Prop) :
  P EmptyString ->
  (forall c s, wsByte c = true -> P s -> P (String c s)) ->
  (forall c s, wsByte c = false ->
               P (dropS (spanBytes (String c s)) (String c s)) ->
               P (String c s)) ->
  forall s, P s.
Proof.
  intros H0 Hw Hn s.
  assert (G : forall n s, (String.length s <= n)%nat -> P s).
  { clear s. induction n as [ | n IH]; intros s L.
    - destruct s; [ exact H0 | cbn in L; lia ].
    - destruct s as [ | c s]; [ exact H0 | ].
      destruct (wsByte c) eqn:W.
      + apply Hw; [ exact W | ]. apply IH. cbn in L. lia.
      + apply Hn; [ exact W | ]. apply IH. rewrite length_dropS.
        cbn [spanBytes]. rewrite W. cbn in *. lia. }
  apply (G (String.length s)). lia.
Qed.

Lemma spanBytes_all s : hasWs s = false -> spanBytes s = String.length s.
Proof.
  induction s as [ | c s IH]; [ reflexivity | ].
  cbn [hasWs spanBytes String.length]. intros H.
  apply orb_false_elim in H as [-> H]. now rewrite IH.
Qed.

Lemma takeS_all s : takeS (String.length s) s = s.
Proof. induction s as [ | c s IH]; [ reflexivity | ]. cbn. now rewrite IH. Qed.

Lemma dropS_all s : dropS (String.length s) s = EmptyString.
Proof. induction s as [ | c s IH]; [ reflexivity | ]. exact IH. Qed.

Lemma spanBytes_append_ws a c b :
  wsByte c = true -> spanBytes (a +:+ String c b) = spanBytes a.
Proof.
  intros W. induction a as [ | x a IH].
  - rewrite append_empty. cbn [spanBytes]. now rewrite W.
  - rewrite append_cons. cbn [spanBytes]. now rewrite IH.
Qed.

Lemma takeS_append n a b :
  (n <= String.length a)%nat -> takeS n (a +:+ b) = takeS n a.
Proof.
  revert a. induction n as [ | n IH]; intros a L.
  - now destruct a, b.
  - destruct a as [ | x a]; [ cbn in L; lia | ].
    rewrite append_cons. cbn [takeS]. rewrite IH by (cbn in L; lia).
    reflexivity.
Qed.

Lemma dropS_append n a b :
  (n <= String.length a)%nat -> dropS n (a +:+ b) = dropS n a +:+ b.
Proof.
  revert a. induction n as [ | n IH]; intros a L; [ reflexivity | ].
  destruct a as [ | x a]; [ cbn in L; lia | ].
  rewrite append_cons. cbn [dropS]. apply IH. cbn in L. lia.
Qed.

Lemma stripWs_append a b : stripWs (a +:+ b) = stripWs a +:+ stripWs b.
Proof.
  induction a as [ | c a IH]; [ reflexivity | ].
  rewrite append_cons. cbn [stripWs]. destruct (wsByte c); [ exact IH | ].
  rewrite append_cons. now rewrite IH.
Qed.

Lemma stripWs_noWs s : hasWs s = false -> stripWs s = s.
Proof.
  induction s as [ | c s IH]; [ reflexivity | ].
  cbn [hasWs stripWs]. intros H. apply orb_false_elim in H as [-> H].
  now rewrite IH.
Qed.

(** X1: every word that Words returns is non-empty and holds none of the
    bytes tab, line feed, form feed, carriage return and space. *)
Theorem Words_hold_no_separator p :
  Forall (fun w => w <> EmptyString /\ hasWs w = false) (Words p).
Proof.
  unfold Words. generalize (Body p). clear p.
  apply (FindAll_ind (fun s => Forall _ (Regexp.FindAllPlus wordRegex s))).
  - constructor.
  - intros c s W IH. now rewrite FindAll_ws.
  - intros c s W IH. rewrite FindAll_word by exact W.
    constructor; [ | exact IH ]. split.
    + cbn [spanBytes]. rewrite W. discriminate.
    + apply takeS_span_noWs.
Qed.

(** X2: the words that Words returns, one after the other, are the body
    with those five bytes removed: no other byte of the body is lost or
    reordered. There is no word exactly when the body holds nothing but
    those bytes (an empty body included). *)
Theorem Words_joined_is_body_without_separators p :
  joined (Words p) = stripWs (Body p)
  /\ (Words p = [] <-> stripWs (Body p) = EmptyString).
Proof.
  assert (J : joined (Words p) = stripWs (Body p)).
  { unfold Words. generalize (Body p).
    apply (FindAll_ind
             (fun s => joined (Regexp.FindAllPlus wordRegex s) = stripWs s)).
    - reflexivity.
    - intros c s W IH. rewrite FindAll_ws by exact W.
      cbn [stripWs]. now rewrite W.
    - intros c s W IH. rewrite FindAll_word by exact W.
      cbn [joined fold_right]. fold (joined (Regexp.FindAllPlus wordRegex
        (dropS (spanBytes (String c s)) (String c s)))).
      rewrite IH.
      assert (E : stripWs (String c s)
                  = stripWs (takeS (spanBytes (String c s)) (String c s)
                             +:+ dropS (spanBytes (String c s)) (String c s)))
        by now rewrite takeS_dropS.
      rewrite E, stripWs_append.
      now rewrite (stripWs_noWs _ (takeS_span_noWs (String c s))). }
  split; [ exact J | ]. rewrite <- J. split.
  - intros ->. reflexivity.
  - pose proof (Words_hold_no_separator p) as F.
    destruct (Words p) as [ | w ws]; [ reflexivity | ].
    inversion F as [ | ? ? [Hw _] _]; subst.
    cbn [joined fold_right]. destruct w; [ contradiction | discriminate ].
Qed.

(** X3: a body that holds none of the five separator bytes and is not
    empty is one word, whatever its bytes are: no other byte, were it a
    vertical tab, a no-break space or a byte that is not UTF-8, ends a
    word. *)
Theorem Words_of_one_word p :
  Body p <> EmptyString -> hasWs (Body p) = false -> Words p = [Body p].
Proof.
  unfold Words. destruct (Body p) as [ | c s]; [ contradiction | ].
  intros _ H. pose proof H as H'. cbn [hasWs] in H'.
  apply orb_false_elim in H' as [W _].
  rewrite FindAll_word by exact W.
  rewrite spanBytes_all by exact H. now rewrite takeS_all, dropS_all.
Qed.

Lemma Words_of_one_word_witness :
  Body (withBody (String (byteOfZ 11)
                    (String (byteOfZ 194) (String (byteOfZ 160) "x")))
          blankEntry) <> EmptyString
  /\ Words (withBody (String (byteOfZ 11)
                        (String (byteOfZ 194) (String (byteOfZ 160) "x")))
              blankEntry)
     = [String (byteOfZ 11) (String (byteOfZ 194) (String (byteOfZ 160) "x"))].
Proof.
  split; [ discriminate | ].
  apply Words_of_one_word; [ discriminate | reflexivity ].
Defined.

(** X4: one separator byte between two texts separates their words: the
    words of [a], the byte, [b] are the words of [a] followed by the words
    of [b]. *)
Theorem Words_across_separator a c b p :
  wsByte c = true ->
  Words (withBody (a +:+ String c b) p)
  = Words (withBody a p) ++ Words (withBody b p).
Proof.
  intros W. unfold Words. cbn [Body withBody]. revert a.
  apply (FindAll_ind
           (fun a => Regexp.FindAllPlus wordRegex (a +:+ String c b)
                     = Regexp.FindAllPlus wordRegex a
                       ++ Regexp.FindAllPlus wordRegex b)).
  - rewrite append_empty. now rewrite FindAll_ws.
  - intros x a Wx IH. rewrite append_cons.
    now rewrite !FindAll_ws by exact Wx.
  - intros x a Wx IH. rewrite append_cons.
    rewrite !FindAll_word by exact Wx. rewrite <- append_cons.
    rewrite spanBytes_append_ws by exact W.
    rewrite takeS_append, dropS_append by apply spanBytes_le.
    now rewrite IH.
Qed.

Lemma Words_across_separator_witness :
  wsByte (byteOfZ 10) = true
  /\ Words (withBody ("  hello   world" +:+ String (byteOfZ 10) "bye") blankEntry)
     = Words (withBody "  hello   world" blankEntry)
       ++ Words (withBody "bye" blankEntry).
Proof.
  split; [ reflexivity | ].
  apply (Words_across_separator "  hello   world" (byteOfZ 10) "bye" blankEntry).
  reflexivity.
Defined.


(** ** The prompter: further properties *)

(** A mood whose question is among [kvs], or that holds a rating already,
    holds a rating after the questions have been answered. *)
Lemma store_rates p0 kvs vs p :
  Forall (question p0) kvs ->
  Forall (fun v => 1 <= v <= 5) vs ->
  length vs = length kvs ->
  ((highPrompt, setHighMood) ∈ kvs \/ 1 <= HighMood p <= 5 ->
   1 <= HighMood (store kvs vs p) <= 5)
  /\ ((lowPrompt, setLowMood) ∈ kvs \/ 1 <= LowMood p <= 5 ->
      1 <= LowMood (store kvs vs p) <= 5)
  /\ ((avgPrompt, setAvgMood) ∈ kvs \/ 1 <= AverageMood p <= 5 ->
      1 <= AverageMood (store kvs vs p) <= 5).
Proof.
  intros Hq. revert vs p.
  induction Hq as [ | [k set] kvs Q Hq IH]; intros vs p Hv Hl.
  - destruct vs; [ | discriminate ]. cbn.
    split; [ | split ]; intros [H | H]; try lia; now apply not_elem_of_nil in H.
  - destruct vs as [ | v vs]; [ discriminate | ].
    inversion Hv as [ | ? ? Hv1 Hv2]; subst. cbn [store].
    destruct (IH vs (set v p) Hv2) as (I1 & I2 & I3);
      [ cbn in Hl; lia | ].
    assert (K : forall k' set', (k', set') ∈ (k, set) :: kvs ->
                (k', set') = (k, set) \/ (k', set') ∈ kvs)
      by (intros k' set' H; now apply elem_of_cons in H).
    destruct Q as [[E Z] | [[E Z] | [E Z]]]; injection E as -> ->.
    + split; [ | split ]; intros [H | H];
        [ apply I1 | apply I1 | apply I2 | apply I2 | apply I3 | apply I3 ];
        try (destruct (K _ _ H) as [E | E];
             [ discriminate E || (right; cbn; lia) | now left ]);
        right; cbn; lia.
    + split; [ | split ]; intros [H | H];
        [ apply I1 | apply I1 | apply I2 | apply I2 | apply I3 | apply I3 ];
        try (destruct (K _ _ H) as [E | E];
             [ discriminate E || (right; cbn; lia) | now left ]);
        right; cbn; lia.
    + split; [ | split ]; intros [H | H];
        [ apply I1 | apply I1 | apply I2 | apply I2 | apply I3 | apply I3 ];
        try (destruct (K _ _ H) as [E | E];
             [ discriminate E || (right; cbn; lia) | now left ]);
        right; cbn; lia.
Qed.

(** A run that returns no error has stored one rating per question. *)
Lemma PromptForMetadata_answered order p r w p' r' w' :
  PromptForMetadata order p r w = Some (p', r', w', None) ->
  exists new,
    Bufio.served r' = Bufio.served r ++ new
    /\ p' = store order (ratings new) p
    /\ length (ratings new) = length order.
Proof.
  intros E.
  destruct (PromptForMetadata_ranges order p r w) as (res & E' & R).
  rewrite E in E'. injection E' as <-.
  apply ranges_shape in R as (new & written & F1 & _ & F3 & _ & _ & F6 & _).
  cbn in *. exists new. auto.
Qed.

Lemma question_in_order p order k set :
  rangeOrder (prompts p) order -> prompts p !! k = Some set -> (k, set) ∈ order.
Proof.
  unfold rangeOrder. intros Ho L. rewrite Ho. now apply elem_of_map_to_list.
Qed.

Lemma prompts_has p :
  (HighMood p = 0 -> prompts p !! highPrompt = Some setHighMood)
  /\ (LowMood p = 0 -> prompts p !! lowPrompt = Some setLowMood)
  /\ (AverageMood p = 0 -> prompts p !! avgPrompt = Some setAvgMood).
Proof.
  unfold prompts. split; [ | split ]; intros Z; apply Z.eqb_eq in Z.
  - destruct (AverageMood p =? 0), (LowMood p =? 0); rewrite Z;
      rewrite ?lookup_insert_ne by discriminate; apply lookup_insert_eq.
  - destruct (AverageMood p =? 0); rewrite Z;
      rewrite ?lookup_insert_ne by discriminate; apply lookup_insert_eq.
  - rewrite Z. apply lookup_insert_eq.
Qed.

(** After a run without error no mood is 0. *)
Lemma run_rates_all order p r w p' r' w' :
  rangeOrder (prompts p) order ->
  PromptForMetadata order p r w = Some (p', r', w', None) ->
  (HighMood p = 0 -> 1 <= HighMood p' <= 5)
  /\ (LowMood p = 0 -> 1 <= LowMood p' <= 5)
  /\ (AverageMood p = 0 -> 1 <= AverageMood p' <= 5)
  /\ HighMood p' <> 0 /\ LowMood p' <> 0 /\ AverageMood p' <> 0.
Proof.
  intros Ho E.
  destruct (PromptForMetadata_answered _ _ _ _ _ _ _ E) as (new & _ & -> & L).
  destruct (store_rates p order (ratings new) p
              (rangeOrder_questions p order Ho) (ratings_range new) L)
    as (S1 & S2 & S3).
  destruct (prompts_has p) as (P1 & P2 & P3).
  assert (H1 : HighMood p = 0 -> 1 <= HighMood (store order (ratings new) p) <= 5).
  { intros Z. apply S1. left. eapply question_in_order; eauto. }
  assert (H2 : LowMood p = 0 -> 1 <= LowMood (store order (ratings new) p) <= 5).
  { intros Z. apply S2. left. eapply question_in_order; eauto. }
  assert (H3 : AverageMood p = 0 ->
               1 <= AverageMood (store order (ratings new) p) <= 5).
  { intros Z. apply S3. left. eapply question_in_order; eauto. }
  pose proof (store_filledIn p order (ratings new) p
                (rangeOrder_questions p order Ho) (ratings_range new)
                (filledIn_refl p)) as (_ & _ & _ & _ & F1 & F2 & F3).
  repeat (split; [ assumption | ]).
  split; [ | split ].
  - destruct (Z.eq_dec (HighMood p) 0) as [Z | Z]; [ specialize (H1 Z); lia | ].
    destruct F1; lia.
  - destruct (Z.eq_dec (LowMood p) 0) as [Z | Z]; [ specialize (H2 Z); lia | ].
    destruct F2; lia.
  - destruct (Z.eq_dec (AverageMood p) 0) as [Z | Z]; [ specialize (H3 Z); lia | ].
    destruct F3; lia.
Qed.

(** X5: when PromptForMetadata returns a nil error, every mood that was 0
    holds a rating in 1..5 and no mood of the entry is 0 any more. *)
Theorem PromptForMetadata_success_rates_all order p r w p' r' w' :
  rangeOrder (prompts p) order ->
  PromptForMetadata order p r w = Some (p', r', w', None) ->
  (HighMood p = 0 -> 1 <= HighMood p' <= 5)
  /\ (LowMood p = 0 -> 1 <= LowMood p' <= 5)
  /\ (AverageMood p = 0 -> 1 <= AverageMood p' <= 5)
  /\ HighMood p' <> 0 /\ LowMood p' <> 0 /\ AverageMood p' <> 0.
Proof. intros Ho E. exact (run_rates_all _ _ _ _ _ _ _ Ho E). Qed.

Lemma PromptForMetadata_success_rates_all_witness :
  rangeOrder (prompts blankEntry) lowFirst
  /\ PromptForMetadata lowFirst blankEntry (Bufio.mkReader threeRatings EOF []) []
     = Some (setAvgMood 2 (setHighMood 4 (setLowMood 3 blankEntry)),
             Bufio.mkReader EmptyString EOF
               [("3" +:+ nl, None); ("4" +:+ nl, None); ("2" +:+ nl, None)],
             [] ++ [lowPrompt; highPrompt; avgPrompt], None)
  /\ HighMood (setAvgMood 2 (setHighMood 4 (setLowMood 3 blankEntry))) <> 0.
Proof.
  assert (Ho : rangeOrder (prompts blankEntry) lowFirst).
  { unfold rangeOrder. rewrite prompts_all by reflexivity. apply perm_swap. }
  assert (E := three_answers lowPrompt setLowMood highPrompt setHighMood
                 avgPrompt setAvgMood blankEntry EOF []).
  split; [ exact Ho | ]. split; [ exact E | ].
  apply (PromptForMetadata_success_rates_all _ _ _ _ _ _ _ Ho E).
Defined.

(** X6: after a run of PromptForMetadata that returned a nil error, a
    second run on the entry it left, on any reader and writer, asks
    nothing: it serves no read, writes nothing, leaves the entry as it is
    and returns nil. *)
Theorem PromptForMetadata_again_is_noop order p r w p' r' w' order2 r2 w2 :
  rangeOrder (prompts p) order ->
  PromptForMetadata order p r w = Some (p', r', w', None) ->
  rangeOrder (prompts p') order2 ->
  PromptForMetadata order2 p' r2 w2 = Some (p', r2, w2, None).
Proof.
  intros Ho E Ho2.
  destruct (run_rates_all _ _ _ _ _ _ _ Ho E) as (_ & _ & _ & H & L & A).
  unfold rangeOrder in Ho2.
  rewrite prompts_none, map_to_list_empty in Ho2 by assumption.
  apply Permutation_nil_r in Ho2. subst order2. reflexivity.
Qed.

Lemma PromptForMetadata_again_is_noop_witness :
  rangeOrder (prompts blankEntry) lowFirst
  /\ PromptForMetadata lowFirst blankEntry (Bufio.mkReader threeRatings EOF []) []
     = Some (setAvgMood 2 (setHighMood 4 (setLowMood 3 blankEntry)),
             Bufio.mkReader EmptyString EOF
               [("3" +:+ nl, None); ("4" +:+ nl, None); ("2" +:+ nl, None)],
             [] ++ [lowPrompt; highPrompt; avgPrompt], None)
  /\ rangeOrder (prompts (setAvgMood 2 (setHighMood 4 (setLowMood 3 blankEntry))))
       []
  /\ PromptForMetadata [] (setAvgMood 2 (setHighMood 4 (setLowMood 3 blankEntry)))
       (Bufio.mkReader correction EOF []) [lowPrompt]
     = Some (setAvgMood 2 (setHighMood 4 (setLowMood 3 blankEntry)),
             Bufio.mkReader correction EOF [], [lowPrompt], None).
Proof.
  assert (Ho : rangeOrder (prompts blankEntry) lowFirst).
  { unfold rangeOrder. rewrite prompts_all by reflexivity. apply perm_swap. }
  assert (E := three_answers lowPrompt setLowMood highPrompt setHighMood
                 avgPrompt setAvgMood blankEntry EOF []).
  assert (Ho2 : rangeOrder
                  (prompts (setAvgMood 2 (setHighMood 4 (setLowMood 3 blankEntry))))
                  []).
  { unfold rangeOrder.
    change (prompts (setAvgMood 2 (setHighMood 4 (setLowMood 3 blankEntry))))
      with (∅ : gmap string setter).
    now rewrite map_to_list_empty. }
  split; [ exact Ho | ]. split; [ exact E | ]. split; [ exact Ho2 | ].
  exact (PromptForMetadata_again_is_noop _ _ _ _ _ _ _ _ _ _ Ho E Ho2).
Defined.


Lemma ratings_failed line e l : ratings ((line, Some e) :: l) = ratings l.
Proof. reflexivity. Qed.






(** ** Names in a directory *)

Lemma byteAt_append_right a s i :
  byteAt (a +:+ s) (String.length a + i) = byteAt s i.
Proof.
  induction a as [ | c a IH]; [ reflexivity | ].
  rewrite append_cons. cbn [String.length Nat.add]. now rewrite byteAt_tail.
Qed.

(** Text put in front of [s] does not reach into [s] when [s] starts
    with a byte that is no continuation byte: the runes of [s] are decoded
    as they are in [s] alone. *)
Lemma runesFrom_suffix pre s k :
  (k <= String.length pre)%nat ->
  byteAt s 0 < 128 ->
  exists t, Utf8.runesFrom k (pre +:+ s) = t ++ Utf8.runes s.
Proof.
  intros Hk Hs. revert k Hk.
  induction pre as [ | c pre IH]; intros k Hk.
  - cbn [String.length] in Hk. assert (k = 0%nat) as -> by lia.
    exists []. reflexivity.
  - rewrite append_cons. cbn [Utf8.runesFrom]. destruct k as [ | k].
    + destruct (Utf8.DecodeRuneInString (String c (pre +:+ s))) as [r size] eqn:D.
      destruct (decode_width _ _ _ D ltac:(discriminate)) as [W1 W2].
      assert (L : (size - 1 <= String.length pre)%nat).
      { destruct (Nat.le_gt_cases (size - 1) (String.length pre)) as [ | G];
          [ assumption | exfalso ].
        specialize (W2 (S (String.length pre)) ltac:(lia)).
        rewrite byteAt_tail in W2.
        replace (String.length pre) with (String.length pre + 0)%nat in W2 by lia.
        rewrite byteAt_append_right in W2. lia. }
      destruct (IH _ L) as (t & ->). exists (r :: t). reflexivity.
    + cbn [String.length] in Hk. destruct (IH k ltac:(lia)) as (t & ->).
      exists t. reflexivity.
Qed.

Lemma runes_after_separator dir name :
  exists t, Utf8.runes (dir +:+ Filepath.Separator +:+ name)
            = t ++ [47] ++ Utf8.runes name.
Proof.
  assert (H : byteAt (Filepath.Separator +:+ name) 0 < 128) by (vm_compute; reflexivity).
  destruct (runesFrom_suffix dir (Filepath.Separator +:+ name) 0 ltac:(lia) H)
    as (t & E).
  exists t. unfold Utf8.runes at 1. rewrite E. reflexivity.
Qed.

(** X8: IsEntry looks for the name anywhere in the path: a name it accepts
    is accepted in every directory. *)
Theorem IsEntry_in_any_directory dir name :
  IsEntry name = true ->
  IsEntry (dir +:+ Filepath.Separator +:+ name) = true.
Proof.
  intros H. apply IsEntry_iff in H as (pre & m & post & E & Hm).
  apply IsEntry_iff.
  destruct (runes_after_separator dir name) as (t & Et).
  exists (t ++ [47] ++ pre), m, post. split; [ | exact Hm ].
  rewrite Et, E. now rewrite <- !app_assoc.
Qed.

Lemma IsEntry_in_any_directory_witness :
  IsEntry "2023-07-04-Journal-Entry-for-Jul-4.md" = true
  /\ IsEntry ("my journal" +:+ Filepath.Separator
              +:+ "2023-07-04-Journal-Entry-for-Jul-4.md") = true.
Proof.
  split; [ reflexivity | ].
  apply (IsEntry_in_any_directory "my journal"). reflexivity.
Defined.


Lemma runes_ascii_cons c s :
  byteZ c < 128 -> Utf8.runes (String c s) = byteZ c :: Utf8.runes s.
Proof.
  intros H. unfold Utf8.runes. cbn [Utf8.runesFrom].
  unfold Utf8.DecodeRuneInString. cbn [String.length Nat.ltb Nat.leb].
  rewrite byteAt_head. unfold Utf8.RuneSelf.
  apply Z.ltb_lt in H. rewrite H. reflexivity.
Qed.

(** A text of ASCII bytes is read rune by rune as its bytes. *)
Lemma runes_allBytes f s t :
  (forall b, f b = true -> b < 128) ->
  allBytes f s = true ->
  Utf8.runes (s +:+ t) = bytes s ++ Utf8.runes t
  /\ Forall (fun x => f x = true) (bytes s)
  /\ length (bytes s) = String.length s.
Proof.
  intros Hf. induction s as [ | c s IH]; intros H.
  - repeat split. constructor.
  - cbn [allBytes] in H. apply andb_true_iff in H as [H1 H2].
    destruct (IH H2) as (E1 & E2 & E3).
    rewrite append_cons, runes_ascii_cons by now apply Hf.
    cbn [bytes length String.length]. rewrite E1, E3.
    split; [ reflexivity | ]. split; [ now constructor | reflexivity ].
Qed.

Lemma digit_ascii b : Time.isDigitByte b = true -> b < 128.
Proof. unfold Time.isDigitByte. intros H. bool_hyps. lia. Qed.

Lemma asciiNonDigit_ascii b : asciiNonDigit b = true -> b < 128.
Proof. unfold asciiNonDigit. intros H. bool_hyps. lia. Qed.

Lemma years_are_four_digits :
  checkFrom yearIsFourDigits (Z.to_nat 10000) 0 = true.
Proof. vm_compute. reflexivity. Qed.

(** The name of a day has the shape [IsEntry] looks for. *)
Lemma entryName_shape y m d :
  0 <= y <= 9999 -> 1 <= m <= 12 -> 1 <= d <= 31 ->
  entryShape (fun c => c = 46) (Utf8.runes (entryName y m d)).
Proof.
  intros Hy Hm Hd.
  pose proof (checkFrom_spec _ _ _ years_are_four_digits y ltac:(lia)) as Y.
  unfold yearIsFourDigits in Y. apply andb_true_iff in Y as [Y1 Y2].
  apply Nat.eqb_eq in Y1.
  assert (M : (String.length (Time.appendInt m 2) = 2%nat
               /\ allBytes Time.isDigitByte (Time.appendInt m 2) = true)
              /\ String.length (takeS 3 (Time.monthString m)) = 3%nat
              /\ allBytes asciiNonDigit (takeS 3 (Time.monthString m)) = true).
  { pattern m. apply (Z_cases _ 1 12); [ repeat constructor | lia ]. }
  assert (D : (String.length (Time.appendInt d 2) = 2%nat
               /\ allBytes Time.isDigitByte (Time.appendInt d 2) = true)
              /\ (String.length (Time.appendInt d 0) = 1%nat
                  \/ String.length (Time.appendInt d 0) = 2%nat)
              /\ allBytes Time.isDigitByte (Time.appendInt d 0) = true).
  { pattern d. apply (Z_cases _ 1 31); [ | lia ].
    repeat (constructor; [ split; [ split; reflexivity | ];
                           split; [ (now left) || (now right) | reflexivity ] | ]).
    constructor. }
  destruct M as ((M1 & M2) & M3 & M4), D as ((D1 & D2) & D3 & D4).
  exists (bytes (Time.appendInt y 4)), (bytes (Time.appendInt m 2)),
    (bytes (Time.appendInt d 2)), (bytes (takeS 3 (Time.monthString m))),
    (bytes (Time.appendInt d 0)), 46.
  unfold entryName.
  destruct (runes_allBytes _ _
              ("-" +:+ Time.appendInt m 2 +:+ "-" +:+ Time.appendInt d 2
               +:+ "-Journal-Entry-for-" +:+ takeS 3 (Time.monthString m)
               +:+ "-" +:+ Time.appendInt d 0 +:+ ".md") digit_ascii Y2)
    as (-> & Fy & Ly).
  rewrite append_cons, append_empty, runes_ascii_cons by (vm_compute; reflexivity).
  destruct (runes_allBytes _ _
              ("-" +:+ Time.appendInt d 2
               +:+ "-Journal-Entry-for-" +:+ takeS 3 (Time.monthString m)
               +:+ "-" +:+ Time.appendInt d 0 +:+ ".md") digit_ascii M2)
    as (-> & Fm & Lm).
  rewrite append_cons, append_empty, runes_ascii_cons by (vm_compute; reflexivity).
  destruct (runes_allBytes _ _
              ("-Journal-Entry-for-" +:+ takeS 3 (Time.monthString m)
               +:+ "-" +:+ Time.appendInt d 0 +:+ ".md") digit_ascii D2)
    as (-> & Fd & Ld).
  destruct (runes_allBytes (fun b => b <? 128) "-Journal-Entry-for-"
              (takeS 3 (Time.monthString m)
               +:+ "-" +:+ Time.appendInt d 0 +:+ ".md")
              ltac:(intros b Hb; now apply Z.ltb_lt) eq_refl)
    as (-> & _ & _).
  destruct (runes_allBytes _ _ ("-" +:+ Time.appendInt d 0 +:+ ".md")
              asciiNonDigit_ascii M4)
    as (-> & Fn & Ln).
  rewrite append_cons, append_empty, runes_ascii_cons by (vm_compute; reflexivity).
  destruct (runes_allBytes _ _ ".md" digit_ascii D4) as (-> & Fdd & Ldd).
  split; [ reflexivity | ].
  split; [ now rewrite Ly | ]. split; [ exact Fy | ].
  split; [ now rewrite Lm | ]. split; [ exact Fm | ].
  split; [ now rewrite Ld | ]. split; [ exact Fd | ].
  split; [ now rewrite Ln | ].
  split.
  { eapply Forall_impl; [ exact Fn | ]. cbn. intros x Hx.
    unfold asciiNonDigit in Hx. apply andb_true_iff in Hx as [_ Hx].
    now apply negb_true_iff in Hx. }
  split; [ now rewrite Ldd | ]. split; [ exact Fdd | reflexivity ].
Qed.

Lemma IsEntry_entryName dir y m d :
  0 <= y <= 9999 -> 1 <= m <= 12 -> 1 <= d <= 31 ->
  IsEntry (dir +:+ Filepath.Separator +:+ entryName y m d) = true.
Proof.
  intros Hy Hm Hd. apply IsEntry_iff.
  destruct (runes_after_separator dir (entryName y m d)) as (t & Et).
  exists (t ++ [47]), (Utf8.runes (entryName y m d)), [].
  split; [ rewrite Et, app_nil_r; now rewrite <- app_assoc | ].
  eapply entryShape_dot; [ | now apply entryName_shape ].
  intros c ->. discriminate.
Qed.

(** ** New: the entry of the day *)

(** The metadata block holds the four numbers: reading it leaves the path
    and the modification time of the entry alone. *)
Lemma assign_keeps line p q :
  Frontmatter.assign line p = ok q ->
  Path q = Path p /\ ModTime q = ModTime p.
Proof.
  unfold Frontmatter.assign.
  repeat match goal with
         | |- context [cutPrefix ?a ?b] => destruct (cutPrefix a b)
         end;
    try discriminate;
    match goal with
    | |- context [Strconv.ParseUint ?a ?b ?c] =>
        destruct (Strconv.ParseUint a b c) as [n [e | ]]
    end;
    try discriminate; intros H; injection H as <-; split; reflexivity.
Qed.

Lemma unmarshalLoop_keeps fuel data p :
  Path (Frontmatter.unmarshalLoop fuel data p).1.2 = Path p
  /\ ModTime (Frontmatter.unmarshalLoop fuel data p).1.2 = ModTime p.
Proof.
  revert data p. induction fuel as [ | k IH]; intros data p; cbn; [ auto | ].
  destruct (Frontmatter.cutLine data) as [[line rest] | ]; [ | auto ].
  destruct (String.eqb line Frontmatter.delimiter); [ auto | ].
  destruct (Frontmatter.assign line p) as [q | e] eqn:A; [ | auto ].
  apply assign_keeps in A as [A1 A2]. destruct (IH rest q) as [I1 I2].
  split; congruence.
Qed.

(** [Load] keeps the path, whatever it reads. *)
Lemma Load_keeps_path p w : Path (Load p w).1.1 = Path p.
Proof.
  unfold Load. destruct (Os.Open (Path p) w) as [f | e]; [ | reflexivity ].
  destruct (Os.ReadAll f) as [data | e]; [ | reflexivity ].
  destruct (Os.FStat f w) as [info | e]; [ | reflexivity ].
  unfold Frontmatter.Unmarshal.
  pose proof (unmarshalLoop_keeps (S (String.length data)) data
                (withModTime (Os.ModTime info) p)) as [K _].
  destruct (Frontmatter.unmarshalLoop _ _ _) as [[body q] err].
  exact K.
Qed.

Lemma New_of_directory dir w :
  Os.files w !! dir = Some Os.Dir ->
  exists w' p,
    New dir w = (w', Some p, None)
    /\ Path p = dir +:+ Filepath.Separator +:+ Time.Format (Os.now w) entryFormat.
Proof.
  intros L. unfold New, Os.Stat at 1. rewrite L. cbn [Os.IsDir negb].
  destruct (Os.Stat _ w) as [info | e].
  - pose proof (Load_keeps_path
                  (newEntry (dir +:+ Filepath.Separator
                             +:+ Time.Format (Os.now w) entryFormat)) w) as K.
    cbn [Path newEntry] in *.
    destruct (Load _ w) as [[p m] e]. eauto.
  - destruct (Os.IsNotExist e); [ | eauto ].
    destruct (Save _ w) as [w1 e1]. eauto.
Qed.

(** X9: New returns an entry exactly when [dir] names a directory. The
    entry then has the path of the day in [dir] and the error is nil;
    otherwise no entry is returned, the error is not nil and nothing has
    been read, written or printed. *)
Theorem New_needs_a_directory dir w :
  (Os.files w !! dir = Some Os.Dir
   /\ exists w' p,
       New dir w = (w', Some p, None)
       /\ Path p = dir +:+ Filepath.Separator
                   +:+ Time.Format (Os.now w) entryFormat)
  \/ (Os.files w !! dir <> Some Os.Dir
      /\ exists e, New dir w = (w, None, Some e)).
Proof.
  destruct (Os.files w !! dir) as [[ | data mtime rd] | ] eqn:L.
  - left. split; [ reflexivity | ]. now apply New_of_directory.
  - right. split; [ discriminate | ]. unfold New, Os.Stat. rewrite L.
    eexists. reflexivity.
  - right. split; [ discriminate | ]. unfold New, Os.Stat. rewrite L.
    eexists. reflexivity.
Qed.

Lemma New_entry_path dir w w' p err :
  New dir w = (w', Some p, err) ->
  Path p = dir +:+ Filepath.Separator +:+ Time.Format (Os.now w) entryFormat.
Proof.
  intros H. destruct (Os.files w !! dir) as [[ | data mtime rd] | ] eqn:L.
  - destruct (New_of_directory dir w L) as (w1 & p1 & E & P).
    rewrite E in H. now injection H as <- <- <-.
  - unfold New, Os.Stat in H. rewrite L in H. discriminate.
  - unfold New, Os.Stat in H. rewrite L in H. discriminate.
Qed.

(** X10: the entry New returns is the entry of the day: IsEntry accepts its
    path and Date gives the day on the clock, for a day of a year from 0 to
    9999. *)
Theorem New_entry_is_of_today dir w w' p err :
  validDate (Time.year (Os.now w)) (Time.month (Os.now w)) (Time.day (Os.now w)) ->
  New dir w = (w', Some p, err) ->
  IsEntry (Path p) = true
  /\ Date p = (Time.mkTime (Time.year (Os.now w)) (Time.month (Os.now w))
                           (Time.day (Os.now w)) 0, None).
Proof.
  intros Hv H. apply New_entry_path in H.
  destruct (Os.now w) as [y m d ns]. cbn [Time.year Time.month Time.day] in *.
  rewrite Format_entryFormat in H. unfold Date. rewrite H. split.
  - destruct Hv as (Hy & Hm & Hd). pose proof (daysIn_le_31 m y).
    apply IsEntry_entryName; lia.
  - rewrite Base_join by exact Hv. now apply Parse_entryName.
Qed.

Lemma New_entry_is_of_today_witness :
  validDate 2023 7 4
  /\ New "journal" emptyJournal
     = ((New "journal" emptyJournal).1.1,
        Some (withModTime (Os.now emptyJournal) blankEntry), None)
  /\ IsEntry (Path (withModTime (Os.now emptyJournal) blankEntry)) = true
  /\ Date (withModTime (Os.now emptyJournal) blankEntry)
     = (Time.mkTime 2023 7 4 0, None).
Proof.
  assert (Hv : validDate 2023 7 4).
  { unfold validDate. vm_compute. intuition discriminate. }
  assert (E : New "journal" emptyJournal
              = ((New "journal" emptyJournal).1.1,
                 Some (withModTime (Os.now emptyJournal) blankEntry), None))
    by (vm_compute; reflexivity).
  split; [ exact Hv | ]. split; [ exact E | ].
  exact (New_entry_is_of_today "journal" emptyJournal _ _ _ Hv E).
Defined.

(** X11: New never touches what exists: every file and directory of the
    file system is there afterwards as it was; the only path New may add
    is the path of the day in [dir]. *)
Theorem New_keeps_what_exists dir w w' op err :
  New dir w = (w', op, err) ->
  (forall path n, Os.files w !! path = Some n -> Os.files w' !! path = Some n)
  /\ (forall path,
        path <> dir +:+ Filepath.Separator +:+ Time.Format (Os.now w) entryFormat ->
        Os.files w' !! path = Os.files w !! path).
Proof.
  unfold New. destruct (Os.Stat dir w) as [info | e];
    [ | intros H; injection H as <- _ _; auto ].
  destruct (negb (Os.IsDir info)); [ intros H; injection H as <- _ _; auto | ].
  set (today := dir +:+ Filepath.Separator +:+ Time.Format (Os.now w) entryFormat).
  unfold Os.Stat. cbn [Path newEntry withModTime].
  destruct (Os.files w !! today) as [[ | data mtime rd] | ] eqn:L.
  - destruct (Load _ w) as [[p m] e]. intros H; injection H as <- _ _; auto.
  - destruct (Load _ w) as [[p m] e]. intros H; injection H as <- _ _; auto.
  - cbn [Os.IsNotExist]. unfold Save.
    cbn [Frontmatter.Marshal Path newEntry withModTime Body].
    unfold Os.WriteFile. destruct (Os.readOnly w).
    + intros H; injection H as <- _ _. cbn [Os.Println Os.files]. auto.
    + fold today. rewrite L. intros H; injection H as <- _ _. cbn [Os.files].
      split.
      * intros path n Hp. rewrite lookup_insert_ne; [ exact Hp | ].
        intros <-. congruence.
      * intros path Hp. now rewrite lookup_insert_ne.
Qed.

Lemma New_keeps_what_exists_witness :
  New "journal" emptyJournal
  = ((New "journal" emptyJournal).1.1,
     Some (withModTime (Os.now emptyJournal) blankEntry), None)
  /\ (forall path n,
        Os.files emptyJournal !! path = Some n ->
        Os.files (New "journal" emptyJournal).1.1 !! path = Some n)
  /\ (forall path,
        path <> "journal" +:+ Filepath.Separator
                +:+ Time.Format (Os.now emptyJournal) entryFormat ->
        Os.files (New "journal" emptyJournal).1.1 !! path
        = Os.files emptyJournal !! path).
Proof.
  assert (E : New "journal" emptyJournal
              = ((New "journal" emptyJournal).1.1,
                 Some (withModTime (Os.now emptyJournal) blankEntry), None))
    by (vm_compute; reflexivity).
  split; [ exact E | ].
  exact (New_keeps_what_exists "journal" emptyJournal _ _ _ E).
Defined.

(** ** Load: the modification time *)

Lemma Time_eqb_refl t : Time.eqb t t = true.
Proof. unfold Time.eqb. now rewrite !Z.eqb_refl. Qed.

Lemma Load_of_file p w data t :
  Os.files w !! Path p = Some (Os.File data t true) ->
  exists p' err,
    Load p w = (p', negb (Time.eqb t (ModTime p)), err)
    /\ ModTime p' = t /\ Path p' = Path p.
Proof.
  intros L. unfold Load, Os.Open. rewrite L.
  cbn [Os.ReadAll Os.FStat Os.ModTime]. unfold Frontmatter.Unmarshal.
  pose proof (unmarshalLoop_keeps (S (String.length data)) data
                (withModTime t p)) as [K1 K2].
  destruct (Frontmatter.unmarshalLoop _ _ _) as [[body q] err].
  exists (withBody body q), err. split; [ reflexivity | ]. split; assumption.
Qed.

(** X12: Load of a file the process may read stores the modification time
    of the file in the entry, also when the content cannot be parsed, and
    reports whether that time differs from the one the entry held; a second
    Load of the file, unchanged, reports false. *)
Theorem Load_records_modification_time p w data t :
  Os.files w !! Path p = Some (Os.File data t true) ->
  exists p' err,
    Load p w = (p', negb (Time.eqb t (ModTime p)), err)
    /\ ModTime p' = t
    /\ (Load p' w).1.2 = false.
Proof.
  intros L. destruct (Load_of_file p w data t L) as (p' & err & E & M & P).
  exists p', err. split; [ exact E | ]. split; [ exact M | ].
  rewrite <- P in L.
  destruct (Load_of_file p' w data t L) as (p2 & err2 & E2 & _ & _).
  rewrite E2, M. cbn [fst snd]. now rewrite Time_eqb_refl.
Qed.

Lemma Load_records_modification_time_witness :
  Os.files brokenJournal !! Path blankEntry
  = Some (Os.File "no header here" (Time.mkTime 2023 7 4 100) true)
  /\ exists p' err,
      Load blankEntry brokenJournal
      = (p', negb (Time.eqb (Time.mkTime 2023 7 4 100) (ModTime blankEntry)), err)
      /\ ModTime p' = Time.mkTime 2023 7 4 100
      /\ (Load p' brokenJournal).1.2 = false.
Proof.
  assert (L : Os.files brokenJournal !! Path blankEntry
              = Some (Os.File "no header here" (Time.mkTime 2023 7 4 100) true))
    by (vm_compute; reflexivity).
  split; [ exact L | ].
  exact (Load_records_modification_time blankEntry brokenJournal _ _ L).
Defined.


(** ** The prompter: white space around a rating *)

Lemma decode_ascii c s :
  byteZ c < 128 -> Utf8.DecodeRuneInString (String c s) = (byteZ c, 1%nat).
Proof.
  intros H. unfold Utf8.DecodeRuneInString. cbn [String.length Nat.ltb Nat.leb].
  rewrite byteAt_head. unfold Utf8.RuneSelf.
  apply Z.ltb_lt in H. now rewrite H.
Qed.

Lemma blank_IsSpace b : blank b = true -> b < 128 /\ Unicode.IsSpace b = true.
Proof.
  unfold blank, Unicode.IsSpace. intros H.
  assert (R : b = 9 \/ b = 10 \/ b = 11 \/ b = 12 \/ b = 13 \/ b = 32).
  { repeat (apply orb_true_iff in H as [H | H]); apply Z.eqb_eq in H; lia. }
  destruct R as [-> | [-> | [-> | [-> | [-> | ->]]]]]; split; (lia || reflexivity).
Qed.

Lemma allBytes_append f a b :
  allBytes f (a +:+ b) = allBytes f a && allBytes f b.
Proof.
  induction a as [ | c a IH]; [ reflexivity | ].
  rewrite append_cons. cbn [allBytes]. now rewrite IH, andb_assoc.
Qed.

Lemma trimLeft_blanks a c t fuel :
  allBytes blank a = true ->
  byteZ c < 128 -> Unicode.IsSpace (byteZ c) = false ->
  (String.length a < fuel)%nat ->
  Strings.trimLeftLoop Unicode.IsSpace fuel (a +:+ String c t) = String c t.
Proof.
  intros Ha Hc Hs. revert fuel. induction a as [ | x a IH]; intros fuel Hf.
  - destruct fuel as [ | k]; [ cbn in Hf; lia | ].
    rewrite append_empty. cbn [Strings.trimLeftLoop].
    rewrite decode_ascii by exact Hc. now rewrite Hs.
  - cbn [allBytes] in Ha. apply andb_true_iff in Ha as [Hx Ha].
    apply blank_IsSpace in Hx as [X1 X2].
    destruct fuel as [ | k]; [ cbn in Hf; lia | ].
    rewrite append_cons. cbn [Strings.trimLeftLoop].
    rewrite decode_ascii by exact X1. rewrite X2. cbn [dropS].
    apply IH; [ exact Ha | ]. cbn [String.length] in Hf. lia.
Qed.

Lemma string_snoc s :
  s = EmptyString
  \/ exists s0 c, s = s0 +:+ String c EmptyString
                  /\ String.length s = S (String.length s0).
Proof.
  induction s as [ | x s IH]; [ now left | right ].
  destruct IH as [-> | (s0 & c & -> & L)].
  - exists EmptyString, x. split; reflexivity.
  - exists (String x s0), c. rewrite append_cons. split; [ reflexivity | ].
    cbn [String.length]. now rewrite L.
Qed.

Lemma decodeLast_ascii s c :
  byteZ c < 128 ->
  Utf8.DecodeLastRuneInString (s +:+ String c EmptyString) = (byteZ c, 1%nat).
Proof.
  intros H. unfold Utf8.DecodeLastRuneInString.
  rewrite length_append. cbn [String.length].
  replace (Z.of_nat (String.length s + 1) =? 0) with false
    by (symmetry; apply Z.eqb_neq; lia).
  replace (Z.to_nat (Z.of_nat (String.length s + 1) - 1))
    with (String.length s + 0)%nat by lia.
  rewrite byteAt_append_right, byteAt_head. unfold Utf8.RuneSelf.
  apply Z.ltb_lt in H. now rewrite H.
Qed.

Lemma takeS_length a b : takeS (String.length a) (a +:+ b) = a.
Proof.
  induction a as [ | c a IH]; [ now destruct b | ].
  rewrite append_cons. cbn [String.length takeS]. now rewrite IH.
Qed.

Lemma trimRight_blanks c b fuel :
  allBytes blank b = true ->
  byteZ c < 128 -> Unicode.IsSpace (byteZ c) = false ->
  (String.length b < fuel)%nat ->
  Strings.trimRightLoop Unicode.IsSpace fuel (String c b) = String c EmptyString.
Proof.
  intros Hb Hc Hs. revert b Hb. induction fuel as [ | k IH]; intros b Hb Hf; [ lia | ].
  cbn [Strings.trimRightLoop].
  destruct (string_snoc b) as [-> | (b0 & x & -> & L)].
  - pose proof (decodeLast_ascii EmptyString c Hc) as D.
    rewrite append_empty in D. rewrite D. now rewrite Hs.
  - rewrite allBytes_append in Hb. apply andb_true_iff in Hb as [Hb0 Hx].
    cbn [allBytes] in Hx. rewrite andb_true_r in Hx.
    apply blank_IsSpace in Hx as [X1 X2].
    change (String c (b0 +:+ String x EmptyString))
      with (String c b0 +:+ String x EmptyString).
    rewrite decodeLast_ascii by exact X1. rewrite X2.
    rewrite length_append. cbn [String.length].
    replace (S (String.length b0) + 1 - 1)%nat
      with (String.length (String c b0)) by (cbn [String.length]; lia).
    rewrite takeS_length. apply IH; [ exact Hb0 | lia ].
Qed.

(** White space around one byte that is none is trimmed away. *)
Lemma TrimSpace_blanks a c b :
  allBytes blank a = true -> allBytes blank b = true ->
  byteZ c < 128 -> Unicode.IsSpace (byteZ c) = false ->
  Strings.TrimSpace (a +:+ String c b) = String c EmptyString.
Proof.
  intros Ha Hb Hc Hs. unfold Strings.TrimSpace.
  unfold Strings.TrimLeftFunc.
  rewrite trimLeft_blanks;
    [ | assumption .. | rewrite length_append; cbn [String.length]; lia ].
  unfold Strings.TrimRightFunc.
  apply trimRight_blanks; try assumption. cbn [String.length]. lia.
Qed.

Lemma answer_padded a d b :
  allBytes blank a = true -> allBytes blank b = true -> 1 <= d <= 5 ->
  answer (a +:+ String (Strconv.digitChar d) b) = Some d.
Proof.
  intros Ha Hb Hd. unfold answer.
  assert (T : Strings.TrimSpace (a +:+ String (Strconv.digitChar d) b)
              = String (Strconv.digitChar d) EmptyString).
  { apply TrimSpace_blanks; try assumption.
    - pattern d. apply (Z_cases _ 1 5); [ repeat constructor | lia ].
    - pattern d. apply (Z_cases _ 1 5); [ repeat constructor | lia ]. }
  rewrite T. pattern d. apply (Z_cases _ 1 5); [ repeat constructor | lia ].
Qed.


(** X13: a rating may stand between white space: when the line read for a
    question holds one of the digits 1 to 5 with nothing but blanks, tabs,
    carriage returns and other ASCII white space before and after it, the
    digit is stored at once, without a rejection. *)
Theorem PromptForMetadata_accepts_padded_rating k set p r w a d b r' :
  allBytes blank a = true -> allBytes blank b = true -> 1 <= d <= 5 ->
  Bufio.ReadString (byteOfZ 10) r
  = (a +:+ String (Strconv.digitChar d) b, None, r') ->
  PromptForMetadata [(k, set)] p r w = Some (set d p, r', w ++ [k], None).
Proof.
  intros Ha Hb Hd RS.
  pose proof (answer_padded a d b Ha Hb Hd) as A. unfold answer in A.
  unfold PromptForMetadata. cbn [rangeLoop ask]. rewrite RS.
  destruct (Regexp.MatchString ratingRegex _); [ | discriminate ].
  destruct (Strconv.ParseUint _ 10 8) as [rating [e | ]]; [ discriminate | ].
  injection A as ->. reflexivity.
Qed.

Lemma PromptForMetadata_accepts_padded_rating_witness :
  allBytes blank " " = true
  /\ allBytes blank (String (byteOfZ 13) EmptyString +:+ nl) = true
  /\ 1 <= 4 <= 5
  /\ Bufio.ReadString (byteOfZ 10) (Bufio.mkReader paddedRating EOF [])
     = (" " +:+ String (Strconv.digitChar 4) (String (byteOfZ 13) EmptyString +:+ nl),
        None, Bufio.mkReader EmptyString EOF [(paddedRating, None)])
  /\ PromptForMetadata [(lowPrompt, setLowMood)] lowUnsetEntry
       (Bufio.mkReader paddedRating EOF []) []
     = Some (setLowMood 4 lowUnsetEntry,
             Bufio.mkReader EmptyString EOF [(paddedRating, None)],
             [] ++ [lowPrompt], None).
Proof.
  assert (Ha : allBytes blank " " = true) by reflexivity.
  assert (Hb : allBytes blank (String (byteOfZ 13) EmptyString +:+ nl) = true)
    by reflexivity.
  assert (Hd : 1 <= 4 <= 5) by lia.
  assert (RS : Bufio.ReadString (byteOfZ 10) (Bufio.mkReader paddedRating EOF [])
               = (" " +:+ String (Strconv.digitChar 4)
                            (String (byteOfZ 13) EmptyString +:+ nl),
                  None, Bufio.mkReader EmptyString EOF [(paddedRating, None)]))
    by reflexivity.
  split; [ exact Ha | ]. split; [ exact Hb | ]. split; [ exact Hd | ].
  split; [ exact RS | ].
  exact (PromptForMetadata_accepts_padded_rating lowPrompt setLowMood lowUnsetEntry
           _ [] _ _ _ _ Ha Hb Hd RS).
Defined.


(** ** Date: which part of the name is read *)

Lemma parseLoop_mixedName y mm dd m d :
  0 <= y <= 9999 -> 1 <= mm <= 12 -> 1 <= dd <= 31 ->
  1 <= m <= 12 -> 1 <= d <= 31 ->
  Time.parseLoop (S (String.length entryFormat)) entryFormat
    (mixedName y mm dd m d) (0, -1, -1)
  = ((y, m, d), None).
Proof.
  intros Hy Hmm Hdd Hm Hd.
  destruct entryFormat_verbs as (V1 & V2 & V3 & V4 & V5 & V6).
  unfold mixedName.
  change (S (String.length entryFormat)) with (S (S (S (S (S (S 32)))))).
  erewrite parseLoop_verb;
    [ | exact V1 | discriminate | reflexivity | apply parse_year; exact Hy ].
  erewrite parseLoop_verb;
    [ | exact V2 | discriminate | reflexivity | apply parse_zero_month; exact Hmm ].
  erewrite parseLoop_verb;
    [ | exact V3 | discriminate | reflexivity | apply parse_zero_day; exact Hdd ].
  erewrite parseLoop_verb;
    [ | exact V4 | discriminate | reflexivity | apply parse_month_name; exact Hm ].
  erewrite parseLoop_verb;
    [ | exact V5 | discriminate | reflexivity | apply parse_day; exact Hd ].
  erewrite parseLoop_end; [ | exact V6 | reflexivity ].
  reflexivity.
Qed.

Lemma mixedName_no_sep y mm dd m d :
  0 <= y <= 9999 -> 1 <= mm <= 12 -> 1 <= dd <= 31 ->
  1 <= m <= 12 -> 1 <= d <= 31 ->
  hasSep (mixedName y mm dd m d) = false.
Proof.
  intros Hy Hmm Hdd Hm Hd.
  unfold mixedName. rewrite !hasSep_append, year_no_sep by exact Hy.
  assert (M : hasSep (takeS 3 (Time.monthString m)) = false).
  { pattern m. apply (Z_cases _ 1 12); [ repeat constructor | lia ]. }
  assert (M' : hasSep (Time.appendInt mm 2) = false).
  { pattern mm. apply (Z_cases _ 1 12); [ repeat constructor | lia ]. }
  assert (D : hasSep (Time.appendInt d 0) = false).
  { pattern d. apply (Z_cases _ 1 31); [ repeat constructor | lia ]. }
  assert (D' : hasSep (Time.appendInt dd 2) = false).
  { pattern dd. apply (Z_cases _ 1 31); [ repeat constructor | lia ]. }
  rewrite M, M', D, D'. reflexivity.
Qed.

Lemma Base_of_name dir name :
  hasSep name = false ->
  Filepath.stripTrailing name = name /\ name <> EmptyString ->
  Filepath.Base (dir +:+ Filepath.Separator +:+ name) = name.
Proof.
  intros Hsep [Hs Hn].
  destruct (stripTrailing_keep dir (Filepath.Separator +:+ name)) as [Hs' Hn'].
  { apply stripTrailing_keep. auto. }
  rewrite Base_nonempty by exact Hn'.
  rewrite Hs'. unfold Filepath.lastElem.
  rewrite afterLast_join by exact Hsep.
  destruct name; [ contradiction | reflexivity ].
Qed.

Lemma Base_mixedName dir y mm dd m d :
  0 <= y <= 9999 -> 1 <= mm <= 12 -> 1 <= dd <= 31 ->
  1 <= m <= 12 -> 1 <= d <= 31 ->
  Filepath.Base (dir +:+ Filepath.Separator +:+ mixedName y mm dd m d)
  = mixedName y mm dd m d.
Proof.
  intros Hy Hmm Hdd Hm Hd. apply Base_of_name.
  - now apply mixedName_no_sep.
  - unfold mixedName. do 9 apply stripTrailing_keep.
    split; [ reflexivity | discriminate ].
Qed.

(** X14: Date takes the month and the day from the part of the name that
    spells them out ([Jul-4]). The numeric month and day in front of it, a
    month 01..12 and a day 01..31, are read and then overwritten: they need
    not agree with the date returned. *)
Theorem Date_reads_the_spelled_date dir y mm dd m d p :
  validDate y m d -> 1 <= mm <= 12 -> 1 <= dd <= 31 ->
  Path p = dir +:+ Filepath.Separator +:+ mixedName y mm dd m d ->
  Date p = (Time.mkTime y m d 0, None).
Proof.
  intros (Hy & Hm & Hd) Hmm Hdd Hp. pose proof (daysIn_le_31 m y) as H31.
  unfold Date. rewrite Hp, Base_mixedName by lia.
  unfold Time.Parse. rewrite parseLoop_mixedName by lia.
  replace (m <? 0) with false by (symmetry; apply Z.ltb_ge; lia).
  replace (d <? 0) with false by (symmetry; apply Z.ltb_ge; lia).
  replace (d <? 1) with false by (symmetry; apply Z.ltb_ge; lia).
  replace (Time.daysIn m y <? d) with false by (symmetry; apply Z.ltb_ge; lia).
  reflexivity.
Qed.

Lemma Date_reads_the_spelled_date_witness :
  validDate 2023 7 4 /\ 1 <= 1 <= 12 /\ 1 <= 31 <= 31
  /\ Date (newEntry "journal/2023-01-31-Journal-Entry-for-Jul-4.md")
     = (Time.mkTime 2023 7 4 0, None).
Proof.
  assert (Hv : validDate 2023 7 4).
  { unfold validDate. vm_compute. intuition discriminate. }
  split; [ exact Hv | ]. split; [ lia | ]. split; [ lia | ].
  apply (Date_reads_the_spelled_date "journal" 2023 1 31 7 4 _ Hv); [ lia | lia | ].
  reflexivity.
Defined.

(** X15: Date checks the day against the month: for a name in the entry
    format whose day, at most 31, is one its month does not have in its
    year (Feb-30, Apr-31, Feb-29 outside a leap year), Date returns the
    error [day out of range] and the zero time, while IsEntry accepts the
    path. *)
Theorem Date_refuses_a_day_the_month_lacks dir y m d p :
  0 <= y <= 9999 -> 1 <= m <= 12 -> Time.daysIn m y < d <= 31 ->
  Path p = dir +:+ Filepath.Separator
           +:+ Time.Format (Time.mkTime y m d 0) entryFormat ->
  Date p = (Time.zero, Some (ErrParseTime "day out of range"))
  /\ IsEntry (Path p) = true.
Proof.
  intros Hy Hm Hd Hp. rewrite Format_entryFormat in Hp.
  assert (H28 : 28 <= Time.daysIn m y).
  { unfold Time.daysIn. destruct (m =? 2); [ destruct (Time.isLeap y); lia | ].
    assert (H : Z.land (m + Z.shiftr m 3) 1 = (m + Z.shiftr m 3) mod 2).
    { change 1 with (Z.ones 1). now rewrite Z.land_ones by lia. }
    rewrite H. Z.div_mod_to_equations. lia. }
  split.
  - unfold Date. rewrite Hp.
    change (entryName y m d) with (mixedName y m d m d).
    rewrite Base_mixedName by lia.
    unfold Time.Parse. rewrite parseLoop_mixedName by lia.
    replace (m <? 0) with false by (symmetry; apply Z.ltb_ge; lia).
    replace (d <? 0) with false by (symmetry; apply Z.ltb_ge; lia).
    replace (d <? 1) with false by (symmetry; apply Z.ltb_ge; lia).
    replace (Time.daysIn m y <? d) with true by (symmetry; apply Z.ltb_lt; lia).
    reflexivity.
  - rewrite Hp. apply IsEntry_entryName; lia.
Qed.

Lemma Date_refuses_a_day_the_month_lacks_witness :
  0 <= 2023 <= 9999 /\ 1 <= 2 <= 12 /\ Time.daysIn 2 2023 < 29 <= 31
  /\ Date (newEntry "journal/2023-02-29-Journal-Entry-for-Feb-29.md")
     = (Time.zero, Some (ErrParseTime "day out of range"))
  /\ IsEntry (Path (newEntry "journal/2023-02-29-Journal-Entry-for-Feb-29.md"))
     = true.
Proof.
  assert (Hd : Time.daysIn 2 2023 < 29 <= 31) by (vm_compute; split; [ reflexivity | discriminate ]).
  split; [ lia | ]. split; [ lia | ]. split; [ exact Hd | ].
  apply (Date_refuses_a_day_the_month_lacks "journal" 2023 2 29);
    [ lia | lia | exact Hd | reflexivity ].
Defined.

(** ** Date: what it accepts *)

(** A literal of the layout without a space is skipped byte by byte. *)
Lemma skipFrom_literal prefix value rest b :
  allBytes (fun c => negb (c =? 32)) prefix = true ->
  Time.skipFrom b value prefix = Some rest -> value = prefix +:+ rest.
Proof.
  revert value b. induction prefix as [ | p0 prefix IH]; intros value b Hp H.
  - cbn in H. now injection H as ->.
  - cbn [allBytes] in Hp. apply andb_true_iff in Hp as [H0 Hp].
    apply negb_true_iff in H0. cbn [Time.skipFrom] in H. rewrite H0 in H.
    destruct value as [ | v0 value]; [ discriminate | ].
    destruct (Ascii.eqb v0 p0) eqn:E; [ | discriminate ].
    apply Ascii.eqb_eq in E as ->. rewrite append_cons.
    now rewrite <- (IH _ _ Hp H).
Qed.

Lemma parseLoop_verb_inv k layout value f prefix std suffix f2 :
  Time.nextStdChunk layout = (prefix, std, suffix) ->
  std <> Time.stdNone ->
  Time.parseLoop (S k) layout value f = (f2, None) ->
  exists v1 f1 v2,
    Time.skip value prefix = Some v1
    /\ Time.parseStd std f v1 = (f1, v2, None)
    /\ Time.parseLoop k suffix v2 f1 = (f2, None).
Proof.
  intros C Hs. cbn [Time.parseLoop]. rewrite C.
  destruct (Time.skip value prefix) as [v1 | ]; [ | discriminate ].
  destruct (Time.parseStd std f v1) as [[f1 v2] [e | ]] eqn:P.
  - destruct std; try discriminate. contradiction.
  - intros H. exists v1, f1, v2. split; [ reflexivity | ]. split; [ exact P | ].
    destruct std; try exact H. contradiction.
Qed.

Lemma parseLoop_end_inv k layout value f prefix suffix f2 :
  Time.nextStdChunk layout = (prefix, Time.stdNone, suffix) ->
  Time.parseLoop (S k) layout value f = (f2, None) ->
  Time.skip value prefix = Some EmptyString /\ f2 = f.
Proof.
  intros C. cbn [Time.parseLoop]. rewrite C.
  destruct (Time.skip value prefix) as [[ | c v] | ]; try discriminate.
  intros H. injection H as ->. auto.
Qed.

(** The digits [leadingInt] reads when it reads all of [s]. *)
Lemma leadingInt_all s x q :
  0 <= x ->
  Time.leadingInt x s = (q, EmptyString) ->
  allBytes Time.isDigitByte s = true
  /\ 0 <= q < (x + 1) * 10 ^ Z.of_nat (String.length s).
Proof.
  revert x. induction s as [ | c s IH]; intros x Hx H.
  - cbn in H. injection H as <-. cbn. lia.
  - cbn [Time.leadingInt] in H.
    destruct (Time.isDigitByte (byteZ c)) eqn:D; [ | discriminate ].
    assert (Hc : 48 <= byteZ c <= 57).
    { unfold Time.isDigitByte in D. bool_hyps. lia. }
    apply IH in H as [H1 H2]; [ | lia ].
    cbn [allBytes String.length]. rewrite D, H1. split; [ reflexivity | ].
    rewrite Nat2Z.inj_succ, Z.pow_succ_r by lia. nia.
Qed.

Lemma isDigit_get s i :
  Time.isDigit s i = true ->
  exists c, String.get i s = Some c /\ Time.isDigitByte (byteZ c) = true.
Proof.
  unfold Time.isDigit. destruct (String.get i s) as [c | ]; [ | discriminate ].
  intros H. now exists c.
Qed.

Lemma length_takeS n s :
  (n <= String.length s)%nat -> String.length (takeS n s) = n.
Proof.
  revert s. induction n as [ | n IH]; intros s H; [ now destruct s | ].
  destruct s as [ | c s]; [ cbn in H; lia | ].
  cbn [takeS String.length]. rewrite IH; [ reflexivity | cbn in H; lia ].
Qed.

Lemma parse_year_inv f v f1 v2 :
  Time.parseStd Time.stdLongYear f v = (f1, v2, None) ->
  exists Y, v = Y +:+ v2 /\ String.length Y = 4%nat
            /\ allBytes Time.isDigitByte Y = true
            /\ 0 <= f1.1.1 <= 9999 /\ f1.1.2 = f.1.2 /\ f1.2 = f.2.
Proof.
  destruct f as [[y m] d]. cbn [Time.parseStd].
  destruct ((String.length v <? 4)%nat || negb (Time.isDigit v 0)) eqn:G;
    [ discriminate | ].
  apply orb_false_elim in G as [G1 G2].
  apply Nat.ltb_ge in G1. apply negb_false_iff in G2.
  destruct (Time.atoi (takeS 4 v)) as [y' | ] eqn:A; [ | discriminate ].
  intros [= <- <-].
  exists (takeS 4 v). split; [ now rewrite takeS_dropS | ].
  split; [ now apply length_takeS | ].
  destruct v as [ | c v]; [ cbn in G1; lia | ].
  cbn [Time.isDigit String.get] in G2.
  assert (Hc : 48 <= byteZ c <= 57).
  { unfold Time.isDigitByte in G2. bool_hyps. lia. }
  change (takeS 4 (String c v)) with (String c (takeS 3 v)) in *.
  unfold Time.atoi in A.
  replace ((byteZ c =? 45) || (byteZ c =? 43)) with false in A
    by (symmetry; apply orb_false_intro; apply Z.eqb_neq; lia).
  destruct (Time.leadingInt 0 (String c (takeS 3 v))) as [q rem] eqn:L.
  cbv beta iota in A.
  destruct rem; [ | discriminate ]. injection A as <-.
  apply leadingInt_all in L as [L1 L2]; [ | lia ].
  cbn [fst snd]. split; [ exact L1 | ].
  assert (Hl : String.length (String c (takeS 3 v)) = 4%nat).
  { cbn [String.length]. rewrite length_takeS; [ reflexivity | cbn in G1; lia ]. }
  rewrite Hl in L2. change (10 ^ Z.of_nat 4) with 10000 in L2.
  repeat split; lia.
Qed.

Lemma isDigit_cons_0 c s : Time.isDigit (String c s) 0 = Time.isDigitByte (byteZ c).
Proof. reflexivity. Qed.

Lemma getnum_inv v fixed n v2 :
  Time.getnum v fixed = Some (n, v2) ->
  exists N, v = N +:+ v2
            /\ ((fixed = false /\ String.length N = 1%nat)
                \/ String.length N = 2%nat)
            /\ allBytes Time.isDigitByte N = true
            /\ 0 <= n <= 99.
Proof.
  unfold Time.getnum.
  destruct v as [ | c1 v]; [ discriminate | ].
  rewrite isDigit_cons_0. unfold byteAt. cbn [String.get].
  destruct (Time.isDigitByte (byteZ c1)) eqn:D1; [ | discriminate ].
  assert (H1 : 48 <= byteZ c1 <= 57).
  { unfold Time.isDigitByte in D1. bool_hyps. lia. }
  cbn [negb]. unfold Time.isDigit. cbn [String.get].
  destruct v as [ | c2 v].
  - cbn [String.get negb]. destruct fixed; [ discriminate | ].
    intros H. injection H as <- <-. exists (String c1 EmptyString).
    cbn [allBytes]. rewrite D1.
    split; [ reflexivity | ]. split; [ now left | ]. split; [ reflexivity | lia ].
  - cbn [String.get]. destruct (Time.isDigitByte (byteZ c2)) eqn:D2; cbn [negb].
    + assert (H2 : 48 <= byteZ c2 <= 57).
      { unfold Time.isDigitByte in D2. bool_hyps. lia. }
      intros H. injection H as <- <-.
      exists (String c1 (String c2 EmptyString)). cbn [allBytes]. rewrite D1, D2.
      split; [ reflexivity | ]. split; [ now right | ].
      split; [ reflexivity | lia ].
    + destruct fixed; [ discriminate | ].
      intros H. injection H as <- <-. exists (String c1 EmptyString).
      cbn [allBytes]. rewrite D1.
      split; [ reflexivity | ]. split; [ now left | ].
      split; [ reflexivity | lia ].
Qed.


Lemma case_bit_of_bytes : checkFrom caseBitAdds 256 0 = true.
Proof. vm_compute. reflexivity. Qed.

Lemma matchFold_nonDigit s1 s2 :
  String.length s1 = String.length s2 ->
  allBytes asciiNonDigit s2 = true ->
  Time.matchFold s1 s2 = true ->
  allBytes asciiNonDigit s1 = true.
Proof.
  revert s2. induction s1 as [ | a s1 IH]; intros s2 Hl H2 M; [ reflexivity | ].
  destruct s2 as [ | b s2]; [ discriminate | ].
  cbn [Time.matchFold] in M. cbn [allBytes] in H2 |- *.
  apply andb_true_iff in H2 as [Hb H2]. apply andb_true_iff in M as [Ma M].
  rewrite (IH s2); [ | cbn in Hl; lia | exact H2 | exact M ].
  rewrite andb_true_r.
  destruct (byteZ a =? byteZ b) eqn:E.
  - apply Z.eqb_eq in E. now rewrite E.
  - apply negb_true_iff in Ma. bool_hyps.
    pose proof (byteZ_range a) as Ra.
    pose proof (checkFrom_spec _ _ _ case_bit_of_bytes (byteZ a) ltac:(lia)) as C.
    unfold caseBitAdds in C.
    unfold asciiNonDigit, Time.isDigitByte.
    apply andb_true_iff. split.
    + apply Z.ltb_lt. apply orb_true_iff in C as [C | C]; apply Z.eqb_eq in C; lia.
    + apply negb_true_iff, andb_false_iff.
      apply orb_true_iff in C as [C | C]; apply Z.eqb_eq in C;
        right; apply Z.leb_gt; lia.
Qed.

Lemma lookupFrom_inv tab i val j rest :
  Forall (fun v => String.length v = 3%nat /\ allBytes asciiNonDigit v = true) tab ->
  Time.lookupFrom i tab val = Some (j, rest) ->
  exists M, val = M +:+ rest /\ String.length M = 3%nat
            /\ allBytes asciiNonDigit M = true
            /\ i <= j < i + Z.of_nat (length tab).
Proof.
  intros Ht. revert i. induction Ht as [ | v tab [Hv1 Hv2] Ht IH]; intros i H.
  - discriminate.
  - cbn [Time.lookupFrom] in H. rewrite Hv1 in H.
    destruct ((3 <=? String.length val)%nat && Time.matchFold (takeS 3 val) v) eqn:G.
    + injection H as <- <-. apply andb_true_iff in G as [G1 G2].
      apply Nat.leb_le in G1.
      exists (takeS 3 val). split; [ now rewrite takeS_dropS | ].
      split; [ now apply length_takeS | ].
      split; [ | cbn [length]; lia ].
      apply (matchFold_nonDigit _ v); [ | exact Hv2 | exact G2 ].
      rewrite Hv1. now apply length_takeS.
    + apply IH in H as (M & E & L & A & R). exists M.
      repeat (split; [ assumption | ]). cbn [length]. lia.
Qed.

Lemma parse_month_inv f v f1 v2 :
  Time.parseStd Time.stdMonth f v = (f1, v2, None) ->
  exists M, v = M +:+ v2 /\ String.length M = 3%nat
            /\ allBytes asciiNonDigit M = true
            /\ f1.1.1 = f.1.1 /\ 1 <= f1.1.2 <= 12 /\ f1.2 = f.2.
Proof.
  destruct f as [[y m] d]. cbn [Time.parseStd]. unfold Time.lookup.
  destruct (Time.lookupFrom 0 Time.shortMonthNames v) as [[i v'] | ] eqn:L;
    [ | discriminate ].
  intros [= <- <-].
  apply lookupFrom_inv in L as (M & E & Hl & A & R);
    [ | repeat constructor ].
  exists M. cbn [fst snd]. cbn in R. repeat split; try assumption; lia.
Qed.

Lemma parse_zero_month_inv f v f1 v2 :
  Time.parseStd Time.stdZeroMonth f v = (f1, v2, None) ->
  (exists N, v = N +:+ v2 /\ String.length N = 2%nat
             /\ allBytes Time.isDigitByte N = true)
  /\ f1.1.1 = f.1.1.
Proof.
  destruct f as [[y m] d]. cbn [Time.parseStd].
  destruct (Time.getnum v true) as [[n v'] | ] eqn:G; [ | discriminate ].
  destruct ((n <=? 0) || (12 <? n)); [ discriminate | ].
  intros [= <- <-].
  apply getnum_inv in G as (N & E & [[? _] | L] & A & _); [ discriminate | ].
  split; [ now exists N | reflexivity ].
Qed.

Lemma parse_zero_day_inv f v f1 v2 :
  Time.parseStd Time.stdZeroDay f v = (f1, v2, None) ->
  (exists N, v = N +:+ v2 /\ String.length N = 2%nat
             /\ allBytes Time.isDigitByte N = true)
  /\ f1.1 = f.1.
Proof.
  destruct f as [[y m] d]. cbn [Time.parseStd].
  destruct (Time.getnum v true) as [[n v'] | ] eqn:G; [ | discriminate ].
  intros [= <- <-].
  apply getnum_inv in G as (N & E & [[? _] | L] & A & _); [ discriminate | ].
  split; [ now exists N | reflexivity ].
Qed.

Lemma parse_day_inv f v f1 v2 :
  Time.parseStd Time.stdDay f v = (f1, v2, None) ->
  (exists N, v = N +:+ v2
             /\ (String.length N = 1%nat \/ String.length N = 2%nat)
             /\ allBytes Time.isDigitByte N = true)
  /\ f1.1 = f.1.
Proof.
  destruct f as [[y m] d]. cbn [Time.parseStd].
  destruct (Time.getnum v false) as [[n v'] | ] eqn:G; [ | discriminate ].
  intros [= <- <-].
  apply getnum_inv in G as (N & E & L & A & _).
  split; [ | reflexivity ]. exists N. split; [ exact E | ].
  split; [ destruct L as [[_ L] | L]; auto | exact A ].
Qed.

(** The runes of a text made of the parts of an entry name. *)
Lemma parts_shape Y MM DD Mon D post :
  String.length Y = 4%nat -> allBytes Time.isDigitByte Y = true ->
  String.length MM = 2%nat -> allBytes Time.isDigitByte MM = true ->
  String.length DD = 2%nat -> allBytes Time.isDigitByte DD = true ->
  String.length Mon = 3%nat -> allBytes asciiNonDigit Mon = true ->
  (String.length D = 1%nat \/ String.length D = 2%nat) ->
  allBytes Time.isDigitByte D = true ->
  exists name,
    Utf8.runes (Y +:+ "-" +:+ MM +:+ "-" +:+ DD +:+ "-Journal-Entry-for-"
                +:+ Mon +:+ "-" +:+ D +:+ ".md" +:+ post)
    = name ++ Utf8.runes post
    /\ entryShape (fun c => c = 46) name.
Proof.
  intros Y1 Y2 M1 M2 D1 D2 N1 N2 E1 E2.
  destruct (runes_allBytes _ _
              ("-" +:+ MM +:+ "-" +:+ DD +:+ "-Journal-Entry-for-"
               +:+ Mon +:+ "-" +:+ D +:+ ".md" +:+ post) digit_ascii Y2)
    as (-> & Fy & Ly).
  rewrite append_cons, append_empty, runes_ascii_cons by (vm_compute; reflexivity).
  destruct (runes_allBytes _ _
              ("-" +:+ DD +:+ "-Journal-Entry-for-"
               +:+ Mon +:+ "-" +:+ D +:+ ".md" +:+ post) digit_ascii M2)
    as (-> & Fm & Lm).
  rewrite append_cons, append_empty, runes_ascii_cons by (vm_compute; reflexivity).
  destruct (runes_allBytes _ _
              ("-Journal-Entry-for-" +:+ Mon +:+ "-" +:+ D +:+ ".md" +:+ post)
              digit_ascii D2)
    as (-> & Fd & Ld).
  destruct (runes_allBytes (fun b => b <? 128) "-Journal-Entry-for-"
              (Mon +:+ "-" +:+ D +:+ ".md" +:+ post)
              ltac:(intros b Hb; now apply Z.ltb_lt) eq_refl)
    as (-> & _ & _).
  destruct (runes_allBytes _ _ ("-" +:+ D +:+ ".md" +:+ post)
              asciiNonDigit_ascii N2)
    as (-> & Fn & Ln).
  rewrite append_cons, append_empty, runes_ascii_cons by (vm_compute; reflexivity).
  destruct (runes_allBytes _ _ (".md" +:+ post) digit_ascii E2) as (-> & Fdd & Ldd).
  destruct (runes_allBytes (fun b => b <? 128) ".md" post
              ltac:(intros b Hb; now apply Z.ltb_lt) eq_refl)
    as (-> & _ & _).
  exists (bytes Y ++ [45] ++ bytes MM ++ [45] ++ bytes DD
          ++ Utf8.runes "-Journal-Entry-for-" ++ bytes Mon ++ [45] ++ bytes D
          ++ [46] ++ Utf8.runes "md").
  split.
  { change (bytes "-Journal-Entry-for-") with (Utf8.runes "-Journal-Entry-for-").
    change (bytes ".md") with ([46] ++ Utf8.runes "md").
    cbn [app]. rewrite <- !app_assoc. cbn [app].
    repeat (f_equal; try (rewrite <- !app_assoc; cbn [app])). }
  exists (bytes Y), (bytes MM), (bytes DD), (bytes Mon), (bytes D), 46.
  split; [ reflexivity | ].
  split; [ now rewrite Ly | ]. split; [ exact Fy | ].
  split; [ now rewrite Lm | ]. split; [ exact Fm | ].
  split; [ now rewrite Ld | ]. split; [ exact Fd | ].
  split; [ now rewrite Ln | ].
  split.
  { eapply Forall_impl; [ exact Fn | ]. cbn. intros x Hx.
    unfold asciiNonDigit in Hx. apply andb_true_iff in Hx as [_ Hx].
    now apply negb_true_iff in Hx. }
  split; [ now rewrite Ldd | ]. split; [ exact Fdd | reflexivity ].
Qed.

(** The base of a path is a part of the path, the paths without a name
    apart. *)
Lemma stripTrailing_split s : exists post, s = Filepath.stripTrailing s +:+ post.
Proof.
  induction s as [ | c s [post IH]]; [ now exists EmptyString | ].
  cbn [Filepath.stripTrailing].
  destruct (Filepath.stripTrailing s) as [ | x t].
  - rewrite append_empty in IH. destruct (Filepath.isSep c).
    + now exists (String c s).
    + exists post. rewrite append_cons, append_empty. now rewrite <- IH.
  - exists post. rewrite append_cons. now rewrite <- IH.
Qed.

Lemma afterLast_split acc s :
  Filepath.afterLast acc s = acc
  \/ exists pre, s = pre +:+ Filepath.afterLast acc s.
Proof.
  revert acc. induction s as [ | c s IH]; intros acc; [ now left | ].
  cbn [Filepath.afterLast]. destruct (Filepath.isSep c).
  - right. destruct (IH s) as [-> | (pre & E)].
    + now exists (String c EmptyString).
    + exists (String c pre). rewrite append_cons. now rewrite <- E.
  - destruct (IH acc) as [E | (pre & E)]; [ now left | right ].
    exists (String c pre). rewrite append_cons. now rewrite <- E.
Qed.

Lemma Base_inside path :
  Filepath.Base path = "."
  \/ Filepath.Base path = Filepath.Separator
  \/ exists pre post, path = pre +:+ Filepath.Base path +:+ post.
Proof.
  destruct path as [ | c path]; [ now left | right ].
  remember (String c path) as s eqn:Es.
  assert (B : Filepath.Base s
              = match Filepath.lastElem (Filepath.stripTrailing s) with
                | EmptyString => Filepath.Separator
                | String x b => String x b
                end) by now subst s.
  rewrite B. clear B.
  destruct (stripTrailing_split s) as [post E].
  assert (L : exists pre, Filepath.stripTrailing s
                          = pre +:+ Filepath.lastElem (Filepath.stripTrailing s)).
  { unfold Filepath.lastElem.
    destruct (afterLast_split (Filepath.stripTrailing s) (Filepath.stripTrailing s))
      as [-> | H]; [ now exists EmptyString | exact H ]. }
  destruct L as [pre L].
  destruct (Filepath.lastElem (Filepath.stripTrailing s)) as [ | x b];
    [ now left | right ].
  exists pre, post. rewrite <- append_assoc, <- L. exact E.
Qed.

Lemma Parse_inv value t :
  Time.Parse entryFormat value = (t, None) ->
  (exists Y MM DD Mon D,
      value = Y +:+ "-" +:+ MM +:+ "-" +:+ DD +:+ "-Journal-Entry-for-"
              +:+ Mon +:+ "-" +:+ D +:+ ".md"
      /\ String.length Y = 4%nat /\ allBytes Time.isDigitByte Y = true
      /\ String.length MM = 2%nat /\ allBytes Time.isDigitByte MM = true
      /\ String.length DD = 2%nat /\ allBytes Time.isDigitByte DD = true
      /\ String.length Mon = 3%nat /\ allBytes asciiNonDigit Mon = true
      /\ (String.length D = 1%nat \/ String.length D = 2%nat)
      /\ allBytes Time.isDigitByte D = true)
  /\ validDate (Time.year t) (Time.month t) (Time.day t)
  /\ Time.nsec t = 0.
Proof.
  destruct entryFormat_verbs as (V1 & V2 & V3 & V4 & V5 & V6).
  unfold Time.Parse.
  change (S (String.length entryFormat)) with (S (S (S (S (S (S 32)))))).
  destruct (Time.parseLoop _ entryFormat value (0, -1, -1))
    as [[[y m] d] [e | ]] eqn:P; [ discriminate | ].
  apply (parseLoop_verb_inv _ _ _ _ _ _ _ _ V1 ltac:(discriminate)) in P
    as (v1 & f1 & v2 & S1 & P1 & P).
  apply (parseLoop_verb_inv _ _ _ _ _ _ _ _ V2 ltac:(discriminate)) in P
    as (v3 & f2 & v4 & S2 & P2 & P).
  apply (parseLoop_verb_inv _ _ _ _ _ _ _ _ V3 ltac:(discriminate)) in P
    as (v5 & f3 & v6 & S3 & P3 & P).
  apply (parseLoop_verb_inv _ _ _ _ _ _ _ _ V4 ltac:(discriminate)) in P
    as (v7 & f4 & v8 & S4 & P4 & P).
  apply (parseLoop_verb_inv _ _ _ _ _ _ _ _ V5 ltac:(discriminate)) in P
    as (v9 & f5 & v10 & S5 & P5 & P).
  apply (parseLoop_end_inv _ _ _ _ _ _ _ V6) in P as [S6 F].
  apply skipFrom_literal in S1, S2, S3, S4, S5, S6; try reflexivity.
  rewrite append_empty in S1. subst v1.
  apply parse_year_inv in P1 as (Y & -> & Y1 & Y2 & Yr & _ & _).
  apply parse_zero_month_inv in P2 as [(MM & -> & M1 & M2) F2].
  apply parse_zero_day_inv in P3 as [(DD & -> & D1 & D2) F3].
  apply parse_month_inv in P4 as (Mon & -> & N1 & N2 & F4y & F4m & _).
  apply parse_day_inv in P5 as [(D & -> & E1 & E2) F5].
  subst f5.
  destruct f4 as [[y4 m4] d4], f3 as [[y3 m3] d3], f2 as [[y2 m2] d2],
    f1 as [[y1 m1] d1].
  cbn [fst snd] in *.
  injection F5 as <- <-. subst y3. injection F3 as <- _. subst y1.
  intros H.
  assert (Hm : (m <? 0) = false) by (apply Z.ltb_ge; lia).
  rewrite Hm in H.
  destruct ((if d <? 0 then 1 else d) <? 1) eqn:G1; [ discriminate | ].
  destruct (Time.daysIn m y <? (if d <? 0 then 1 else d)) eqn:G2;
    [ discriminate | ].
  cbn [orb] in H. injection H as <-. cbn [Time.year Time.month Time.day Time.nsec].
  apply Z.ltb_ge in G1, G2.
  split.
  { exists Y, MM, DD, Mon, D. subst.
    split; [ reflexivity | ]. repeat (split; [ assumption | ]). assumption. }
  split; [ | reflexivity ].
  unfold validDate. repeat split; lia.
Qed.

(** X16: Date accepts entry names only: whenever Date returns a nil
    error, IsEntry accepts the path, and the time returned is midnight of a
    day of the calendar in a year from 0 to 9999. *)
Theorem Date_accepts_only_entry_names p t :
  Date p = (t, None) ->
  IsEntry (Path p) = true
  /\ validDate (Time.year t) (Time.month t) (Time.day t)
  /\ Time.nsec t = 0.
Proof.
  unfold Date. intros H.
  apply Parse_inv in H as [(Y & MM & DD & Mon & D & E & Y1 & Y2 & M1 & M2
                            & D1 & D2 & N1 & N2 & E1 & E2) Hv].
  split; [ | exact Hv ].
  destruct Y as [ | c Y']; [ discriminate | ].
  cbn [allBytes] in Y2. pose proof Y2 as Y2'.
  apply andb_true_iff in Y2' as [Hc _]. apply digit_ascii in Hc.
  destruct (Base_inside (Path p)) as [B | [B | (pre & post & B)]].
  - rewrite B in E. rewrite append_cons in E. injection E as _ E.
    destruct Y'; discriminate.
  - rewrite B in E. rewrite append_cons in E. injection E as _ E.
    destruct Y'; discriminate.
  - rewrite E in B.
    destruct (parts_shape (String c Y') MM DD Mon D post)
      as (name & R & Hn); try assumption.
    destruct (runesFrom_suffix pre
                ((String c Y' +:+ "-" +:+ MM +:+ "-" +:+ DD
                  +:+ "-Journal-Entry-for-" +:+ Mon +:+ "-" +:+ D +:+ ".md")
                 +:+ post) 0 ltac:(lia))
      as (t0 & R0).
    { rewrite !append_assoc, (append_cons c Y'), byteAt_head. exact Hc. }
    apply IsEntry_iff. exists t0, name, (Utf8.runes post).
    split.
    + rewrite B. unfold Utf8.runes at 1. rewrite R0.
      rewrite !append_assoc. now rewrite R.
    + eapply entryShape_dot; [ | exact Hn ]. intros x ->. discriminate.
Qed.

Lemma Date_accepts_only_entry_names_witness :
  Date (newEntry "journal/2024-02-29-Journal-Entry-for-FEB-29.md/")
  = (Time.mkTime 2024 2 29 0, None)
  /\ IsEntry (Path (newEntry "journal/2024-02-29-Journal-Entry-for-FEB-29.md/"))
     = true
  /\ validDate 2024 2 29 /\ 0 = 0.
Proof.
  assert (E : Date (newEntry "journal/2024-02-29-Journal-Entry-for-FEB-29.md/")
              = (Time.mkTime 2024 2 29 0, None)) by reflexivity.
  split; [ exact E | ].
  exact (Date_accepts_only_entry_names _ _ E).
Defined.

(** ** New: create, then find *)

(** X17: New finds the entry it has created. Called for a directory that
    holds no file of the day, on a file system that takes the write, New
    writes the metadata block of an empty entry to the path of the day; a
    later call on the same day, with the files as the first call left
    them, writes nothing and returns an entry with the same path, body and
    metadata. *)
Theorem New_finds_what_it_created dir w :
  Os.files w !! dir = Some Os.Dir ->
  Os.files w !! (dir +:+ Filepath.Separator
                 +:+ Time.Format (Os.now w) entryFormat) = None ->
  Os.readOnly w = false ->
  exists w1 p1,
    New dir w = (w1, Some p1, None)
    /\ p1 = withModTime (Os.now w)
              (newEntry (dir +:+ Filepath.Separator
                         +:+ Time.Format (Os.now w) entryFormat))
    /\ Os.files w1 !! Path p1
       = Some (Os.File (Frontmatter.Marshal p1).1 (Os.now w) true)
    /\ forall w2,
        Os.files w2 = Os.files w1 ->
        Time.Format (Os.now w2) entryFormat = Time.Format (Os.now w) entryFormat ->
        exists p2,
          New dir w2 = (w2, Some p2, None)
          /\ Path p2 = Path p1 /\ Body p2 = Body p1
          /\ Seconds p2 = Seconds p1 /\ LowMood p2 = LowMood p1
          /\ HighMood p2 = HighMood p1 /\ AverageMood p2 = AverageMood p1.
Proof.
  intros Ld Lt Hw.
  set (today := dir +:+ Filepath.Separator +:+ Time.Format (Os.now w) entryFormat)
    in *.
  set (p1 := withModTime (Os.now w) (newEntry today)).
  set (w1 := Os.mkWorld
               (<[today := Os.File ((Frontmatter.Marshal p1).1 +:+ Body p1)
                                   (Os.now w) true]> (Os.files w))
               (Os.now w) false (Os.stdout w)).
  assert (E1 : New dir w = (w1, Some p1, None)).
  { unfold New, Os.Stat. rewrite Ld. cbn [Os.IsDir negb Path newEntry].
    fold today. rewrite Lt. cbn [Os.IsNotExist]. fold p1.
    unfold Save, Os.WriteFile. cbn [Frontmatter.Marshal fst].
    rewrite Hw. cbn [Path p1 withModTime newEntry]. rewrite Lt. reflexivity. }
  assert (F1 : Os.files w1 !! today
               = Some (Os.File (Frontmatter.Marshal p1).1 (Os.now w) true)).
  { cbn [w1 Os.files]. rewrite lookup_insert_eq.
    change (Body p1) with EmptyString.
    replace ((Frontmatter.Marshal p1).1 +:+ EmptyString)
      with (Frontmatter.Marshal p1).1; [ reflexivity | ].
    generalize (Frontmatter.Marshal p1).1. intros s.
    induction s as [ | c s IH]; [ reflexivity | ].
    rewrite append_cons. now rewrite <- IH. }
  exists w1, p1. split; [ exact E1 | ]. split; [ reflexivity | ].
  split; [ exact F1 | ].
  intros w2 Hf Hn.
  assert (Hd : Os.files w2 !! dir = Some Os.Dir).
  { rewrite Hf. cbn [w1 Os.files]. rewrite lookup_insert_ne; [ exact Ld | ].
    intros Heq. rewrite <- Heq in Ld. congruence. }
  assert (Hv : validMetadata p1) by (unfold validMetadata; cbn; lia).
  pose proof (Unmarshal_Marshal p1 EmptyString (withModTime (Os.now w) (newEntry today)) Hv)
    as U.
  replace ((Frontmatter.Marshal p1).1 +:+ EmptyString)
    with (Frontmatter.Marshal p1).1 in U.
  2:{ generalize (Frontmatter.Marshal p1).1. intros s.
      induction s as [ | c s IH]; [ reflexivity | ].
      rewrite append_cons. now rewrite <- IH. }
  exists p1. split; [ | repeat split ].
  unfold New, Os.Stat at 1. rewrite Hd. cbn [Os.IsDir negb Path newEntry].
  rewrite Hn. fold today. unfold Os.Stat. rewrite Hf, F1.
  unfold Load, Os.Open. cbn [Path newEntry]. rewrite Hf, F1.
  cbn [Os.ReadAll Os.FStat Os.ModTime]. rewrite U. reflexivity.
Qed.

Lemma New_finds_what_it_created_witness :
  Os.files emptyJournal !! "journal" = Some Os.Dir
  /\ Os.files emptyJournal
       !! ("journal" +:+ Filepath.Separator
           +:+ Time.Format (Os.now emptyJournal) entryFormat) = None
  /\ Os.readOnly emptyJournal = false
  /\ exists w1 p1,
      New "journal" emptyJournal = (w1, Some p1, None)
      /\ p1 = withModTime (Os.now emptyJournal)
                (newEntry ("journal" +:+ Filepath.Separator
                           +:+ Time.Format (Os.now emptyJournal) entryFormat))
      /\ Os.files w1 !! Path p1
         = Some (Os.File (Frontmatter.Marshal p1).1 (Os.now emptyJournal) true)
      /\ forall w2,
          Os.files w2 = Os.files w1 ->
          Time.Format (Os.now w2) entryFormat
          = Time.Format (Os.now emptyJournal) entryFormat ->
          exists p2,
            New "journal" w2 = (w2, Some p2, None)
            /\ Path p2 = Path p1 /\ Body p2 = Body p1
            /\ Seconds p2 = Seconds p1 /\ LowMood p2 = LowMood p1
            /\ HighMood p2 = HighMood p1 /\ AverageMood p2 = AverageMood p1.
Proof.
  assert (Ld : Os.files emptyJournal !! "journal" = Some Os.Dir)
    by (vm_compute; reflexivity).
  assert (Lt : Os.files emptyJournal
                 !! ("journal" +:+ Filepath.Separator
                     +:+ Time.Format (Os.now emptyJournal) entryFormat) = None)
    by (vm_compute; reflexivity).
  assert (Hw : Os.readOnly emptyJournal = false) by reflexivity.
  split; [ exact Ld | ]. split; [ exact Lt | ]. split; [ exact Hw | ].
  exact (New_finds_what_it_created "journal" emptyJournal Ld Lt Hw).
Defined.
